(** * ClusterRunner worker agent: a shallow embedding of
      [app/worker/cluster_worker.py] and the properties of its lifecycle core.

    The worker object is a record.  Every method is a function in a small
    state/exception/writer monad over the process (the worker object and the
    table of threads it has started).  A method called from outside (request
    handler, heartbeat scheduler, shutdown hook) runs as one action;
    [start_working_on_subjob] is cut at its blocking [get()].  The threads
    the worker starts ([_async_setup_build], [_async_teardown_build],
    [_execute_subjob]) are program-counter machines that run one segment at
    a time, a segment reaching from one call that leaves the module (or one
    queue operation that may block) to the next, and an explicit schedule
    interleaves actions and segments.  Calls that leave the module (project
    type, executors, network, clock, analytics) are recorded as events; what
    such a call answers, a return or an exception, is an input of the
    segment that makes it.  An exception that leaves a thread ends that
    thread; the rest of the process goes on. *)

From Stdlib Require Import ZArith String Bool Lia.
From stdpp Require Import base option list.

Open Scope Z_scope.

(** ** Values crossing the module boundary *)

(** [class WorkerState(str, Enum)]. *)
Inductive WorkerState : Type :=
| DISCONNECTED
| SHUTDOWN
| IDLE
| SETUP_COMPLETED
| SETUP_FAILED.

(** The [str] value of each member, as written in the class body. *)
Definition WorkerState_value (s : WorkerState) : string :=
  match s with
  | DISCONNECTED => "DISCONNECTED"%string
  | SHUTDOWN => "SHUTDOWN"%string
  | IDLE => "IDLE"%string
  | SETUP_COMPLETED => "SETUP_COMPLETE"%string
  | SETUP_FAILED => "SETUP_FAILED"%string
  end.

(** The member name ([WorkerState.X.name]). *)
Definition WorkerState_name (s : WorkerState) : string :=
  match s with
  | DISCONNECTED => "DISCONNECTED"%string
  | SHUTDOWN => "SHUTDOWN"%string
  | IDLE => "IDLE"%string
  | SETUP_COMPLETED => "SETUP_COMPLETED"%string
  | SETUP_FAILED => "SETUP_FAILED"%string
  end.

(** [member == some_str]: the enum inherits [str.__eq__], so a member is
    compared through its value. *)
Definition WorkerState_eq_str (s : WorkerState) (x : string) : bool :=
  String.eqb (WorkerState_value s) x.

(** The exceptions the module raises, catches or lets through. *)
Inductive exn : Type :=
| RuntimeError
| BadRequestError
| SetupFailureError
| ConnectionError          (* requests.ConnectionError *)
| Timeout                  (* requests.Timeout *)
| AttributeError           (* a method looked up on None *)
| TypeError                (* int(None) *)
| SystemExit (code : Z)
| OtherError.

(** What a call out of the module answers when its value is not used. *)
Inductive outcome : Type :=
| Returned
| Raised (e : exn).

(** What the registration POST answers: a response whose JSON body has (or
    lacks) an integer under ["worker_id"], or an exception. *)
Inductive post_outcome : Type :=
| PostReturned (json_worker_id : option Z)
| PostRaised (e : exn).

(** The handlers [except (requests.ConnectionError, requests.Timeout)]. *)
Definition is_transport_error (e : exn) : bool :=
  match e with
  | ConnectionError | Timeout => true
  | _ => false
  end.

Module SubjobExecutor.
(** Modelled from the spec: [app.worker.subjob_executor.SubjobExecutor] is
    not part of the sources; an executor is an opaque handle with a dense,
    immutable [id]. *)
Record t : Type := new { id : nat }.
End SubjobExecutor.

(** [project_type_params]: the parameter bag sent by the manager. *)
Definition Params : Type := list (string * string).

(** Modelled from the spec: [util.create_project_type] and the project type
    classes are not part of the sources; a project type is an opaque handle
    constructed from the manager-supplied parameter bag. *)
Record ProjectType : Type := create_project_type { pt_params : Params }.

(** Modelled from the spec: [app.util.single_use_coin.SingleUseCoin] is not
    part of the sources; a single-use guard whose [spend] succeeds exactly
    once. *)
Record SingleUseCoin : Type := mkCoin { is_spent : bool }.

Definition SingleUseCoin_new : SingleUseCoin := mkCoin false.

(** [coin.spend()]: the answer and the coin afterwards. *)
Definition spend (c : SingleUseCoin) : bool * SingleUseCoin :=
  (negb (is_spent c), mkCoin true).

(** Modelled from the spec: [app.util.url_builder.UrlBuilder] is not part of
    the sources; it composes [{manager}/v1/{path...}] from a base url. *)
Record UrlBuilder : Type := mkUrlBuilder { base_url : string }.

(** ** [queue.Queue] *)

Record Queue : Type := mkQueue {
  maxsize : Z;
  queue : list SubjobExecutor.t
}.

Definition qsize (q : Queue) : Z := Z.of_nat (length (queue q)).

(** [Queue.full()]: [0 < maxsize <= qsize]; a queue built with
    [maxsize <= 0] is unbounded and never full. *)
Definition full (q : Queue) : bool :=
  (0 <? maxsize q) && (maxsize q <=? qsize q).

(** [Queue.put(item)]: appends at the tail; [None] while the caller would
    block (the queue is full). *)
Definition Queue_put (x : SubjobExecutor.t) (q : Queue) : option Queue :=
  if full q then None else Some (mkQueue (maxsize q) (queue q ++ [x])).

(** [Queue.get()]: pops the head; [None] while the caller would block (the
    queue is empty). *)
Definition Queue_get (q : Queue) : option (SubjobExecutor.t * Queue) :=
  match queue q with
  | [] => None
  | x :: rest => Some (x, mkQueue (maxsize q) rest)
  end.

(** ** The worker object *)

(** A [dict] keyed by executor id; Python dicts iterate in insertion order,
    so the dict is an association list. *)
Definition dict : Type := list (nat * SubjobExecutor.t).

(** [d[k] = v]. *)
Fixpoint dict_set (k : nat) (v : SubjobExecutor.t) (d : dict) : dict :=
  match d with
  | [] => [(k, v)]
  | (k', v') :: d' =>
      if Nat.eqb k k' then (k, v) :: d' else (k', v') :: dict_set k v d'
  end.

(** [d.values()]. *)
Definition values (d : dict) : list SubjobExecutor.t := map snd d.

Definition keys (d : dict) : list nat := map fst d.

Record ClusterWorker : Type := mkWorker {
  port : Z;
  host : string;
  is_alive : bool;
  _worker_id : option Z;
  _num_executors : Z;
  _idle_executors : Queue;
  executors_by_id : dict;
  _manager_url : option string;
  _manager_api : option UrlBuilder;
  _project_type : option ProjectType;
  _current_build_id : option Z;
  _build_teardown_coin : option SingleUseCoin;
  _base_executor_index : option Z;
  _heartbeat_failure_count : Z;
  _heartbeat_failure_threshold : Z;
  _heartbeat_interval : Z
}.

Definition set_is_alive (v : bool) (w : ClusterWorker) : ClusterWorker :=
  mkWorker (port w) (host w) v (_worker_id w) (_num_executors w)
    (_idle_executors w) (executors_by_id w) (_manager_url w) (_manager_api w)
    (_project_type w) (_current_build_id w) (_build_teardown_coin w)
    (_base_executor_index w) (_heartbeat_failure_count w)
    (_heartbeat_failure_threshold w) (_heartbeat_interval w).

Definition set_worker_id (v : option Z) (w : ClusterWorker) : ClusterWorker :=
  mkWorker (port w) (host w) (is_alive w) v (_num_executors w)
    (_idle_executors w) (executors_by_id w) (_manager_url w) (_manager_api w)
    (_project_type w) (_current_build_id w) (_build_teardown_coin w)
    (_base_executor_index w) (_heartbeat_failure_count w)
    (_heartbeat_failure_threshold w) (_heartbeat_interval w).

Definition set_idle_executors (v : Queue) (w : ClusterWorker) : ClusterWorker :=
  mkWorker (port w) (host w) (is_alive w) (_worker_id w) (_num_executors w)
    v (executors_by_id w) (_manager_url w) (_manager_api w)
    (_project_type w) (_current_build_id w) (_build_teardown_coin w)
    (_base_executor_index w) (_heartbeat_failure_count w)
    (_heartbeat_failure_threshold w) (_heartbeat_interval w).

Definition set_manager (url : string) (w : ClusterWorker) : ClusterWorker :=
  mkWorker (port w) (host w) (is_alive w) (_worker_id w) (_num_executors w)
    (_idle_executors w) (executors_by_id w) (Some url)
    (Some (mkUrlBuilder url))
    (_project_type w) (_current_build_id w) (_build_teardown_coin w)
    (_base_executor_index w) (_heartbeat_failure_count w)
    (_heartbeat_failure_threshold w) (_heartbeat_interval w).

Definition set_project_type (v : option ProjectType) (w : ClusterWorker)
  : ClusterWorker :=
  mkWorker (port w) (host w) (is_alive w) (_worker_id w) (_num_executors w)
    (_idle_executors w) (executors_by_id w) (_manager_url w) (_manager_api w)
    v (_current_build_id w) (_build_teardown_coin w)
    (_base_executor_index w) (_heartbeat_failure_count w)
    (_heartbeat_failure_threshold w) (_heartbeat_interval w).

Definition set_current_build_id (v : option Z) (w : ClusterWorker)
  : ClusterWorker :=
  mkWorker (port w) (host w) (is_alive w) (_worker_id w) (_num_executors w)
    (_idle_executors w) (executors_by_id w) (_manager_url w) (_manager_api w)
    (_project_type w) v (_build_teardown_coin w)
    (_base_executor_index w) (_heartbeat_failure_count w)
    (_heartbeat_failure_threshold w) (_heartbeat_interval w).

Definition set_build_teardown_coin (v : option SingleUseCoin)
  (w : ClusterWorker) : ClusterWorker :=
  mkWorker (port w) (host w) (is_alive w) (_worker_id w) (_num_executors w)
    (_idle_executors w) (executors_by_id w) (_manager_url w) (_manager_api w)
    (_project_type w) (_current_build_id w) v
    (_base_executor_index w) (_heartbeat_failure_count w)
    (_heartbeat_failure_threshold w) (_heartbeat_interval w).

Definition set_base_executor_index (v : option Z) (w : ClusterWorker)
  : ClusterWorker :=
  mkWorker (port w) (host w) (is_alive w) (_worker_id w) (_num_executors w)
    (_idle_executors w) (executors_by_id w) (_manager_url w) (_manager_api w)
    (_project_type w) (_current_build_id w) (_build_teardown_coin w)
    v (_heartbeat_failure_count w)
    (_heartbeat_failure_threshold w) (_heartbeat_interval w).

Definition set_heartbeat_failure_count (v : Z) (w : ClusterWorker)
  : ClusterWorker :=
  mkWorker (port w) (host w) (is_alive w) (_worker_id w) (_num_executors w)
    (_idle_executors w) (executors_by_id w) (_manager_url w) (_manager_api w)
    (_project_type w) (_current_build_id w) (_build_teardown_coin w)
    (_base_executor_index w) v
    (_heartbeat_failure_threshold w) (_heartbeat_interval w).

(** ** Threads, events and the process *)

(** Where [_async_setup_build] stands: before [fetch_project]; in the loop
    over the snapshotted executors ([rest] still to configure, and
    [run_job_config_setup] next when [rest] is empty); before the
    notification chosen by the [except]/[else] branches. *)
Inductive setup_pc : Type :=
| SetupFetch
| SetupConfigure (rest : list SubjobExecutor.t)
| SetupNotify (st : WorkerState).

(** Where [_async_teardown_build] stands: entering
    [_do_build_teardown_and_reset]; inside [project_type.teardown_build];
    in the polling loop; before the responsiveness probe; before the IDLE
    notification. *)
Inductive teardown_pc : Type :=
| TdEnter
| TdInTeardownBuild (pt : ProjectType) (timeout : option Z)
| TdWait
| TdProbe
| TdNotify.

(** Where [_execute_subjob] stands: before [executor.execute_subjob]; before
    [open(results_file)]; before [put(executor)]; before the results POST
    (the url builder was read when [results_url] was computed). *)
Inductive subjob_pc : Type :=
| SjExecute
| SjOpen
| SjRelease (results_url : UrlBuilder)
| SjUpload (results_url : UrlBuilder).

(** The activities the worker runs besides its callers: the three thread
    targets, and a [start_working_on_subjob] request that passed the build-id
    check and is in (or about to enter) the blocking [get()]. *)
Inductive task : Type :=
| AsyncSetupBuild (executors : list SubjobExecutor.t)
    (project_type_params : Params) (build_executor_start_index : Z)
    (pc : setup_pc)
| AsyncTeardownBuild (pc : teardown_pc)
| StartWorkingOnSubjob (build_id subjob_id : Z)
    (atomic_commands : list string)
| ExecuteSubjob (build_id subjob_id : Z) (executor : SubjobExecutor.t)
    (atomic_commands : list string) (pc : subjob_pc).

Inductive status : Type :=
| Running
| Finished
| Crashed (e : exn).

Record thread : Type := mkThread { body : task; state : status }.

Inductive analytics_event : Type :=
| SUBJOB_EXECUTION_START
| SUBJOB_EXECUTION_FINISH.

Inductive callback : Type :=
| cb_do_build_teardown_and_reset (timeout : Z)
| cb_disconnect_from_manager.

(** Calls that leave the module, with what they answered. *)
Inductive event : Type :=
| FetchProject (pt : ProjectType) (o : outcome)
| ConfigureProjectType (e : SubjobExecutor.t) (params : Params) (o : outcome)
| RunJobConfigSetup (pt : ProjectType) (o : outcome)
| TeardownBuild (pt : ProjectType) (timeout : option Z) (o : outcome)
| ExecutorKill (e : SubjobExecutor.t)
| ExecutorExecuteSubjob (e : SubjobExecutor.t) (build_id subjob_id : Z)
    (atomic_commands : list string) (base_executor_index : option Z)
    (o : outcome)
| AnalyticsRecord (kind : analytics_event) (build_id subjob_id : Z)
    (executor_id : nat)
| OpenResultsFile (o : outcome)
| QueueGet (e : SubjobExecutor.t)
| QueuePut (e : SubjobExecutor.t)
| QueueFull (answer : bool)
| Sleep (seconds : Z)
| PutState (api : UrlBuilder) (worker_id : option Z) (st : WorkerState)
    (o : outcome)
| PostHeartbeat (api : UrlBuilder) (worker_id : option Z) (o : outcome)
| PostWorker (api : UrlBuilder) (worker : string * Z) (num_executors : Z)
    (o : post_outcome)
| PostResult (api : UrlBuilder) (build_id subjob_id : Z) (executor_id : nat)
    (o : outcome)
| GetManager (api : UrlBuilder) (o : outcome)
| ThreadStart (tid : nat) (t : task)
| Parked (tid : nat)
| AddTeardownCallback (cb : callback)
| SchedulerEnter (delay : Z)
| SysExit (code : Z)
| Reply (executor_id : nat)
| Raise (e : exn).

Record process : Type := mkProcess {
  self : ClusterWorker;
  threads : list thread
}.

(** ** The monad of method bodies *)

Inductive result (A : Type) : Type :=
| Value (a : A)
| Exception (e : exn)
| Blocks.
Arguments Value {A} a.
Arguments Exception {A} e.
Arguments Blocks {A}.

(** A method body: from the process to its result, the process afterwards
    and the events emitted, in order. *)
Definition Py (A : Type) : Type := process -> result A * process * list event.

#[global] Instance Py_ret : MRet Py := fun A a p => (Value a, p, []).

#[global] Instance Py_bind : MBind Py := fun A B k m p =>
  match m p with
  | (Value a, p1, ev1) =>
      match k a p1 with
      | (r, p2, ev2) => (r, p2, ev1 ++ ev2)
      end
  | (Exception e, p1, ev1) => (Exception e, p1, ev1)
  | (Blocks, p1, ev1) => (Blocks, p1, ev1)
  end.

#[global] Instance Py_fmap : FMap Py := fun A B f m p =>
  match m p with
  | (Value a, p1, ev1) => (Value (f a), p1, ev1)
  | (Exception e, p1, ev1) => (Exception e, p1, ev1)
  | (Blocks, p1, ev1) => (Blocks, p1, ev1)
  end.

Definition get_self : Py ClusterWorker := fun p => (Value (self p), p, []).

Definition update (f : ClusterWorker -> ClusterWorker) : Py unit :=
  fun p => (Value tt, mkProcess (f (self p)) (threads p), []).

Definition emit (e : event) : Py unit := fun p => (Value tt, p, [e]).

Definition raise {A : Type} (e : exn) : Py A := fun p => (Exception e, p, []).

(** [SafeThread(target=..., args=...).start()]. *)
Definition thread_start (t : task) : Py unit := fun p =>
  (Value tt, mkProcess (self p) (threads p ++ [mkThread t Running]),
   [ThreadStart (length (threads p)) t]).

(** The caller goes on as a schedulable activity of its own (it is about to
    block). *)
Definition park (t : task) : Py unit := fun p =>
  (Value tt, mkProcess (self p) (threads p ++ [mkThread t Running]),
   [Parked (length (threads p))]).

(** The call returned or raised what the environment says. *)
Definition answer (o : outcome) : Py unit :=
  match o with
  | Returned => mret tt
  | Raised e => raise e
  end.

(** [try: m except <handled>: h]. *)
Definition try_except {A : Type} (m : Py A) (handler : exn -> option (Py A))
  : Py A := fun p =>
  match m p with
  | (Exception e, p1, ev1) =>
      match handler e with
      | Some h =>
          match h p1 with
          | (r, p2, ev2) => (r, p2, ev1 ++ ev2)
          end
      | None => (Exception e, p1, ev1)
      end
  | other => other
  end.

(** [for x in l: f(x)]. *)
Fixpoint for_each {A : Type} (l : list A) (f : A -> Py unit) : Py unit :=
  match l with
  | [] => mret tt
  | x :: l' => f x;; for_each l' f
  end.

(** [self._idle_executors.get()]. *)
Definition idle_get : Py SubjobExecutor.t := fun p =>
  match Queue_get (_idle_executors (self p)) with
  | None => (Blocks, p, [])
  | Some (x, q) =>
      (Value x, mkProcess (set_idle_executors q (self p)) (threads p),
       [QueueGet x])
  end.

(** [self._idle_executors.put(executor)]. *)
Definition idle_put (x : SubjobExecutor.t) : Py unit := fun p =>
  match Queue_put x (_idle_executors (self p)) with
  | None => (Blocks, p, [])
  | Some q =>
      (Value tt, mkProcess (set_idle_executors q (self p)) (threads p),
       [QueuePut x])
  end.

(** ** [ClusterWorker] methods *)

(** [range(n)]. *)
Definition range (n : Z) : list nat := seq 0 (Z.to_nat n).

(** The loop of [__init__]: one fresh executor per id, put in the idle
    queue and recorded in the dict. *)
Fixpoint init_executors (ids : list nat) (q : Queue) (d : dict)
  : option (Queue * dict) :=
  match ids with
  | [] => Some (q, d)
  | executor_id :: ids' =>
      let executor := SubjobExecutor.new executor_id in
      match Queue_put executor q with
      | None => None
      | Some q' => init_executors ids' q' (dict_set executor_id executor d)
      end
  end.

(** [ClusterWorker.__init__(port, host, num_executors)]; the two heartbeat
    settings are read from [Configuration], which is not part of the
    sources, and are taken as arguments.  [None] would mean that a [put]
    blocks. *)
Definition ClusterWorker_init (port : Z) (host : string) (num_executors : Z)
  (heartbeat_failure_threshold heartbeat_interval : Z) : option ClusterWorker :=
  match init_executors (range num_executors) (mkQueue num_executors []) [] with
  | None => None
  | Some (q, d) =>
      Some (mkWorker port host true None num_executors q d None None
              None None None None 0
              heartbeat_failure_threshold heartbeat_interval)
  end.

(** [_send_heartbeat_to_manager]. *)
Definition _send_heartbeat_to_manager (o : outcome) : Py unit :=
  w ← get_self;
  match _manager_api w with
  | None => raise AttributeError
  | Some api => emit (PostHeartbeat api (_worker_id w) o);; answer o
  end.

(** [kill]: [sys.exit(0)]. *)
Definition kill : Py unit := emit (SysExit 0);; raise (SystemExit 0).

(** [_run_heartbeat]: one tick. *)
Definition _run_heartbeat (o : outcome) : Py unit :=
  try_except
    (_send_heartbeat_to_manager o;;
     update (set_heartbeat_failure_count 0))
    (fun e =>
       if is_transport_error e then
         Some (update (fun w =>
                 set_heartbeat_failure_count (_heartbeat_failure_count w + 1) w);;
               w ← get_self;
               if _heartbeat_failure_threshold w <=? _heartbeat_failure_count w
               then kill
               else mret tt)
       else None);;
  w ← get_self;
  emit (SchedulerEnter (_heartbeat_interval w)).

(** [setup_build]. *)
Definition setup_build (build_id : Z) (project_type_params : Params)
  (build_executor_start_index : Z) : Py unit :=
  update (set_current_build_id (Some build_id));;
  update (set_build_teardown_coin (Some SingleUseCoin_new));;
  update (set_project_type (Some (create_project_type project_type_params)));;
  w ← get_self;
  if negb (full (_idle_executors w)) then raise RuntimeError
  else
    let executors := queue (_idle_executors w) in
    thread_start (AsyncSetupBuild executors project_type_params
                    build_executor_start_index SetupFetch).

(** [build_id is not None and build_id != self._current_build_id], for a
    current build id that is not None. *)
Definition other_build (build_id : option Z) (current : Z) : bool :=
  match build_id with
  | None => false
  | Some b => negb (b =? current)
  end.

(** [teardown_build]. *)
Definition teardown_build (build_id : option Z) : Py unit :=
  w ← get_self;
  match _current_build_id w with
  | None => raise BadRequestError
  | Some current =>
      if other_build build_id current then raise BadRequestError
      else thread_start (AsyncTeardownBuild TdEnter)
  end.

(** [_do_build_teardown_and_reset], first half: the kill loop. *)
Definition kill_all : Py unit :=
  w ← get_self;
  for_each (values (executors_by_id w)) (fun executor => emit (ExecutorKill executor)).

(** [_do_build_teardown_and_reset], the gate
    [not coin or not coin.spend() or not self._project_type]: [None] when
    the method returns there, the project type to tear down otherwise. *)
Definition teardown_gate : Py (option ProjectType) :=
  w ← get_self;
  match _build_teardown_coin w with
  | None => mret None
  | Some coin =>
      let '(fresh, coin') := spend coin in
      update (set_build_teardown_coin (Some coin'));;
      if negb fresh then mret None
      else mret (_project_type w)
  end.

(** [_do_build_teardown_and_reset], from the return of
    [project_type.teardown_build] on. *)
Definition teardown_finish (pt : ProjectType) (timeout : option Z)
  (o : outcome) : Py unit :=
  emit (TeardownBuild pt timeout o);;
  answer o;;
  update (set_current_build_id None);;
  update (set_project_type None);;
  update (set_base_executor_index None).

(** [_do_build_teardown_and_reset(timeout)], run without interruption. *)
Definition _do_build_teardown_and_reset (timeout : option Z) (o : outcome)
  : Py unit :=
  kill_all;;
  g ← teardown_gate;
  match g with
  | None => mret tt
  | Some pt => teardown_finish pt timeout o
  end.

(** [_notify_manager_of_state_change]; [error_on_failure=True] makes a
    rejected PUT an exception. *)
Definition _notify_manager_of_state_change (new_state : WorkerState)
  (o : outcome) : Py unit :=
  w ← get_self;
  match _manager_api w with
  | None => raise AttributeError
  | Some api => emit (PutState api (_worker_id w) new_state o);; answer o
  end.

(** [_is_manager_responsive]. *)
Definition _is_manager_responsive (o : outcome) : Py bool :=
  w ← get_self;
  match _manager_api w with
  | None => raise AttributeError
  | Some api =>
      emit (GetManager api o);;
      match o with
      | Returned => mret true
      | Raised e => if is_transport_error e then mret false else raise e
      end
  end.

(** [_send_manager_idle_notification]. *)
Definition _send_manager_idle_notification (probe put : outcome) : Py unit :=
  responsive ← _is_manager_responsive probe;
  if negb responsive then mret tt
  else _notify_manager_of_state_change IDLE put.

(** [_disconnect_from_manager]. *)
Definition _disconnect_from_manager (probe put : outcome) : Py unit :=
  update (set_is_alive false);;
  responsive ← _is_manager_responsive probe;
  if negb responsive then mret tt
  else _notify_manager_of_state_change DISCONNECTED put.

(** [manager_url or 'localhost:43000']. *)
Definition url_or_default (manager_url : option string) : string :=
  match manager_url with
  | None => "localhost:43000"%string
  | Some ""%string => "localhost:43000"%string
  | Some url => url
  end.

(** [connect_to_manager]. *)
Definition connect_to_manager (manager_url : option string) (o : post_outcome)
  : Py unit :=
  update (set_is_alive true);;
  update (set_manager (url_or_default manager_url));;
  w ← get_self;
  emit (PostWorker (mkUrlBuilder (url_or_default manager_url))
          (host w, port w) (_num_executors w) o);;
  match o with
  | PostRaised e => raise e
  | PostReturned None => raise TypeError
  | PostReturned (Some n) =>
      update (set_worker_id (Some n));;
      emit (AddTeardownCallback (cb_do_build_teardown_and_reset 30));;
      emit (AddTeardownCallback cb_disconnect_from_manager)
  end.

(** [start_working_on_subjob], up to the blocking [get()]. *)
Definition start_working_on_subjob (build_id subjob_id : Z)
  (atomic_commands : list string) : Py unit :=
  w ← get_self;
  if negb (bool_decide (Some build_id = _current_build_id w))
  then raise BadRequestError
  else park (StartWorkingOnSubjob build_id subjob_id atomic_commands).

(** ** Thread bodies, one atomic segment at a time *)

(** The [try]/[except SetupFailureError]/[else] of [_async_setup_build]
    around one of its calls: where the task goes when the call answers [o]. *)
Definition after_setup_call (o : outcome) (next : setup_pc) : Py setup_pc :=
  match o with
  | Returned => mret next
  | Raised SetupFailureError => mret (SetupNotify SETUP_FAILED)
  | Raised e => raise e
  end.

(** [_async_setup_build], one call at a time; [None] when the method has
    returned. *)
Definition async_setup_build_step (executors : list SubjobExecutor.t)
  (project_type_params : Params) (build_executor_start_index : Z)
  (pc : setup_pc) (o : outcome) : Py (option setup_pc) :=
  match pc with
  | SetupFetch =>
      update (set_base_executor_index (Some build_executor_start_index));;
      w ← get_self;
      match _project_type w with
      | None => raise AttributeError
      | Some pt =>
          emit (FetchProject pt o);;
          Some <$> after_setup_call o (SetupConfigure executors)
      end
  | SetupConfigure (executor :: rest) =>
      emit (ConfigureProjectType executor project_type_params o);;
      Some <$> after_setup_call o (SetupConfigure rest)
  | SetupConfigure [] =>
      w ← get_self;
      match _project_type w with
      | None => raise AttributeError
      | Some pt =>
          emit (RunJobConfigSetup pt o);;
          Some <$> after_setup_call o (SetupNotify SETUP_COMPLETED)
      end
  | SetupNotify st =>
      _notify_manager_of_state_change st o;;
      mret None
  end.

(** [_async_teardown_build], one segment at a time. *)
Definition async_teardown_build_step (pc : teardown_pc) (o : outcome)
  : Py (option teardown_pc) :=
  match pc with
  | TdEnter =>
      kill_all;;
      g ← teardown_gate;
      match g with
      | None => mret (Some TdWait)
      | Some pt => mret (Some (TdInTeardownBuild pt None))
      end
  | TdInTeardownBuild pt timeout =>
      teardown_finish pt timeout o;;
      mret (Some TdWait)
  | TdWait =>
      w ← get_self;
      let is_full := full (_idle_executors w) in
      emit (QueueFull is_full);;
      if negb is_full then emit (Sleep 1);; mret (Some TdWait)
      else mret (Some TdProbe)
  | TdProbe =>
      responsive ← _is_manager_responsive o;
      if negb responsive then mret None
      else mret (Some TdNotify)
  | TdNotify =>
      _notify_manager_of_state_change IDLE o;;
      mret None
  end.

(** [start_working_on_subjob], from the blocking [get()] on. *)
Definition start_working_on_subjob_resume (build_id subjob_id : Z)
  (atomic_commands : list string) : Py unit :=
  executor ← idle_get;
  thread_start (ExecuteSubjob build_id subjob_id executor atomic_commands
                  SjExecute);;
  emit (Reply (SubjobExecutor.id executor)).

(** [_execute_subjob], one call at a time. *)
Definition execute_subjob_step (build_id subjob_id : Z)
  (executor : SubjobExecutor.t) (atomic_commands : list string)
  (pc : subjob_pc) (o : outcome) : Py (option subjob_pc) :=
  match pc with
  | SjExecute =>
      emit (AnalyticsRecord SUBJOB_EXECUTION_START build_id subjob_id
              (SubjobExecutor.id executor));;
      w ← get_self;
      emit (ExecutorExecuteSubjob executor build_id subjob_id atomic_commands
              (_base_executor_index w) o);;
      answer o;;
      mret (Some SjOpen)
  | SjOpen =>
      emit (AnalyticsRecord SUBJOB_EXECUTION_FINISH build_id subjob_id
              (SubjobExecutor.id executor));;
      w ← get_self;
      match _manager_api w with
      | None => raise AttributeError
      | Some api =>
          emit (OpenResultsFile o);;
          answer o;;
          mret (Some (SjRelease api))
      end
  | SjRelease api =>
      idle_put executor;;
      mret (Some (SjUpload api))
  | SjUpload api =>
      emit (PostResult api build_id subjob_id (SubjobExecutor.id executor) o);;
      answer o;;
      mret None
  end.

(** One segment of any task: the task to go on with, or [None] when the
    body has returned. *)
Definition task_step (t : task) (o : outcome) : Py (option task) :=
  match t with
  | AsyncSetupBuild executors params start_index pc =>
      fmap (AsyncSetupBuild executors params start_index)
        <$> async_setup_build_step executors params start_index pc o
  | AsyncTeardownBuild pc =>
      fmap AsyncTeardownBuild <$> async_teardown_build_step pc o
  | StartWorkingOnSubjob build_id subjob_id atomic_commands =>
      start_working_on_subjob_resume build_id subjob_id atomic_commands;;
      mret None
  | ExecuteSubjob build_id subjob_id executor atomic_commands pc =>
      fmap (ExecuteSubjob build_id subjob_id executor atomic_commands)
        <$> execute_subjob_step build_id subjob_id executor atomic_commands pc o
  end.

(** ** The running worker *)

(** A tag tells who emitted an event: a thread of the table, or a caller of
    the worker's methods (request handler, heartbeat scheduler, shutdown
    hook). *)
Definition tag : Type := option nat.

Record system : Type := mkSystem {
  proc : process;
  trace : list (tag * event)
}.

Inductive action : Type :=
| CallConnectToManager (manager_url : option string) (o : post_outcome)
| CallSetupBuild (build_id : Z) (project_type_params : Params)
    (build_executor_start_index : Z)
| CallStartWorkingOnSubjob (build_id subjob_id : Z)
    (atomic_commands : list string)
| CallTeardownBuild (build_id : option Z)
| CallRunHeartbeat (o : outcome)
| CallDisconnectFromManager (probe put : outcome)
| CallDoBuildTeardownAndReset (timeout : option Z) (o : outcome)
| StepThread (tid : nat) (o : outcome).

Definition tagged (who : tag) (evs : list event) : list (tag * event) :=
  map (pair who) evs.

(** A method called from outside the thread table. *)
Definition call (m : Py unit) (s : system) : system :=
  match m (proc s) with
  | (Value _, p, evs) => mkSystem p (trace s ++ tagged None evs)
  | (Exception e, p, evs) => mkSystem p (trace s ++ tagged None (evs ++ [Raise e]))
  | (Blocks, _, _) => s
  end.

(** Thread [tid] runs its next segment; nothing happens when it is not
    running or is blocked. *)
Definition step_thread (tid : nat) (o : outcome) (s : system) : system :=
  match threads (proc s) !! tid with
  | Some (mkThread t Running) =>
      match task_step t o (proc s) with
      | (Value next, p, evs) =>
          let th := match next with
                    | Some t' => mkThread t' Running
                    | None => mkThread t Finished
                    end in
          mkSystem (mkProcess (self p) (<[tid := th]> (threads p)))
            (trace s ++ tagged (Some tid) evs)
      | (Exception e, p, evs) =>
          mkSystem (mkProcess (self p) (<[tid := mkThread t (Crashed e)]> (threads p)))
            (trace s ++ tagged (Some tid) evs)
      | (Blocks, _, _) => s
      end
  | _ => s
  end.

Definition step (a : action) (s : system) : system :=
  match a with
  | CallConnectToManager url o => call (connect_to_manager url o) s
  | CallSetupBuild b params idx => call (setup_build b params idx) s
  | CallStartWorkingOnSubjob b sj cmds =>
      call (start_working_on_subjob b sj cmds) s
  | CallTeardownBuild b => call (teardown_build b) s
  | CallRunHeartbeat o => call (_run_heartbeat o) s
  | CallDisconnectFromManager probe put =>
      call (_disconnect_from_manager probe put) s
  | CallDoBuildTeardownAndReset timeout o =>
      call (_do_build_teardown_and_reset timeout o) s
  | StepThread tid o => step_thread tid o s
  end.

(** The worker after a schedule, oldest action first. *)
Definition run (schedule : list action) (s : system) : system :=
  fold_left (fun s a => step a s) schedule s.

(** A freshly constructed worker: no thread started, nothing emitted. *)
Definition boot (w : ClusterWorker) : system :=
  mkSystem (mkProcess w []) [].

(** What thread [tid] emitted, in order. *)
Definition log_of (who : tag) (tr : list (tag * event)) : list event :=
  map snd (filter (fun te => bool_decide (fst te = who)) tr).

(** ** Vocabulary of the statements *)

(** The kill events of one pass over [executors_by_id.values()]. *)
Definition kills (w : ClusterWorker) : list event :=
  map ExecutorKill (values (executors_by_id w)).

Definition is_teardown_build (ev : event) : bool :=
  match ev with
  | TeardownBuild _ _ _ => true
  | _ => false
  end.

(** The three attributes cleared at the end of a teardown. *)
Definition cleared (w : ClusterWorker) : ClusterWorker :=
  set_base_executor_index None
    (set_project_type None (set_current_build_id None w)).

(** The coin of the current build cannot be spent (again). *)
Definition coin_used (p : process) : Prop :=
  _build_teardown_coin (self p) = None
  \/ _build_teardown_coin (self p) = Some (mkCoin true).

(** Calls of [_do_build_teardown_and_reset] one after the other, each with
    its own timeout and its own answer of [project_type.teardown_build];
    a call that raises does not keep later callers from calling. *)
Fixpoint teardown_calls (calls : list (option Z * outcome)) (p : process)
  : process * list event :=
  match calls with
  | [] => (p, [])
  | (timeout, o) :: calls' =>
      match _do_build_teardown_and_reset timeout o p with
      | (_, p1, ev1) =>
          match teardown_calls calls' p1 with
          | (p2, ev2) => (p2, ev1 ++ ev2)
          end
      end
  end.

(** [_hb_scheduler.run()]: ticks follow one another as long as each one
    re-enters itself in the scheduler. *)
Fixpoint heartbeat_loop (ticks : list outcome) : Py unit :=
  match ticks with
  | [] => mret tt
  | o :: ticks' => _run_heartbeat o;; heartbeat_loop ticks'
  end.

Definition is_failure (o : outcome) : bool :=
  match o with
  | Returned => false
  | Raised e => is_transport_error e
  end.

(** How many transport failures end the list of ticks. *)
Fixpoint leading_failures (ticks : list outcome) : Z :=
  match ticks with
  | [] => 0
  | o :: ticks' => if is_failure o then 1 + leading_failures ticks' else 0
  end.

Definition consecutive_failures (ticks : list outcome) : Z :=
  leading_failures (rev ticks).

(** The registration an action performs, if any. *)
Definition registration (a : action) : option Z :=
  match a with
  | CallConnectToManager _ (PostReturned (Some n)) => Some n
  | _ => None
  end.

(** The last registration of a schedule, or [previous] when it has none. *)
Definition last_registration (schedule : list action) (previous : option Z)
  : option Z :=
  fold_left (fun acc a =>
               match registration a with
               | Some n => Some n
               | None => acc
               end) schedule previous.

(** *** Example workers *)

Definition example_url : string := "manager:43000"%string.

(** One executor, in flight; build 42 is active. *)
Definition busy_worker : ClusterWorker :=
  mkWorker 43001 "host"%string true (Some 7) 1
    (mkQueue 1 []) [(0%nat, SubjobExecutor.new 0)]
    (Some example_url) (Some (mkUrlBuilder example_url))
    (Some (create_project_type [])) (Some 42) (Some SingleUseCoin_new)
    (Some 0) 0 3 5.

(** One executor, idle; build 42 is active. *)
Definition ready_worker : ClusterWorker :=
  mkWorker 43001 "host"%string true (Some 7) 1
    (mkQueue 1 [SubjobExecutor.new 0]) [(0%nat, SubjobExecutor.new 0)]
    (Some example_url) (Some (mkUrlBuilder example_url))
    (Some (create_project_type [])) (Some 42) (Some SingleUseCoin_new)
    (Some 0) 0 3 5.

(** Two executors, idle; connected as worker 7; no build. *)
Definition fresh_worker : ClusterWorker :=
  mkWorker 43001 "host"%string true (Some 7) 2
    (mkQueue 2 [SubjobExecutor.new 0; SubjobExecutor.new 1])
    [(0%nat, SubjobExecutor.new 0); (1%nat, SubjobExecutor.new 1)]
    (Some example_url) (Some (mkUrlBuilder example_url))
    None None None None 0 3 5.

(** *** Frames *)

(** A method body leaves what [f] reads of the worker as it was. *)
Definition keeps {X A : Type} (f : ClusterWorker -> X) (m : Py A) : Prop :=
  forall p, f (self (snd (fst (m p)))) = f (self p).

(** [f] reads nothing that the build, pool, connection or heartbeat
    assignments write ([_worker_id] is the one attribute left out). *)
Record frame {X : Type} (f : ClusterWorker -> X) : Prop := mkFrame {
  frame_is_alive : forall v w, f (set_is_alive v w) = f w;
  frame_idle_executors : forall v w, f (set_idle_executors v w) = f w;
  frame_manager : forall v w, f (set_manager v w) = f w;
  frame_project_type : forall v w, f (set_project_type v w) = f w;
  frame_current_build_id : forall v w, f (set_current_build_id v w) = f w;
  frame_build_teardown_coin :
    forall v w, f (set_build_teardown_coin v w) = f w;
  frame_base_executor_index :
    forall v w, f (set_base_executor_index v w) = f w;
  frame_heartbeat_failure_count :
    forall v w, f (set_heartbeat_failure_count v w) = f w
}.

(** What [ClusterWorker(43001, "host", 2)] builds with a heartbeat
    threshold of 3 and an interval of 5. *)
Definition new_worker : ClusterWorker :=
  mkWorker 43001 "host"%string true None 2
    (mkQueue 2 [SubjobExecutor.new 0; SubjobExecutor.new 1])
    [(0%nat, SubjobExecutor.new 0); (1%nat, SubjobExecutor.new 1)]
    None None None None None None 0 3 5.

(** *** Logs of threads *)

(** The task a thread was started with: its body at the first program
    counter. *)
Definition origin (t : task) : task :=
  match t with
  | AsyncSetupBuild executors params idx _ =>
      AsyncSetupBuild executors params idx SetupFetch
  | AsyncTeardownBuild _ => AsyncTeardownBuild TdEnter
  | StartWorkingOnSubjob b sj cmds => StartWorkingOnSubjob b sj cmds
  | ExecuteSubjob b sj e cmds _ => ExecuteSubjob b sj e cmds SjExecute
  end.

(** A thread that has not run yet. *)
Definition initial (th : thread) : Prop :=
  state th = Running /\ origin (body th) = body th.

Definition is_put_state (ev : event) : bool :=
  match ev with
  | PutState _ _ _ _ => true
  | _ => false
  end.

Definition is_kill (ev : event) : bool :=
  match ev with
  | ExecutorKill _ => true
  | _ => false
  end.

(** One of the three setup calls raised SetupFailureError. *)
Definition is_setup_failure (ev : event) : bool :=
  match ev with
  | FetchProject _ (Raised SetupFailureError)
  | ConfigureProjectType _ _ (Raised SetupFailureError)
  | RunJobConfigSetup _ (Raised SetupFailureError) => true
  | _ => false
  end.

(** The pool operations and the results upload of a subjob. *)
Definition is_pool_or_upload (ev : event) : bool :=
  match ev with
  | QueueGet _ | QueuePut _ | PostResult _ _ _ _ _ => true
  | _ => false
  end.

Definition pool_and_upload (log : list event) : list event :=
  filter (fun ev => is_pool_or_upload ev = true) log.

(** [configure_project_type] returned for each of [done_], in order. *)
Definition configured (params : Params) (done_ : list SubjobExecutor.t)
  : list event :=
  map (fun e => ConfigureProjectType e params Returned) done_.

(** The log of a setup thread that went through fetch, every configure and
    the job config setup without an exception. *)
Definition setup_succeeded (executors : list SubjobExecutor.t)
  (params : Params) (l : list event) : Prop :=
  exists pt pt',
    l = FetchProject pt Returned :: configured params executors
        ++ [RunJobConfigSetup pt' Returned].

(** The log of a setup thread when it reaches [pc]. *)
Definition setup_reached (executors : list SubjobExecutor.t) (params : Params)
  (pc : setup_pc) (l : list event) : Prop :=
  match pc with
  | SetupFetch => l = []
  | SetupConfigure rest =>
      exists pt done_,
        executors = done_ ++ rest
        /\ l = FetchProject pt Returned :: configured params done_
  | SetupNotify SETUP_COMPLETED => setup_succeeded executors params l
  | SetupNotify SETUP_FAILED =>
      exists l0 ev,
        l = l0 ++ [ev] /\ is_setup_failure ev = true
        /\ Forall (fun e => is_put_state e = false) l0
        /\ Forall (fun e => is_setup_failure e = false) l0
  | SetupNotify _ => False
  end.

(** The call a setup thread makes at [pc] raised [ex], or the thread died
    before making it. *)
Definition setup_crash (pc : setup_pc) (ex : exn) (tail : list event) : Prop :=
  tail = []
  \/ exists ev,
       tail = [ev] /\ is_setup_failure ev = false
       /\ match pc with
          | SetupNotify st => exists api wid, ev = PutState api wid st (Raised ex)
          | _ => is_put_state ev = false
          end.

Definition setup_inv (executors : list SubjobExecutor.t) (params : Params)
  (pc : setup_pc) (st : status) (log : list event) : Prop :=
  match st with
  | Running => setup_reached executors params pc log
  | Finished =>
      exists l sta api wid,
        pc = SetupNotify sta /\ setup_reached executors params pc l
        /\ log = l ++ [PutState api wid sta Returned]
  | Crashed ex =>
      exists l tail,
        setup_reached executors params pc l /\ setup_crash pc ex tail
        /\ log = l ++ tail
  end.

(** [n] polls of the pool that found it not full, each followed by
    [time.sleep(1)]. *)
Definition polls (n : nat) : list event :=
  concat (repeat [QueueFull false; Sleep 1] n).

(** The log of a teardown thread whose [_do_build_teardown_and_reset] has
    returned: the kills, then [project_type.teardown_build] returning if the
    gate let it through. *)
Definition teardown_returned (l : list event) : Prop :=
  exists ks td,
    l = ks ++ td
    /\ Forall (fun ev => is_kill ev = true) ks
    /\ (td = [] \/ exists pt timeout, td = [TeardownBuild pt timeout Returned]).

(** The log of a teardown thread that left the polling loop: teardown
    returned, the pool was polled every second while not full, and the last
    poll found it full. *)
Definition left_polling_loop (l : list event) : Prop :=
  exists l0 n,
    teardown_returned l0 /\ l = l0 ++ polls n ++ [QueueFull true].

Definition teardown_reached (pc : teardown_pc) (l : list event) : Prop :=
  match pc with
  | TdEnter => l = []
  | TdInTeardownBuild _ _ => Forall (fun ev => is_kill ev = true) l
  | TdWait => exists l0 n, teardown_returned l0 /\ l = l0 ++ polls n
  | TdProbe => left_polling_loop l
  | TdNotify =>
      exists l1 api, left_polling_loop l1 /\ l = l1 ++ [GetManager api Returned]
  end.

Definition teardown_inv (pc : teardown_pc) (st : status) (log : list event)
  : Prop :=
  match st with
  | Running => teardown_reached pc log
  | Finished =>
      exists l,
        teardown_reached pc l
        /\ match pc with
           | TdProbe => exists api e, log = l ++ [GetManager api (Raised e)]
           | TdNotify => exists api wid, log = l ++ [PutState api wid IDLE Returned]
           | _ => False
           end
  | Crashed ex =>
      exists l tail,
        teardown_reached pc l /\ log = l ++ tail
        /\ (tail = []
            \/ exists ev,
                 tail = [ev]
                 /\ match pc with
                    | TdNotify => exists api wid, ev = PutState api wid IDLE (Raised ex)
                    | _ => is_put_state ev = false
                    end)
  end.

(** The log of an accepted [start_working_on_subjob] request: nothing while
    it waits in [get()]; once it has returned, one [get()], the start of
    the subjob thread with the executor it got, and the reply with that
    executor's id. *)
Definition handler_inv (b sj : Z) (cmds : list string) (st : status)
  (log : list event) : Prop :=
  match st with
  | Running => log = []
  | Finished =>
      exists e c,
        log = [QueueGet e;
               ThreadStart c (ExecuteSubjob b sj e cmds SjExecute);
               Reply (SubjobExecutor.id e)]
  | Crashed _ => False
  end.

(** The pool operations and upload in the log of a subjob thread, by where
    the thread stands. *)
Definition subjob_pool_inv (b sj : Z) (e : SubjobExecutor.t) (pc : subjob_pc)
  (st : status) (log : list event) : Prop :=
  match pc, st with
  | SjUpload _, Running => pool_and_upload log = [QueuePut e]
  | SjUpload api, Finished =>
      pool_and_upload log
      = [QueuePut e; PostResult api b sj (SubjobExecutor.id e) Returned]
  | SjUpload api, Crashed ex =>
      pool_and_upload log
      = [QueuePut e; PostResult api b sj (SubjobExecutor.id e) (Raised ex)]
  | _, Finished => False
  | SjRelease _, Crashed _ => False
  | _, _ => pool_and_upload log = []
  end.

(** A subjob thread sends no state notification. *)
Definition subjob_inv (b sj : Z) (e : SubjobExecutor.t) (pc : subjob_pc)
  (st : status) (log : list event) : Prop :=
  Forall (fun ev => is_put_state ev = false) log
  /\ subjob_pool_inv b sj e pc st log.

Definition thread_inv (th : thread) (log : list event) : Prop :=
  match body th with
  | AsyncSetupBuild executors params _ pc =>
      setup_inv executors params pc (state th) log
  | AsyncTeardownBuild pc => teardown_inv pc (state th) log
  | StartWorkingOnSubjob b sj cmds => handler_inv b sj cmds (state th) log
  | ExecuteSubjob b sj e _ pc => subjob_inv b sj e pc (state th) log
  end.

(** A method body only appends threads that have not run yet, and every
    thread start it reports is one of them. *)
Definition spawns {A : Type} (m : Py A) : Prop :=
  forall p,
    exists new,
      threads (snd (fst (m p))) = threads p ++ new
      /\ Forall initial new
      /\ forall c t,
           In (ThreadStart c t) (snd (m p)) ->
           (length (threads p) <= c)%nat
           /\ (threads p ++ new) !! c = Some (mkThread t Running).

(** The thread a running thread becomes by one segment that answered
    [r]. *)
Definition after (t : task) (r : result (option task)) : thread :=
  match r with
  | Value (Some t') => mkThread t' Running
  | Value None => mkThread t Finished
  | Exception e => mkThread t (Crashed e)
  | Blocks => mkThread t Running
  end.

(** The system invariant: events of threads carry ids of the table; a
    reported thread start is the start of that thread; every thread's log
    has the shape its program counter says. *)
Record invariant (s : system) : Prop := mkInvariant {
  inv_tags :
    forall t ev,
      In (Some t, ev) (trace s) -> (t < length (threads (proc s)))%nat;
  inv_starts :
    forall who c t0,
      In (who, ThreadStart c t0) (trace s) ->
      exists th, threads (proc s) !! c = Some th /\ origin (body th) = t0;
  inv_logs :
    forall t th,
      threads (proc s) !! t = Some th ->
      thread_inv th (log_of (Some t) (trace s))
}.

(** *** Moments of a schedule *)

(** Somewhere along [schedule] the pool was full and thread [t], a teardown
    thread, had just left its polling loop. *)
Definition left_loop_on_full_pool (w : ClusterWorker) (schedule : list action)
  (t : nat) : Prop :=
  exists schedule1 schedule2,
    schedule = schedule1 ++ schedule2
    /\ full (_idle_executors (self (proc (run schedule1 (boot w))))) = true
    /\ threads (proc (run schedule1 (boot w))) !! t
       = Some (mkThread (AsyncTeardownBuild TdProbe) Running)
    /\ left_polling_loop (log_of (Some t) (trace (run schedule1 (boot w)))).

(** *** Who holds an executor *)

(** The executor a subjob thread holds: the one it was started with, until
    it has put it back (a thread that died before its [put] keeps it). *)
Definition holds (th : thread) : option SubjobExecutor.t :=
  match body th with
  | ExecuteSubjob _ _ _ _ (SjUpload _) => None
  | ExecuteSubjob _ _ e _ _ => Some e
  | _ => None
  end.

Definition held (ths : list thread) : list SubjobExecutor.t := omap holds ths.

(** The idle executors followed by the held ones. *)
Definition pool_content (p : process) : list SubjobExecutor.t :=
  queue (_idle_executors (self p)) ++ held (threads p).

(** A method body leaves the idle queue alone and changes nothing in who
    holds what. *)
Definition conserves {A : Type} (m : Py A) : Prop :=
  forall p,
    _idle_executors (self (snd (fst (m p)))) = _idle_executors (self p)
    /\ held (threads (snd (fst (m p)))) = held (threads p).

(** I1: the executors that were idle when the worker was built are, in some
    order, the idle ones and the held ones. *)
Definition pool_inv (w0 : ClusterWorker) (s : system) : Prop :=
  maxsize (_idle_executors (self (proc s))) = maxsize (_idle_executors w0)
  /\ Permutation (pool_content (proc s)) (queue (_idle_executors w0)).

(** ** Vocabulary of the further properties *)

(** Every event a method body emits satisfies [P]. *)
Definition emits {A : Type} (P : event -> Prop) (m : Py A) : Prop :=
  forall p, Forall P (snd (m p)).

(** A state notification sent by a caller of the worker's methods names
    DISCONNECTED. *)
Definition caller_notifies (ev : event) : Prop :=
  match ev with
  | PutState _ _ st _ => st = DISCONNECTED
  | _ => True
  end.

(** The callback an event registers with the unhandled exception handler. *)
Definition registered (te : tag * event) : option callback :=
  match snd te with
  | AddTeardownCallback cb => Some cb
  | _ => None
  end.

(** The callbacks registered along a trace, oldest first. *)
Definition registered_callbacks (tr : list (tag * event)) : list callback :=
  omap registered tr.

(** The callbacks an action registers: the two of [connect_to_manager],
    once the registration has answered with a worker id. *)
Definition callbacks_of (a : action) : list callback :=
  match registration a with
  | Some _ => [cb_do_build_teardown_and_reset 30; cb_disconnect_from_manager]
  | None => []
  end.

(** How many times [project_type.teardown_build] was called along a
    trace. *)
Definition teardown_builds (tr : list (tag * event)) : nat :=
  length (filter (fun te => is_teardown_build (snd te) = true) tr).

Definition is_setup_build_call (a : action) : bool :=
  match a with
  | CallSetupBuild _ _ _ => true
  | _ => false
  end.

(** How many [setup_build] calls a schedule makes. *)
Definition setup_build_calls (schedule : list action) : nat :=
  length (filter (fun a => is_setup_build_call a = true) schedule).

(** 1 for a coin that can still be spent. *)
Definition unspent (w : ClusterWorker) : nat :=
  match _build_teardown_coin w with
  | Some coin => if is_spent coin then 0 else 1
  | None => 0
  end.

(** The thread has spent a coin and is inside (or about to enter)
    [project_type.teardown_build]. *)
Definition in_teardown_build (th : thread) : bool :=
  match body th, state th with
  | AsyncTeardownBuild (TdInTeardownBuild _ _), Running => true
  | _, _ => false
  end.

(** How many threads are inside [project_type.teardown_build]. *)
Definition tearing_down (ths : list thread) : nat :=
  length (filter (fun th => in_teardown_build th = true) ths).

(** Teardowns made, under way or still possible. *)
Definition teardown_budget (s : system) : nat :=
  teardown_builds (trace s) + tearing_down (threads (proc s))
  + unspent (self (proc s)).

(** Every executor the constructor created, in id order. *)
Definition all_executors (num_executors : Z) : list SubjobExecutor.t :=
  map SubjobExecutor.new (range num_executors).

(** The pool is not full, so [setup_build] raises and a teardown thread
    goes on polling. *)
Definition stuck (s : system) : Prop :=
  full (_idle_executors (self (proc s))) = false
  /\ forall b params idx,
       fst (fst (setup_build b params idx (proc s))) = Exception RuntimeError.

(** A method body that neither touches the teardown coin nor calls
    [project_type.teardown_build]. *)
Definition calm {A : Type} (m : Py A) : Prop :=
  keeps _build_teardown_coin m
  /\ emits (fun ev => is_teardown_build ev = false) m.

(** What a [setup_build] call adds to the teardowns still possible. *)
Definition new_coins (a : action) : nat :=
  if is_setup_build_call a then 1 else 0.

(** Every thread a method body starts runs a task that satisfies [Q], and
    the body leaves the threads it found as they were. *)
Definition starts {A : Type} (Q : task -> Prop) (m : Py A) : Prop :=
  forall p,
    exists new,
      threads (snd (fst (m p))) = threads p ++ new
      /\ Forall (fun th => Q (body th)) new.

Definition is_setup_task (t : task) : bool :=
  match t with
  | AsyncSetupBuild _ _ _ _ => true
  | _ => false
  end.

(** The snapshot of every setup thread of the table consists of all the
    executors the constructor created. *)
Definition snapshots_complete (num_executors : Z) (s : system) : Prop :=
  forall t executors params idx pc st,
    threads (proc s) !! t
    = Some (mkThread (AsyncSetupBuild executors params idx pc) st) ->
    Permutation executors (all_executors num_executors).

(** What an action makes of [is_alive]. *)
Definition liveness (a : action) (before : bool) : bool :=
  match a with
  | CallConnectToManager _ _ => true
  | CallDisconnectFromManager _ _ => false
  | _ => before
  end.

(** The settings fixed by the constructor. *)
Definition settings (w : ClusterWorker) : Z * string * Z * Z * Z :=
  (port w, host w, _num_executors w, _heartbeat_failure_threshold w,
   _heartbeat_interval w).

(** The project type [_do_build_teardown_and_reset] tears down: the current
    one, when the coin can still be spent. *)
Definition torn_down (w : ClusterWorker) : option ProjectType :=
  match _build_teardown_coin w with
  | Some coin => if is_spent coin then None else _project_type w
  | None => None
  end.

(** The call of [project_type.teardown_build] a teardown thread makes, when
    it makes one and the call returns. *)
Definition teardown_of (w : ClusterWorker) : list event :=
  match torn_down w with
  | Some pt => [TeardownBuild pt None Returned]
  | None => []
  end.

(** The event is not the reply of [start_working_on_subjob]. *)
Definition no_reply (ev : event) : Prop :=
  match ev with
  | Reply _ => False
  | _ => True
  end.

(** What an accepted [start_working_on_subjob] request emits once its
    [get()] has returned [e]. *)
Definition acquisition (b sj : Z) (cmds : list string) (e : SubjobExecutor.t)
  (c : nat) : list event :=
  [QueueGet e; ThreadStart c (ExecuteSubjob b sj e cmds SjExecute);
   Reply (SubjobExecutor.id e)].

(** The segments that start by reading [self._manager_api]: what they emit
    before they do. *)
Definition needs_manager (t : task) : option (list event) :=
  match t with
  | AsyncSetupBuild _ _ _ (SetupNotify _) => Some []
  | AsyncTeardownBuild TdProbe => Some []
  | AsyncTeardownBuild TdNotify => Some []
  | ExecuteSubjob b sj e _ SjOpen =>
      Some [AnalyticsRecord SUBJOB_EXECUTION_FINISH b sj (SubjobExecutor.id e)]
  | _ => None
  end.

(** ** Unfolding method bodies *)

Ltac py_unfold :=
  unfold mbind, mret, fmap, Py_bind, Py_ret, Py_fmap, get_self, update, emit,
    raise, answer, thread_start, park, try_except in *.

(** ** [WorkerState] *)

(** C9: the values of the [WorkerState] members are exactly the strings
    DISCONNECTED, SHUTDOWN, IDLE, SETUP_COMPLETE and SETUP_FAILED; the value
    of the member named SETUP_COMPLETED is SETUP_COMPLETE and not its name;
    every member compares equal to its value. *)
Theorem WorkerState_values :
  map WorkerState_value
    [DISCONNECTED; SHUTDOWN; IDLE; SETUP_COMPLETED; SETUP_FAILED]
  = ["DISCONNECTED"; "SHUTDOWN"; "IDLE"; "SETUP_COMPLETE"; "SETUP_FAILED"]%string
  /\ WorkerState_value SETUP_COMPLETED <> WorkerState_name SETUP_COMPLETED
  /\ WorkerState_eq_str SETUP_COMPLETED "SETUP_COMPLETED" = false
  /\ (forall s, WorkerState_eq_str s (WorkerState_value s) = true)
  /\ (forall s x, WorkerState_eq_str s x = true <-> x = WorkerState_value s).
Proof.
  repeat split.
  - discriminate.
  - intros s. unfold WorkerState_eq_str. apply String.eqb_refl.
  - unfold WorkerState_eq_str. intros H. apply String.eqb_eq in H. congruence.
  - intros ->. unfold WorkerState_eq_str. apply String.eqb_refl.
Qed.

(** ** [setup_build] *)

(** What [setup_build] has assigned by the time it checks the pool. *)
Lemma setup_build_unfold build_id params idx p :
  setup_build build_id params idx p =
  let w := set_project_type (Some (create_project_type params))
             (set_build_teardown_coin (Some SingleUseCoin_new)
                (set_current_build_id (Some build_id) (self p))) in
  if full (_idle_executors (self p))
  then (Value tt,
        mkProcess w (threads p ++
          [mkThread (AsyncSetupBuild (queue (_idle_executors (self p)))
                       params idx SetupFetch) Running]),
        [ThreadStart (length (threads p))
           (AsyncSetupBuild (queue (_idle_executors (self p)))
              params idx SetupFetch)])
  else (Exception RuntimeError, mkProcess w (threads p), []).
Proof.
  unfold setup_build. py_unfold. simpl.
  destruct (full (_idle_executors (self p))); reflexivity.
Qed.

(** C1 (as amended): [setup_build] raises exactly when the idle pool is not
    full, whatever [current_build_id] is; it then raises RuntimeError,
    starts no thread, emits nothing and leaves every attribute other than
    [current_build_id], the teardown coin and [project_type] as it was;
    these three have been assigned the new build's values before the
    check. *)
Theorem setup_build_checks_pool_after_assigning :
  forall build_id params idx p,
    let r := fst (fst (setup_build build_id params idx p)) in
    let p' := snd (fst (setup_build build_id params idx p)) in
    let evs := snd (setup_build build_id params idx p) in
    (r = Exception RuntimeError <-> full (_idle_executors (self p)) = false)
    /\ (r = Value tt <-> full (_idle_executors (self p)) = true)
    /\ (r = Exception RuntimeError -> threads p' = threads p /\ evs = [])
    /\ self p' =
       set_project_type (Some (create_project_type params))
         (set_build_teardown_coin (Some SingleUseCoin_new)
            (set_current_build_id (Some build_id) (self p))).
Proof.
  intros build_id params idx p. rewrite setup_build_unfold.
  destruct (full (_idle_executors (self p))); simpl;
    repeat split; intros; try congruence; try discriminate.
Qed.

(** C1, as stated, fails: on a busy worker running build 42 a failed
    [setup_build(43, ...)] has replaced the build id, the coin and the
    project type; on an idle worker that still runs build 42 it does not
    raise at all. *)
Lemma setup_build_not_atomic :
  full (_idle_executors busy_worker) = false
  /\ fst (fst (setup_build 43 [("type", "git")]%string 0
                 (mkProcess busy_worker []))) = Exception RuntimeError
  /\ _current_build_id busy_worker = Some 42
  /\ _current_build_id
       (self (snd (fst (setup_build 43 [("type", "git")]%string 0
                          (mkProcess busy_worker []))))) = Some 43
  /\ _project_type busy_worker = Some (create_project_type [])
  /\ _project_type
       (self (snd (fst (setup_build 43 [("type", "git")]%string 0
                          (mkProcess busy_worker [])))))
     = Some (create_project_type [("type", "git")]%string)
  /\ _current_build_id ready_worker = Some 42
  /\ fst (fst (setup_build 43 [("type", "git")]%string 0
                 (mkProcess ready_worker []))) = Value tt.
Proof. repeat split. Qed.

(** ** [teardown_build] *)

Lemma teardown_build_unfold build_id p :
  teardown_build build_id p =
  match _current_build_id (self p) with
  | None => (Exception BadRequestError, p, [])
  | Some current =>
      if other_build build_id current
      then (Exception BadRequestError, p, [])
      else (Value tt,
            mkProcess (self p)
              (threads p ++ [mkThread (AsyncTeardownBuild TdEnter) Running]),
            [ThreadStart (length (threads p)) (AsyncTeardownBuild TdEnter)])
  end.
Proof.
  unfold teardown_build. py_unfold. simpl.
  destruct (_current_build_id (self p)) as [c|]; [|reflexivity].
  destruct (other_build build_id c); reflexivity.
Qed.

(** C3: [teardown_build(build_id)] raises BadRequest if and only if no
    build is active or [build_id] is given and differs from the active
    build's id; a rejected call changes nothing in the process (worker
    state and thread table) and emits no event, so it makes no project type
    call. *)
Theorem teardown_build_rejection :
  forall build_id p,
    (fst (fst (teardown_build build_id p)) = Exception BadRequestError
     <-> (_current_build_id (self p) = None
          \/ exists b current,
               build_id = Some b
               /\ _current_build_id (self p) = Some current
               /\ b <> current))
    /\ (fst (fst (teardown_build build_id p)) = Exception BadRequestError
        -> teardown_build build_id p = (Exception BadRequestError, p, [])).
Proof.
  intros build_id p. rewrite teardown_build_unfold.
  destruct (_current_build_id (self p)) as [c|] eqn:Hc.
  - destruct build_id as [b|]; simpl.
    + destruct (Z.eqb_spec b c) as [->|Hne]; simpl.
      * split; [|discriminate]. split; [discriminate|].
        intros [?|(b' & c' & ? & ? & ?)]; congruence.
      * split; [|reflexivity]. split; [|reflexivity].
        intros _. right. exists b, c. auto.
    + split; [|discriminate]. split; [discriminate|].
      intros [?|(b' & c' & ? & ? & ?)]; congruence.
  - simpl. split; [|reflexivity]. split; auto.
Qed.

(** ** [_do_build_teardown_and_reset] *)

Lemma for_each_emit {A : Type} (f : A -> event) (l : list A) p :
  for_each l (fun x => emit (f x)) p = (Value tt, p, map f l).
Proof.
  induction l as [|x l IH]; [reflexivity|].
  simpl. py_unfold. rewrite IH. reflexivity.
Qed.

Lemma kill_all_unfold p : kill_all p = (Value tt, p, kills (self p)).
Proof.
  unfold kill_all, mbind, Py_bind, get_self. rewrite for_each_emit.
  reflexivity.
Qed.

Lemma teardown_gate_unfold p :
  teardown_gate p =
  match _build_teardown_coin (self p) with
  | None => (Value None, p, [])
  | Some coin =>
      (Value (if is_spent coin then None else _project_type (self p)),
       mkProcess (set_build_teardown_coin (Some (mkCoin true)) (self p))
         (threads p), [])
  end.
Proof.
  unfold teardown_gate, spend. py_unfold. simpl.
  destruct (_build_teardown_coin (self p)) as [[[]]|]; reflexivity.
Qed.

Lemma teardown_finish_unfold pt timeout o p :
  teardown_finish pt timeout o p =
  match o with
  | Returned =>
      (Value tt, mkProcess (cleared (self p)) (threads p),
       [TeardownBuild pt timeout Returned])
  | Raised e => (Exception e, p, [TeardownBuild pt timeout (Raised e)])
  end.
Proof. unfold teardown_finish. py_unfold. destruct o; reflexivity. Qed.

Lemma do_build_teardown_and_reset_unfold timeout o p :
  _do_build_teardown_and_reset timeout o p =
  match _build_teardown_coin (self p) with
  | None => (Value tt, p, kills (self p))
  | Some coin =>
      let w1 := set_build_teardown_coin (Some (mkCoin true)) (self p) in
      match (if is_spent coin then None else _project_type (self p)) with
      | None => (Value tt, mkProcess w1 (threads p), kills (self p))
      | Some pt =>
          match o with
          | Returned =>
              (Value tt, mkProcess (cleared w1) (threads p),
               kills (self p) ++ [TeardownBuild pt timeout Returned])
          | Raised e =>
              (Exception e, mkProcess w1 (threads p),
               kills (self p) ++ [TeardownBuild pt timeout (Raised e)])
          end
      end
  end.
Proof.
  unfold _do_build_teardown_and_reset, mbind, Py_bind.
  rewrite kill_all_unfold, teardown_gate_unfold.
  destruct (_build_teardown_coin (self p)) as [coin|]; simpl.
  - destruct (if is_spent coin then None else _project_type (self p)).
    + rewrite teardown_finish_unfold. destruct o; reflexivity.
    + unfold mret, Py_ret. rewrite app_nil_r. reflexivity.
  - unfold mret, Py_ret. rewrite app_nil_r. reflexivity.
Qed.

Lemma coin_used_after_teardown timeout o p :
  coin_used (snd (fst (_do_build_teardown_and_reset timeout o p))).
Proof.
  rewrite do_build_teardown_and_reset_unfold. unfold coin_used.
  destruct (_build_teardown_coin (self p)) as [coin|] eqn:Hc; simpl; auto.
  destruct (if is_spent coin then None else _project_type (self p));
    [destruct o|]; simpl; auto.
Qed.

Lemma kills_after_teardown timeout o p :
  kills (self (snd (fst (_do_build_teardown_and_reset timeout o p))))
  = kills (self p).
Proof.
  rewrite do_build_teardown_and_reset_unfold.
  destruct (_build_teardown_coin (self p)) as [coin|]; simpl; auto.
  destruct (if is_spent coin then None else _project_type (self p));
    [destruct o|]; reflexivity.
Qed.

(** With a used coin the method only kills. *)
Lemma teardown_again timeout o p :
  coin_used p ->
  _do_build_teardown_and_reset timeout o p = (Value tt, p, kills (self p)).
Proof.
  intros Hused. rewrite do_build_teardown_and_reset_unfold.
  destruct p as [w ths]. destruct w. unfold coin_used in Hused.
  simpl in *. destruct Hused as [-> | ->]; reflexivity.
Qed.

Lemma teardown_calls_again calls p :
  coin_used p ->
  teardown_calls calls p = (p, concat (map (fun _ => kills (self p)) calls)).
Proof.
  intros Hused. induction calls as [|[timeout o] calls IH]; [reflexivity|].
  simpl. rewrite teardown_again by assumption. rewrite IH. reflexivity.
Qed.

Lemma no_teardown_build_in_kills w :
  filter (fun ev => is_teardown_build ev = true) (kills w) = [].
Proof.
  unfold kills. induction (values (executors_by_id w)) as [|e l IH];
    [reflexivity|].
  simpl. rewrite filter_cons_False by (simpl; discriminate). exact IH.
Qed.

Lemma no_teardown_build_in_repeated_kills {A : Type} (calls : list A) w :
  filter (fun ev => is_teardown_build ev = true)
    (concat (map (fun _ => kills w) calls)) = [].
Proof.
  induction calls as [|c calls IH]; [reflexivity|].
  simpl. rewrite filter_app, no_teardown_build_in_kills. exact IH.
Qed.

Lemma not_in_kills pt timeout o w :
  ~ In (TeardownBuild pt timeout o) (kills w).
Proof.
  unfold kills. intros Hin. apply in_map_iff in Hin.
  destruct Hin as (e & Heq & _). discriminate.
Qed.

(** The three attributes are cleared exactly when
    [project_type.teardown_build] was called and returned. *)
Lemma teardown_clears_on_return timeout o p :
  let w1 := self (snd (fst (_do_build_teardown_and_reset timeout o p))) in
  ((exists pt,
      In (TeardownBuild pt timeout Returned)
        (snd (_do_build_teardown_and_reset timeout o p)))
   /\ _current_build_id w1 = None /\ _project_type w1 = None
   /\ _base_executor_index w1 = None)
  \/ ((forall pt,
         ~ In (TeardownBuild pt timeout Returned)
             (snd (_do_build_teardown_and_reset timeout o p)))
      /\ _current_build_id w1 = _current_build_id (self p)
      /\ _project_type w1 = _project_type (self p)
      /\ _base_executor_index w1 = _base_executor_index (self p)).
Proof.
  rewrite do_build_teardown_and_reset_unfold.
  assert (Hquiet : forall pt l,
             (forall ev, In ev l -> ev <> TeardownBuild pt timeout Returned) ->
             ~ In (TeardownBuild pt timeout Returned) (kills (self p) ++ l)).
  { intros pt l Hl Hin. apply in_app_iff in Hin. destruct Hin as [Hin|Hin].
    - exact (not_in_kills _ _ _ _ Hin).
    - exact (Hl _ Hin eq_refl). }
  destruct (_build_teardown_coin (self p)) as [coin|]; simpl.
  - destruct (if is_spent coin then None else _project_type (self p))
      as [pt|]; [destruct o as [|e]|]; simpl.
    + left. split; [|auto]. exists pt. apply in_app_iff. right. left.
      reflexivity.
    + right. split; [|auto]. intros pt'. apply Hquiet.
      intros ev [<-|[]]. discriminate.
    + right. split; [|auto]. intros pt' Hin.
      exact (not_in_kills _ _ _ _ Hin).
  - right. split; [|auto]. intros pt' Hin. exact (not_in_kills _ _ _ _ Hin).
Qed.

(** Every call kills every executor first; what follows is at most the
    one call of [project_type.teardown_build]. *)
Lemma teardown_starts_with_kills timeout o p :
  exists rest,
    snd (_do_build_teardown_and_reset timeout o p) = kills (self p) ++ rest
    /\ (rest = [] \/ exists pt, rest = [TeardownBuild pt timeout o]).
Proof.
  rewrite do_build_teardown_and_reset_unfold.
  destruct (_build_teardown_coin (self p)) as [coin|]; simpl.
  - destruct (if is_spent coin then None else _project_type (self p))
      as [pt|]; [destruct o|]; simpl.
    + eexists. split; [reflexivity|]. right. eexists. reflexivity.
    + eexists. split; [reflexivity|]. right. eexists. reflexivity.
    + exists []. rewrite app_nil_r. auto.
  - exists []. rewrite app_nil_r. auto.
Qed.

(** C2: [_do_build_teardown_and_reset] is idempotent per build.  For a
    first call and any further calls after it (with their own timeouts and
    whatever [project_type.teardown_build] would answer): the process after
    all of them is the process after the first; [teardown_build] is called
    at most once over all of them; the attributes are cleared by the first
    call, when its [teardown_build] returns, or not at all; every call
    starts by killing every executor of
    [executors_by_id], before the coin is looked at, and the later calls do
    nothing else. *)
Theorem do_build_teardown_and_reset_idempotent :
  forall timeout o calls p,
    let first := _do_build_teardown_and_reset timeout o p in
    let every := teardown_calls ((timeout, o) :: calls) p in
    fst every = snd (fst first)
    /\ snd every
       = snd first ++ concat (map (fun _ => kills (self p)) calls)
    /\ (exists rest,
          snd first = kills (self p) ++ rest
          /\ (rest = [] \/ exists pt, rest = [TeardownBuild pt timeout o]))
    /\ (length (filter (fun ev => is_teardown_build ev = true) (snd every))
        <= 1)%nat
    /\ (forall timeout' o',
          _do_build_teardown_and_reset timeout' o' (snd (fst first))
          = (Value tt, snd (fst first), kills (self p)))
    /\ (((exists pt, In (TeardownBuild pt timeout Returned) (snd first))
         /\ _current_build_id (self (snd (fst first))) = None
         /\ _project_type (self (snd (fst first))) = None
         /\ _base_executor_index (self (snd (fst first))) = None)
        \/ ((forall pt, ~ In (TeardownBuild pt timeout Returned) (snd first))
            /\ _current_build_id (self (snd (fst first)))
               = _current_build_id (self p)
            /\ _project_type (self (snd (fst first))) = _project_type (self p)
            /\ _base_executor_index (self (snd (fst first)))
               = _base_executor_index (self p))).
Proof.
  intros timeout o calls p first every.
  assert (Hused : coin_used (snd (fst first)))
    by apply coin_used_after_teardown.
  assert (Hk : kills (self (snd (fst first))) = kills (self p))
    by apply kills_after_teardown.
  assert (Hevery : every = (snd (fst first),
                            snd first
                            ++ concat (map (fun _ => kills (self p)) calls))).
  { unfold every. simpl. fold first. destruct first as [[r1 p1] ev1].
    simpl in *. rewrite teardown_calls_again by assumption.
    rewrite Hk. reflexivity. }
  pose proof (teardown_starts_with_kills timeout o p) as Hfirst.
  fold first in Hfirst.
  rewrite Hevery. simpl. repeat split; try assumption.
  - destruct Hfirst as (rest & -> & Hrest).
    rewrite !filter_app, no_teardown_build_in_kills,
      no_teardown_build_in_repeated_kills, app_nil_r. simpl.
    destruct Hrest as [-> | [pt ->]]; simpl; lia.
  - intros timeout' o'. rewrite teardown_again by assumption.
    rewrite Hk. reflexivity.
  - exact (teardown_clears_on_return timeout o p).
Qed.

(** ** The heartbeat *)

Lemma run_heartbeat_unfold o p :
  _run_heartbeat o p =
  match _manager_api (self p) with
  | None => (Exception AttributeError, p, [])
  | Some api =>
      let post := PostHeartbeat api (_worker_id (self p)) o in
      let enter := SchedulerEnter (_heartbeat_interval (self p)) in
      match o with
      | Returned =>
          (Value tt,
           mkProcess (set_heartbeat_failure_count 0 (self p)) (threads p),
           [post; enter])
      | Raised e =>
          if is_transport_error e then
            let w1 := set_heartbeat_failure_count
                        (_heartbeat_failure_count (self p) + 1) (self p) in
            if _heartbeat_failure_threshold (self p)
               <=? _heartbeat_failure_count (self p) + 1
            then (Exception (SystemExit 0), mkProcess w1 (threads p),
                  [post; SysExit 0])
            else (Value tt, mkProcess w1 (threads p), [post; enter])
          else (Exception e, p, [post])
      end
  end.
Proof.
  unfold _run_heartbeat, _send_heartbeat_to_manager, kill. py_unfold. simpl.
  destruct (_manager_api (self p)) as [api|]; [|reflexivity].
  destruct o as [|e]; simpl; [reflexivity|].
  destruct (is_transport_error e); simpl; [|reflexivity].
  destruct (_heartbeat_failure_threshold (self p)
            <=? _heartbeat_failure_count (self p) + 1); reflexivity.
Qed.

Lemma heartbeat_loop_snoc ticks o p :
  heartbeat_loop (ticks ++ [o]) p =
  match heartbeat_loop ticks p with
  | (Value _, p1, ev1) =>
      match _run_heartbeat o p1 with
      | (r, p2, ev2) => (r, p2, ev1 ++ ev2)
      end
  | other => other
  end.
Proof.
  revert p. induction ticks as [|o' ticks IH]; intros p; simpl.
  - unfold mbind, Py_bind, mret, Py_ret.
    destruct (_run_heartbeat o p) as [[[[]| |] p2] ev2]; simpl;
      rewrite ?app_nil_r; reflexivity.
  - unfold mbind, Py_bind.
    destruct (_run_heartbeat o' p) as [[[[]| |] p1] ev1]; try reflexivity.
    rewrite IH.
    destruct (heartbeat_loop ticks p1) as [[[[]| |] p2] ev2]; try reflexivity.
    destruct (_run_heartbeat o p2) as [[r p3] ev3].
    rewrite app_assoc. reflexivity.
Qed.

Lemma consecutive_failures_snoc ticks o :
  consecutive_failures (ticks ++ [o])
  = if is_failure o then 1 + consecutive_failures ticks else 0.
Proof. unfold consecutive_failures. rewrite rev_app_distr. reflexivity. Qed.

Lemma consecutive_failures_nonneg ticks : 0 <= consecutive_failures ticks.
Proof.
  unfold consecutive_failures.
  induction (rev ticks) as [|o l IH]; simpl; [lia|].
  destruct (is_failure o); lia.
Qed.

(** While every tick re-enters the scheduler the counter is the number of
    failures that end the ticks so far, it has not reached the threshold,
    and [kill] has not been called. *)
Lemma heartbeat_loop_counts ticks :
  forall p p1 ev1 api,
    _manager_api (self p) = Some api ->
    _heartbeat_failure_count (self p) = 0 ->
    heartbeat_loop ticks p = (Value tt, p1, ev1) ->
    _manager_api (self p1) = Some api
    /\ _heartbeat_failure_threshold (self p1)
       = _heartbeat_failure_threshold (self p)
    /\ _heartbeat_failure_count (self p1) = consecutive_failures ticks
    /\ (consecutive_failures ticks = 0
        \/ consecutive_failures ticks < _heartbeat_failure_threshold (self p))
    /\ ~ In (SysExit 0) ev1.
Proof.
  induction ticks as [|o ticks IH] using rev_ind; intros p p1 ev1 api Hapi Hc Hrun.
  - simpl in Hrun. unfold mret, Py_ret in Hrun. inversion Hrun; subst.
    repeat split; auto.
  - rewrite heartbeat_loop_snoc in Hrun.
    destruct (heartbeat_loop ticks p) as [[[[]| |] p0] ev0] eqn:Hloop;
      try discriminate.
    destruct (IH p p0 ev0 api Hapi Hc Hloop) as (Hapi0 & Hth0 & Hc0 & Hlt0 & Hno0).
    rewrite run_heartbeat_unfold, Hapi0 in Hrun.
    rewrite consecutive_failures_snoc.
    destruct o as [|e]; simpl in Hrun |- *.
    + inversion Hrun; subst; simpl. repeat split; auto.
      rewrite in_app_iff. intros [?|[?|[?|[]]]]; congruence.
    + destruct (is_transport_error e); [|discriminate].
      destruct (Z.leb_spec (_heartbeat_failure_threshold (self p0))
                  (_heartbeat_failure_count (self p0) + 1)); [discriminate|].
      inversion Hrun; subst; simpl. repeat split; auto; try lia.
      rewrite in_app_iff. intros [?|[?|[?|[]]]]; congruence.
Qed.

(** Closes the facts about one tick once the tick is computed. *)
Ltac tick_facts :=
  repeat match goal with
         | |- _ /\ _ => split
         | |- _ <-> _ => split
         | |- _ -> _ => intro
         | |- forall _, _ => intro
         | H : In _ (_ :: _) |- _ => destruct H as [H|H]
         | H : In _ [] |- _ => destruct H
         | H : _ /\ _ |- _ => destruct H
         end;
  try discriminate; try congruence; try lia; simpl; auto.

(** C7: on each heartbeat tick of a connected worker whose earlier ticks all
    re-entered the scheduler, the counter is reset to 0 when the heartbeat
    returns, is incremented (to the number of failures in a row, this one
    included) when it raises a connection or timeout error, and is left
    alone when it raises anything else; [kill] -- [sys.exit(0)] -- is called
    on this tick if and only if the tick is such a failure and the failures
    in a row reach the threshold, it had not been called before, and it
    ends the tick with SystemExit(0); for a threshold of at least 1 the
    counter then equals the threshold. *)
Theorem run_heartbeat_failure_counter :
  forall ticks o p api,
    _manager_api (self p) = Some api ->
    _heartbeat_failure_count (self p) = 0 ->
    fst (fst (heartbeat_loop ticks p)) = Value tt ->
    let before := heartbeat_loop ticks p in
    let after := heartbeat_loop (ticks ++ [o]) p in
    let count := _heartbeat_failure_count (self (snd (fst after))) in
    let threshold := _heartbeat_failure_threshold (self p) in
    exists tick_events,
      snd after = snd before ++ tick_events
      /\ ~ In (SysExit 0) (snd before)
      /\ (o = Returned -> count = 0 /\ fst (fst after) = Value tt)
      /\ (is_failure o = true ->
          count = consecutive_failures (ticks ++ [o])
          /\ count = _heartbeat_failure_count (self (snd (fst before))) + 1)
      /\ (forall e, o = Raised e -> is_transport_error e = false ->
          count = _heartbeat_failure_count (self (snd (fst before)))
          /\ fst (fst after) = Exception e)
      /\ (In (SysExit 0) tick_events <->
          is_failure o = true
          /\ threshold <= consecutive_failures (ticks ++ [o]))
      /\ (In (SysExit 0) tick_events ->
          fst (fst after) = Exception (SystemExit 0)
          /\ (1 <= threshold -> count = threshold)).
Proof.
  intros ticks o p api Hapi Hc Hok before after count threshold.
  subst count after before. rewrite heartbeat_loop_snoc.
  destruct (heartbeat_loop ticks p) as [[r0 p0] ev0] eqn:Hbefore.
  simpl in Hok. subst r0.
  destruct (heartbeat_loop_counts ticks p p0 ev0 api Hapi Hc Hbefore)
    as (Hapi0 & Hth0 & Hc0 & Hlt0 & Hno0).
  rewrite run_heartbeat_unfold, Hapi0.
  rewrite consecutive_failures_snoc. fold threshold in Hth0, Hlt0.
  pose proof (consecutive_failures_nonneg ticks) as Hnn.
  destruct o as [|e]; simpl.
  - eexists. split; [reflexivity|]. split; [assumption|]. tick_facts.
  - destruct (is_transport_error e) eqn:He; simpl.
    + rewrite Hth0, Hc0.
      destruct (Z.leb_spec threshold (consecutive_failures ticks + 1)); simpl.
      * eexists. split; [reflexivity|]. split; [assumption|]. tick_facts.
      * eexists. split; [reflexivity|]. split; [assumption|]. tick_facts.
    + eexists. split; [reflexivity|]. split; [assumption|]. tick_facts.
Qed.

(** Witness of [run_heartbeat_failure_counter]: with a threshold of 3, a
    failure, a success and then three failures in a row end in
    SystemExit(0). *)
Lemma run_heartbeat_failure_counter_witness :
  _manager_api fresh_worker = Some (mkUrlBuilder example_url)
  /\ _heartbeat_failure_count fresh_worker = 0
  /\ fst (fst (heartbeat_loop
                 [Raised Timeout; Returned; Raised ConnectionError;
                  Raised Timeout] (mkProcess fresh_worker []))) = Value tt
  /\ fst (fst (heartbeat_loop
                 ([Raised Timeout; Returned; Raised ConnectionError;
                   Raised Timeout] ++ [Raised Timeout])
                 (mkProcess fresh_worker []))) = Exception (SystemExit 0).
Proof.
  split; [reflexivity|]. split; [reflexivity|]. split; [reflexivity|].
  destruct (run_heartbeat_failure_counter
              [Raised Timeout; Returned; Raised ConnectionError; Raised Timeout]
              (Raised Timeout) (mkProcess fresh_worker [])
              (mkUrlBuilder example_url) eq_refl eq_refl eq_refl)
    as (evs & _ & _ & _ & _ & _ & Hkill & Hexit).
  apply Hexit. apply Hkill. split; [reflexivity|]. vm_compute. discriminate.
Defined.

(** ** Frame rules of the method monad *)

Section Frame.
Context {X : Type} (f : ClusterWorker -> X).

Lemma keeps_ret {A : Type} (a : A) : keeps f (mret a).
Proof. intros p. reflexivity. Qed.

Lemma keeps_bind {A B : Type} (m : Py A) (k : A -> Py B) :
  keeps f m -> (forall a, keeps f (k a)) -> keeps f (m ≫= k).
Proof.
  intros Hm Hk p. unfold mbind, Py_bind. specialize (Hm p).
  destruct (m p) as [[[a| |] p1] ev1]; simpl in *; try assumption.
  specialize (Hk a p1). destruct (k a p1) as [[r p2] ev2]. simpl in *.
  congruence.
Qed.

Lemma keeps_fmap {A B : Type} (g : A -> B) (m : Py A) :
  keeps f m -> keeps f (g <$> m).
Proof.
  intros Hm p. unfold fmap, Py_fmap. specialize (Hm p).
  destruct (m p) as [[[a| |] p1] ev1]; simpl in *; assumption.
Qed.

Lemma keeps_get_self : keeps f get_self.
Proof. intros p. reflexivity. Qed.

Lemma keeps_emit ev : keeps f (emit ev).
Proof. intros p. reflexivity. Qed.

Lemma keeps_raise {A : Type} e : keeps f (raise (A := A) e).
Proof. intros p. reflexivity. Qed.

Lemma keeps_answer o : keeps f (answer o).
Proof. intros p. destruct o; reflexivity. Qed.

Lemma keeps_update g : (forall w, f (g w) = f w) -> keeps f (update g).
Proof. intros Hg p. simpl. apply Hg. Qed.

Lemma keeps_thread_start t : keeps f (thread_start t).
Proof. intros p. reflexivity. Qed.

Lemma keeps_park t : keeps f (park t).
Proof. intros p. reflexivity. Qed.

Lemma keeps_for_each {A : Type} (l : list A) (g : A -> Py unit) :
  (forall x, keeps f (g x)) -> keeps f (for_each l g).
Proof.
  intros Hg. induction l as [|x l IH]; simpl.
  - apply keeps_ret.
  - apply keeps_bind; auto.
Qed.

Lemma keeps_try_except {A : Type} (m : Py A) handler :
  keeps f m ->
  (forall e h, handler e = Some h -> keeps f h) ->
  keeps f (try_except m handler).
Proof.
  intros Hm Hh p. unfold try_except. specialize (Hm p).
  destruct (m p) as [[[a|e|] p1] ev1]; simpl in *; try assumption.
  destruct (handler e) as [h|] eqn:He; simpl; [|assumption].
  specialize (Hh e h He p1). destruct (h p1) as [[r p2] ev2]. simpl in *.
  congruence.
Qed.

Hypothesis f_frame : frame f.

Lemma keeps_idle_get : keeps f idle_get.
Proof.
  intros p. unfold idle_get.
  destruct (Queue_get (_idle_executors (self p))) as [[x q]|]; simpl;
    [apply (frame_idle_executors f f_frame)|reflexivity].
Qed.

Lemma keeps_idle_put x : keeps f (idle_put x).
Proof.
  intros p. unfold idle_put.
  destruct (Queue_put x (_idle_executors (self p))) as [q|]; simpl;
    [apply (frame_idle_executors f f_frame)|reflexivity].
Qed.

(** One rule at a time, by the shape of the body. *)
Ltac keeps_rule :=
  lazymatch goal with
  | |- keeps _ (mbind _ _) => apply keeps_bind; [|intros ?]
  | |- keeps _ (mret _) => apply keeps_ret
  | |- keeps _ (fmap _ _) => apply keeps_fmap
  | |- keeps _ get_self => apply keeps_get_self
  | |- keeps _ (emit _) => apply keeps_emit
  | |- keeps _ (raise _) => apply keeps_raise
  | |- keeps _ (answer _) => apply keeps_answer
  | |- keeps _ (thread_start _) => apply keeps_thread_start
  | |- keeps _ (park _) => apply keeps_park
  | |- keeps _ idle_get => apply keeps_idle_get
  | |- keeps _ (idle_put _) => apply keeps_idle_put
  | |- keeps _ (for_each _ _) => apply keeps_for_each; intros ?
  | |- keeps _ (update _) =>
      apply keeps_update; intros ?; destruct f_frame; auto
  | |- keeps _ (match ?x with _ => _ end) => destruct x
  end.

Lemma keeps_run_heartbeat o : keeps f (_run_heartbeat o).
Proof.
  unfold _run_heartbeat, _send_heartbeat_to_manager, kill.
  apply keeps_bind; [|intros ?; repeat keeps_rule].
  apply keeps_try_except; [repeat keeps_rule|].
  intros e h He. destruct (is_transport_error e); [|discriminate].
  inversion He; subst. repeat keeps_rule.
Qed.

Lemma keeps_setup_build b params idx : keeps f (setup_build b params idx).
Proof. unfold setup_build. repeat keeps_rule. Qed.

Lemma keeps_teardown_build b : keeps f (teardown_build b).
Proof. unfold teardown_build. repeat keeps_rule. Qed.

Lemma keeps_do_build_teardown_and_reset timeout o :
  keeps f (_do_build_teardown_and_reset timeout o).
Proof.
  unfold _do_build_teardown_and_reset, kill_all, teardown_gate,
    teardown_finish, spend.
  repeat keeps_rule.
Qed.

Lemma keeps_notify st o : keeps f (_notify_manager_of_state_change st o).
Proof. unfold _notify_manager_of_state_change. repeat keeps_rule. Qed.

Lemma keeps_is_manager_responsive o : keeps f (_is_manager_responsive o).
Proof. unfold _is_manager_responsive. repeat keeps_rule. Qed.

Lemma keeps_disconnect_from_manager probe put :
  keeps f (_disconnect_from_manager probe put).
Proof.
  unfold _disconnect_from_manager.
  repeat first [apply keeps_notify | apply keeps_is_manager_responsive
               | keeps_rule].
Qed.

Lemma keeps_start_working_on_subjob b sj cmds :
  keeps f (start_working_on_subjob b sj cmds).
Proof. unfold start_working_on_subjob. repeat keeps_rule. Qed.

Lemma keeps_task_step t o : keeps f (task_step t o).
Proof.
  destruct t as [executors params idx pc|pc|b sj cmds|b sj e cmds pc];
    simpl.
  - apply keeps_fmap. unfold async_setup_build_step, after_setup_call.
    repeat first [apply keeps_notify | keeps_rule].
  - apply keeps_fmap.
    unfold async_teardown_build_step, kill_all, teardown_gate,
      teardown_finish, spend.
    repeat first [apply keeps_notify | apply keeps_is_manager_responsive
                 | keeps_rule].
  - unfold start_working_on_subjob_resume. repeat keeps_rule.
  - apply keeps_fmap. unfold execute_subjob_step. repeat keeps_rule.
Qed.

(** A registration is the only thing that may change what [f] reads. *)
Lemma keeps_connect_to_manager url o :
  (forall v w, f (set_worker_id v w) = f w) ->
  keeps f (connect_to_manager url o).
Proof.
  intros Hid. unfold connect_to_manager.
  repeat first [apply keeps_update; intros ?; apply Hid | keeps_rule].
Qed.

Lemma keeps_call m s :
  keeps f m -> f (self (proc (call m s))) = f (self (proc s)).
Proof.
  intros Hm. unfold call. specialize (Hm (proc s)).
  destruct (m (proc s)) as [[[a|e|] p1] ev1]; simpl in *; auto.
Qed.

Lemma keeps_step_thread tid o s :
  f (self (proc (step_thread tid o s))) = f (self (proc s)).
Proof.
  unfold step_thread.
  destruct (threads (proc s) !! tid) as [[t [| |e]]|]; try reflexivity.
  pose proof (keeps_task_step t o (proc s)) as Hk.
  destruct (task_step t o (proc s)) as [[[a|e|] p1] ev1]; simpl in *; auto.
Qed.

(** Every action other than a call of [connect_to_manager] keeps [f]. *)
Lemma keeps_step a s :
  (forall url o, a <> CallConnectToManager url o) ->
  f (self (proc (step a s))) = f (self (proc s)).
Proof.
  intros Hnot. destruct a; simpl.
  - exfalso. eapply Hnot. reflexivity.
  - apply keeps_call, keeps_setup_build.
  - apply keeps_call, keeps_start_working_on_subjob.
  - apply keeps_call, keeps_teardown_build.
  - apply keeps_call, keeps_run_heartbeat.
  - apply keeps_call, keeps_disconnect_from_manager.
  - apply keeps_call, keeps_do_build_teardown_and_reset.
  - apply keeps_step_thread.
Qed.

Lemma keeps_any_step a s :
  (forall v w, f (set_worker_id v w) = f w) ->
  f (self (proc (step a s))) = f (self (proc s)).
Proof.
  intros Hid. destruct a as [url o| | | | | | |];
    [|apply keeps_step; discriminate ..].
  simpl. apply keeps_call, keeps_connect_to_manager, Hid.
Qed.

Lemma keeps_run schedule s :
  (forall v w, f (set_worker_id v w) = f w) ->
  f (self (proc (run schedule s))) = f (self (proc s)).
Proof.
  intros Hid. revert s. induction schedule as [|a schedule IH]; intros s;
    [reflexivity|].
  simpl. rewrite IH. apply keeps_any_step, Hid.
Qed.
End Frame.

(** ** Registration *)

Lemma frame_worker_id : frame _worker_id.
Proof. split; reflexivity. Qed.

Lemma frame_executors_by_id : frame executors_by_id.
Proof. split; reflexivity. Qed.

Lemma connect_to_manager_unfold url o p :
  connect_to_manager url o p =
  let w1 := set_manager (url_or_default url) (set_is_alive true (self p)) in
  let post := PostWorker (mkUrlBuilder (url_or_default url))
                (host (self p), port (self p)) (_num_executors (self p)) o in
  match o with
  | PostRaised e => (Exception e, mkProcess w1 (threads p), [post])
  | PostReturned None => (Exception TypeError, mkProcess w1 (threads p), [post])
  | PostReturned (Some n) =>
      (Value tt, mkProcess (set_worker_id (Some n) w1) (threads p),
       [post; AddTeardownCallback (cb_do_build_teardown_and_reset 30);
        AddTeardownCallback cb_disconnect_from_manager])
  end.
Proof.
  unfold connect_to_manager. py_unfold. simpl.
  destruct o as [[n|]|e]; reflexivity.
Qed.

Lemma worker_id_after_step a s :
  _worker_id (self (proc (step a s)))
  = match registration a with
    | Some n => Some n
    | None => _worker_id (self (proc s))
    end.
Proof.
  destruct a as [url o| | | | | | |];
    try (simpl registration; apply keeps_step;
         [apply frame_worker_id|discriminate]).
  simpl. unfold call. rewrite connect_to_manager_unfold.
  destruct o as [[n|]|e]; reflexivity.
Qed.

(** C8 (as amended): [connect_to_manager] sets [is_alive] to true, sets
    [manager_url] to the argument, or to localhost:43000 when the argument
    is None or empty, and stores the integer [worker_id] of the
    registration response; it does so on every call that gets such a
    response, a later registration replacing the id of an earlier one, and
    no other operation (setup, subjob start, teardown, disconnect,
    heartbeat, any thread) changes [worker_id]: after any schedule it is the
    id of the last registration. *)
Theorem worker_id_is_last_registration :
  forall url o p,
    let p' := snd (fst (connect_to_manager url o p)) in
    is_alive (self p') = true
    /\ _manager_url (self p') = Some (url_or_default url)
    /\ url_or_default None = "localhost:43000"%string
    /\ url_or_default (Some ""%string) = "localhost:43000"%string
    /\ _worker_id (self p')
       = match o with
         | PostReturned (Some n) => Some n
         | _ => _worker_id (self p)
         end
    /\ (forall a s,
          _worker_id (self (proc (step a s)))
          = match registration a with
            | Some n => Some n
            | None => _worker_id (self (proc s))
            end)
    /\ (forall schedule s,
          _worker_id (self (proc (run schedule s)))
          = last_registration schedule (_worker_id (self (proc s)))).
Proof.
  intros url o p p'. subst p'. rewrite connect_to_manager_unfold.
  repeat split.
  - destruct o as [[n|]|e]; reflexivity.
  - destruct o as [[n|]|e]; reflexivity.
  - destruct o as [[n|]|e]; reflexivity.
  - apply worker_id_after_step.
  - intros schedule. unfold run, last_registration.
    induction schedule as [|a schedule IH]; intros s; [reflexivity|].
    simpl. rewrite IH, worker_id_after_step. reflexivity.
Qed.

(** C8, as stated, fails: a second registration replaces the worker id
    assigned by the first. *)
Lemma worker_id_reassigned :
  ClusterWorker_init 43001 "host" 2 3 5 = Some new_worker
  /\ _worker_id
       (self (proc (run [CallConnectToManager None (PostReturned (Some 7))]
                      (boot new_worker)))) = Some 7
  /\ _worker_id
       (self (proc (run [CallConnectToManager None (PostReturned (Some 7));
                         CallConnectToManager None (PostReturned (Some 8))]
                      (boot new_worker)))) = Some 8.
Proof. repeat split. Qed.

(** ** The executors *)

Lemma dict_set_fresh k v d :
  (forall i, In i (keys d) -> i <> k) -> dict_set k v d = d ++ [(k, v)].
Proof.
  induction d as [|[k' v'] d IH]; intros Hfresh; [reflexivity|].
  simpl. destruct (Nat.eqb_spec k k') as [->|Hne].
  - exfalso. apply (Hfresh k'); [left|]; reflexivity.
  - rewrite IH; [reflexivity|]. intros i Hi. apply Hfresh. right. exact Hi.
Qed.

Lemma init_executors_seq k :
  forall a N l d,
    (Z.of_nat (length l + k) <= N \/ N <= 0) ->
    (forall i, In i (keys d) -> (i < a)%nat) ->
    init_executors (seq a k) (mkQueue N l) d
    = Some (mkQueue N (l ++ map SubjobExecutor.new (seq a k)),
            d ++ map (fun i => (i, SubjobExecutor.new i)) (seq a k)).
Proof.
  induction k as [|k IH]; intros a N l d Hroom Hkeys; simpl.
  - rewrite !app_nil_r. reflexivity.
  - unfold Queue_put, full, qsize. simpl.
    replace ((0 <? N) && (N <=? Z.of_nat (length l))) with false by lia.
    rewrite IH.
    + rewrite dict_set_fresh.
      * rewrite <- !app_assoc. reflexivity.
      * intros i Hi. apply Hkeys in Hi. lia.
    + rewrite length_app. simpl. lia.
    + intros i. unfold keys. rewrite dict_set_fresh.
      * rewrite map_app, in_app_iff. simpl. intros [Hi|[<-|[]]]; [|lia].
        apply Hkeys in Hi. lia.
      * intros j Hj. apply Hkeys in Hj. lia.
Qed.

Lemma init_unfold port host n threshold interval :
  ClusterWorker_init port host n threshold interval
  = Some (mkWorker port host true None n
            (mkQueue n (map SubjobExecutor.new (range n)))
            (map (fun i => (i, SubjobExecutor.new i)) (range n))
            None None None None None None 0 threshold interval).
Proof.
  unfold ClusterWorker_init, range. rewrite init_executors_seq.
  - reflexivity.
  - simpl. lia.
  - intros i [].
Qed.

(** C10: a worker constructed with [num_executors = n] holds exactly [n]
    executors (none for [n <= 0]) under the dense ids 0..n-1, all of them in
    the idle pool, and after any schedule of operations and thread steps
    [executors_by_id] is the dict built by the constructor: the executors
    killed by a teardown are the executors created at construction. *)
Theorem executors_by_id_is_fixed :
  forall port host n threshold interval,
    exists w,
      ClusterWorker_init port host n threshold interval = Some w
      /\ keys (executors_by_id w) = seq 0 (Z.to_nat n)
      /\ values (executors_by_id w)
         = map SubjobExecutor.new (seq 0 (Z.to_nat n))
      /\ Z.of_nat (length (executors_by_id w)) = Z.max 0 n
      /\ queue (_idle_executors w) = values (executors_by_id w)
      /\ (forall schedule,
            executors_by_id (self (proc (run schedule (boot w))))
            = executors_by_id w)
      /\ (forall a s,
            executors_by_id (self (proc (step a s)))
            = executors_by_id (self (proc s)))
      /\ (forall schedule timeout o,
            exists rest,
              snd (_do_build_teardown_and_reset timeout o
                     (proc (run schedule (boot w))))
              = map ExecutorKill
                  (map SubjobExecutor.new (seq 0 (Z.to_nat n))) ++ rest).
Proof.
  intros port host n threshold interval.
  eexists. split; [apply init_unfold|]. simpl. unfold keys, values, range.
  rewrite !map_map. simpl.
  assert (Hrun : forall schedule,
             executors_by_id
               (self (proc (run schedule
                  (boot (mkWorker port host true None n
                     (mkQueue n (map SubjobExecutor.new (seq 0 (Z.to_nat n))))
                     (map (fun i => (i, SubjobExecutor.new i))
                        (seq 0 (Z.to_nat n)))
                     None None None None None None 0 threshold interval)))))
             = map (fun i => (i, SubjobExecutor.new i)) (seq 0 (Z.to_nat n))).
  { intros schedule.
    rewrite (keeps_run executors_by_id frame_executors_by_id); reflexivity. }
  repeat split.
  - apply map_id.
  - rewrite length_map, length_seq. lia.
  - exact Hrun.
  - intros a s. apply keeps_any_step; [apply frame_executors_by_id|reflexivity].
  - intros schedule timeout o.
    destruct (teardown_starts_with_kills timeout o
                (proc (run schedule (boot (mkWorker port host true None n
                   (mkQueue n (map SubjobExecutor.new (seq 0 (Z.to_nat n))))
                   (map (fun i => (i, SubjobExecutor.new i))
                      (seq 0 (Z.to_nat n)))
                   None None None None None None 0 threshold interval)))))
      as (rest & Hrest & _).
    exists rest. rewrite Hrest. unfold kills, values. rewrite Hrun.
    rewrite !map_map. reflexivity.
Qed.

(** ** Threads a method starts *)

Lemma spawns_ret {A : Type} (a : A) : spawns (mret a).
Proof.
  intros p. exists []. simpl. rewrite app_nil_r.
  repeat split; auto; contradiction.
Qed.

Lemma spawns_bind {A B : Type} (m : Py A) (k : A -> Py B) :
  spawns m -> (forall a, spawns (k a)) -> spawns (m ≫= k).
Proof.
  intros Hm Hk p. unfold mbind, Py_bind.
  destruct (Hm p) as (new1 & Hth1 & Hinit1 & Hst1).
  destruct (m p) as [[[a| |] p1] ev1]; simpl in *;
    try (exists new1; auto; fail).
  destruct (Hk a p1) as (new2 & Hth2 & Hinit2 & Hst2).
  destruct (k a p1) as [[r p2] ev2]. simpl in *.
  exists (new1 ++ new2). rewrite Hth2, Hth1, app_assoc.
  split; [reflexivity|]. split; [apply Forall_app; auto|].
  intros c t Hin. apply in_app_iff in Hin. destruct Hin as [Hin|Hin].
  - destruct (Hst1 c t Hin) as [Hle Hlook]. split; [exact Hle|].
    apply lookup_app_l_Some. exact Hlook.
  - destruct (Hst2 c t Hin) as [Hle Hlook]. rewrite Hth1 in Hle, Hlook.
    split; [rewrite length_app in Hle; lia|exact Hlook].
Qed.

Lemma spawns_fmap {A B : Type} (g : A -> B) (m : Py A) :
  spawns m -> spawns (g <$> m).
Proof.
  intros Hm p. unfold fmap, Py_fmap. specialize (Hm p).
  destruct (m p) as [[[a| |] p1] ev1]; exact Hm.
Qed.

(** A body that touches neither the thread table nor reports a start. *)
Lemma spawns_nothing {A : Type} (m : Py A) :
  (forall p, threads (snd (fst (m p))) = threads p
             /\ forall c t, ~ In (ThreadStart c t) (snd (m p))) ->
  spawns m.
Proof.
  intros Hm p. destruct (Hm p) as [Hth Hno]. exists [].
  rewrite app_nil_r. repeat split; auto; exfalso; eapply Hno; eauto.
Qed.

Lemma spawns_get_self : spawns get_self.
Proof. apply spawns_nothing. intros p. simpl. auto. Qed.

Lemma spawns_update g : spawns (update g).
Proof. apply spawns_nothing. intros p. simpl. auto. Qed.

Lemma spawns_raise {A : Type} e : spawns (raise (A := A) e).
Proof. apply spawns_nothing. intros p. simpl. auto. Qed.

Lemma spawns_answer o : spawns (answer o).
Proof. apply spawns_nothing. intros p. destruct o; simpl; auto. Qed.

Lemma spawns_emit ev :
  (forall c t, ev <> ThreadStart c t) -> spawns (emit ev).
Proof.
  intros Hev. apply spawns_nothing. intros p. simpl. split; [reflexivity|].
  intros c t [Heq|[]]. exact (Hev c t Heq).
Qed.

Lemma spawns_idle_get : spawns idle_get.
Proof.
  apply spawns_nothing. intros p. unfold idle_get.
  destruct (Queue_get (_idle_executors (self p))) as [[x q]|]; simpl;
    split; auto.
  intros c t [Heq|[]]. discriminate.
Qed.

Lemma spawns_idle_put x : spawns (idle_put x).
Proof.
  apply spawns_nothing. intros p. unfold idle_put.
  destruct (Queue_put x (_idle_executors (self p))) as [q|]; simpl;
    split; auto.
  intros c t [Heq|[]]. discriminate.
Qed.

Lemma spawns_thread_start t : origin t = t -> spawns (thread_start t).
Proof.
  intros Ht p. exists [mkThread t Running]. simpl.
  split; [reflexivity|]. split.
  - constructor; [|constructor]. split; [reflexivity|exact Ht].
  - intros c t' [Heq|[]]. inversion Heq; subst. split; [lia|].
    rewrite lookup_app_r by lia. rewrite Nat.sub_diag. reflexivity.
Qed.

Lemma spawns_park t : origin t = t -> spawns (park t).
Proof.
  intros Ht p. exists [mkThread t Running]. simpl.
  split; [reflexivity|]. split.
  - constructor; [|constructor]. split; [reflexivity|exact Ht].
  - intros c t' [Heq|[]]. discriminate.
Qed.

Lemma spawns_for_each {A : Type} (l : list A) (g : A -> Py unit) :
  (forall x, spawns (g x)) -> spawns (for_each l g).
Proof.
  intros Hg. induction l as [|x l IH]; simpl.
  - apply spawns_ret.
  - apply spawns_bind; auto.
Qed.

Lemma spawns_try_except {A : Type} (m : Py A) handler :
  spawns m ->
  (forall e h, handler e = Some h -> spawns h) ->
  spawns (try_except m handler).
Proof.
  intros Hm Hh p. unfold try_except.
  destruct (Hm p) as (new1 & Hth1 & Hinit1 & Hst1).
  destruct (m p) as [[[a|e|] p1] ev1]; simpl in *;
    try (exists new1; auto; fail).
  destruct (handler e) as [h|] eqn:He; [|exists new1; auto].
  destruct (Hh e h He p1) as (new2 & Hth2 & Hinit2 & Hst2).
  destruct (h p1) as [[r p2] ev2]. simpl in *.
  exists (new1 ++ new2). rewrite Hth2, Hth1, app_assoc.
  split; [reflexivity|]. split; [apply Forall_app; auto|].
  intros c t Hin. apply in_app_iff in Hin. destruct Hin as [Hin|Hin].
  - destruct (Hst1 c t Hin) as [Hle Hlook]. split; [exact Hle|].
    apply lookup_app_l_Some. exact Hlook.
  - destruct (Hst2 c t Hin) as [Hle Hlook]. rewrite Hth1 in Hle, Hlook.
    split; [rewrite length_app in Hle; lia|exact Hlook].
Qed.

(** One rule at a time, by the shape of the body. *)
Ltac spawns_rule :=
  lazymatch goal with
  | |- spawns (mbind _ _) => apply spawns_bind; [|intros ?]
  | |- spawns (mret _) => apply spawns_ret
  | |- spawns (fmap _ _) => apply spawns_fmap
  | |- spawns get_self => apply spawns_get_self
  | |- spawns (emit _) => apply spawns_emit; discriminate
  | |- spawns (raise _) => apply spawns_raise
  | |- spawns (answer _) => apply spawns_answer
  | |- spawns (thread_start _) => apply spawns_thread_start; reflexivity
  | |- spawns (park _) => apply spawns_park; reflexivity
  | |- spawns idle_get => apply spawns_idle_get
  | |- spawns (idle_put _) => apply spawns_idle_put
  | |- spawns (for_each _ _) => apply spawns_for_each; intros ?
  | |- spawns (update _) => apply spawns_update
  | |- spawns (match ?x with _ => _ end) => destruct x
  end.

Lemma spawns_run_heartbeat o : spawns (_run_heartbeat o).
Proof.
  unfold _run_heartbeat, _send_heartbeat_to_manager, kill.
  apply spawns_bind; [|intros ?; repeat spawns_rule].
  apply spawns_try_except; [repeat spawns_rule|].
  intros e h He. destruct (is_transport_error e); [|discriminate].
  inversion He; subst. repeat spawns_rule.
Qed.

Lemma spawns_setup_build b params idx : spawns (setup_build b params idx).
Proof. unfold setup_build. repeat spawns_rule. Qed.

Lemma spawns_teardown_build b : spawns (teardown_build b).
Proof. unfold teardown_build. repeat spawns_rule. Qed.

Lemma spawns_do_build_teardown_and_reset timeout o :
  spawns (_do_build_teardown_and_reset timeout o).
Proof.
  unfold _do_build_teardown_and_reset, kill_all, teardown_gate,
    teardown_finish, spend.
  repeat spawns_rule.
Qed.

Lemma spawns_notify st o : spawns (_notify_manager_of_state_change st o).
Proof. unfold _notify_manager_of_state_change. repeat spawns_rule. Qed.

Lemma spawns_is_manager_responsive o : spawns (_is_manager_responsive o).
Proof. unfold _is_manager_responsive. repeat spawns_rule. Qed.

Lemma spawns_disconnect_from_manager probe put :
  spawns (_disconnect_from_manager probe put).
Proof.
  unfold _disconnect_from_manager.
  repeat first [apply spawns_notify | apply spawns_is_manager_responsive
               | spawns_rule].
Qed.

Lemma spawns_connect_to_manager url o : spawns (connect_to_manager url o).
Proof. unfold connect_to_manager. repeat spawns_rule. Qed.

Lemma spawns_start_working_on_subjob b sj cmds :
  spawns (start_working_on_subjob b sj cmds).
Proof. unfold start_working_on_subjob. repeat spawns_rule. Qed.

Lemma spawns_task_step t o : spawns (task_step t o).
Proof.
  destruct t as [executors params idx pc|pc|b sj cmds|b sj e cmds pc];
    simpl.
  - apply spawns_fmap. unfold async_setup_build_step, after_setup_call.
    repeat first [apply spawns_notify | spawns_rule].
  - apply spawns_fmap.
    unfold async_teardown_build_step, kill_all, teardown_gate,
      teardown_finish, spend.
    repeat first [apply spawns_notify | apply spawns_is_manager_responsive
                 | spawns_rule].
  - unfold start_working_on_subjob_resume. repeat spawns_rule.
  - apply spawns_fmap. unfold execute_subjob_step. repeat spawns_rule.
Qed.

(** The method an action calls, for the actions that are calls. *)
Lemma step_is_call a s :
  (exists m, spawns m /\ step a s = call m s)
  \/ exists tid o, a = StepThread tid o.
Proof.
  destruct a; simpl; [left ..|right; eauto]; eexists; (split; [|reflexivity]).
  - apply spawns_connect_to_manager.
  - apply spawns_setup_build.
  - apply spawns_start_working_on_subjob.
  - apply spawns_teardown_build.
  - apply spawns_run_heartbeat.
  - apply spawns_disconnect_from_manager.
  - apply spawns_do_build_teardown_and_reset.
Qed.

(** ** Logs *)

Lemma log_of_app who tr1 tr2 :
  log_of who (tr1 ++ tr2) = log_of who tr1 ++ log_of who tr2.
Proof. unfold log_of. rewrite filter_app, map_app. reflexivity. Qed.

Lemma log_of_tagged who evs : log_of who (tagged who evs) = evs.
Proof.
  unfold log_of, tagged. induction evs as [|ev evs IH]; [reflexivity|].
  simpl. rewrite filter_cons_True by (simpl; apply bool_decide_pack; reflexivity).
  simpl. rewrite IH. reflexivity.
Qed.

Lemma log_of_snoc who tr ev :
  log_of who (tr ++ [(who, ev)]) = log_of who tr ++ [ev].
Proof. rewrite log_of_app. apply (f_equal _ (log_of_tagged who [ev])). Qed.

Lemma log_of_app_tagged who tr evs :
  log_of who (tr ++ tagged who evs) = log_of who tr ++ evs.
Proof. rewrite log_of_app, log_of_tagged. reflexivity. Qed.

Lemma log_of_tagged_ne who who' evs :
  who <> who' -> log_of who (tagged who' evs) = [].
Proof.
  intros Hne. unfold log_of, tagged. induction evs as [|ev evs IH];
    [reflexivity|].
  simpl. rewrite filter_cons_False; [exact IH|].
  simpl. intros H. apply bool_decide_unpack in H. congruence.
Qed.

Lemma log_of_fresh who tr :
  (forall ev, ~ In (who, ev) tr) -> log_of who tr = [].
Proof.
  intros Hno. unfold log_of. induction tr as [|[w ev] tr IH]; [reflexivity|].
  rewrite filter_cons_False.
  - apply IH. intros ev' Hin. apply (Hno ev'). right. exact Hin.
  - simpl. intros H. apply bool_decide_unpack in H. subst w.
    apply (Hno ev). left. reflexivity.
Qed.

Lemma in_tagged who who' ev evs :
  In (who, ev) (tagged who' evs) <-> who = who' /\ In ev evs.
Proof.
  unfold tagged. rewrite in_map_iff. split.
  - intros (ev' & Heq & Hin). inversion Heq; subst. auto.
  - intros [-> Hin]. eauto.
Qed.

Lemma in_log_of who ev tr : In ev (log_of who tr) <-> In (who, ev) tr.
Proof.
  unfold log_of. rewrite in_map_iff. split.
  - intros ([w ev'] & Heq & Hin). simpl in Heq. subst ev'.
    apply list_elem_of_In, list_elem_of_filter in Hin. destruct Hin as [Hw Hin].
    simpl in Hw. apply bool_decide_unpack in Hw. subst w.
    apply list_elem_of_In. exact Hin.
  - intros Hin. exists (who, ev). split; [reflexivity|].
    apply list_elem_of_In, list_elem_of_filter. split.
    + simpl. apply bool_decide_pack. reflexivity.
    + apply list_elem_of_In. exact Hin.
Qed.

Lemma fmap_value {A B : Type} (g : A -> B) (m : Py A) p r p' evs :
  (g <$> m) p = (r, p', evs) ->
  match r with
  | Value b => exists a, m p = (Value a, p', evs) /\ b = g a
  | Exception e => m p = (Exception e, p', evs)
  | Blocks => m p = (Blocks, p', evs)
  end.
Proof.
  unfold fmap, Py_fmap. destruct (m p) as [[[a|e|] p1] ev1];
    intros H; inversion H; subst; eauto.
Qed.

Lemma origin_task_step t o p t' p' evs :
  task_step t o p = (Value (Some t'), p', evs) -> origin t' = origin t.
Proof.
  destruct t as [executors params idx pc|pc|b sj cmds|b sj e cmds pc];
    simpl; intros H.
  - apply fmap_value in H. destruct H as ([pc'|] & _ & Heq);
      inversion Heq; reflexivity.
  - apply fmap_value in H. destruct H as ([pc'|] & _ & Heq);
      inversion Heq; reflexivity.
  - unfold mbind, Py_bind, mret, Py_ret in H.
    destruct (start_working_on_subjob_resume b sj cmds p)
      as [[[[]| |] p1] ev1]; inversion H.
  - apply fmap_value in H. destruct H as ([pc'|] & _ & Heq);
      inversion Heq; reflexivity.
Qed.

Lemma origin_after t o p :
  origin (body (after t (fst (fst (task_step t o p))))) = origin t.
Proof.
  destruct (task_step t o p) as [[[[t'|]|e|] p'] evs] eqn:Hstep; simpl;
    try reflexivity.
  eapply origin_task_step. exact Hstep.
Qed.

Lemma thread_inv_initial th : initial th -> thread_inv th [].
Proof.
  destruct th as [t st]. intros [Hst Hor]. simpl in *. subst st.
  unfold thread_inv. simpl.
  destruct t as [executors params idx pc|pc|b sj cmds|b sj e cmds pc];
    simpl in *; inversion Hor; subst; simpl; try reflexivity.
  split; [constructor|reflexivity].
Qed.

(** ** One segment of a thread keeps the shape of its log *)

Lemma no_put_state_in_configured params done_ :
  Forall (fun e => is_put_state e = false) (configured params done_).
Proof. unfold configured. induction done_; simpl; constructor; auto. Qed.

Lemma no_setup_failure_in_configured params done_ :
  Forall (fun e => is_setup_failure e = false) (configured params done_).
Proof. unfold configured. induction done_; simpl; constructor; auto. Qed.

Lemma configured_snoc params done_ e :
  configured params (done_ ++ [e])
  = configured params done_ ++ [ConfigureProjectType e params Returned].
Proof. unfold configured. rewrite map_app. reflexivity. Qed.

(** The log so far of a setup thread that has neither failed nor notified
    holds no notification and no setup failure. *)
Lemma setup_reached_quiet executors params pc l :
  setup_reached executors params pc l ->
  (forall st, pc <> SetupNotify st) ->
  Forall (fun e => is_put_state e = false) l
  /\ Forall (fun e => is_setup_failure e = false) l.
Proof.
  intros Hl Hpc. destruct pc as [|rest|st]; simpl in Hl.
  - subst l. split; constructor.
  - destruct Hl as (pt & done_ & _ & ->). split; constructor; auto.
    + apply no_put_state_in_configured.
    + apply no_setup_failure_in_configured.
  - exfalso. apply (Hpc st). reflexivity.
Qed.

(** A setup call that raised something other than SetupFailureError ends
    the thread. *)
Ltac setup_crashed l ev :=
  exists l, [ev]; split; [assumption|]; split; [|reflexivity];
  right; exists ev; repeat split; reflexivity.

(** A setup call that raised SetupFailureError sends the thread to the
    SETUP_FAILED notification. *)
Ltac setup_failed l ev H :=
  exists l, ev; split; [reflexivity|]; split; [reflexivity|];
  apply (setup_reached_quiet _ _ _ _ H); discriminate.

Lemma setup_step_inv executors params idx pc o p r p' evs l :
  async_setup_build_step executors params idx pc o p = (r, p', evs) ->
  setup_reached executors params pc l ->
  match r with
  | Value (Some pc') => setup_reached executors params pc' (l ++ evs)
  | Value None => setup_inv executors params pc Finished (l ++ evs)
  | Exception ex => setup_inv executors params pc (Crashed ex) (l ++ evs)
  | Blocks => True
  end.
Proof.
  intros Hstep Hl.
  unfold async_setup_build_step, after_setup_call,
    _notify_manager_of_state_change in Hstep.
  py_unfold. simpl in Hstep.
  destruct pc as [|[|executor rest]|st].
  - destruct (_project_type (self p)) as [pt|]; simpl in Hstep.
    + destruct o as [|e]; [|destruct e]; simpl in Hstep; inversion Hstep;
        subst; clear Hstep;
        try (setup_crashed l (FetchProject pt (Raised RuntimeError)); fail);
        try match goal with
            | |- setup_inv _ _ _ (Crashed ?e) _ =>
                setup_crashed l (FetchProject pt (Raised e))
            end.
      * simpl in Hl. subst l. exists pt, []. split; reflexivity.
      * setup_failed l (FetchProject pt (Raised SetupFailureError)) Hl.
    + inversion Hstep; subst. exists l, []. split; [assumption|].
      split; [left; reflexivity|reflexivity].
  - destruct (_project_type (self p)) as [pt'|]; simpl in Hstep.
    + destruct o as [|e]; [|destruct e]; simpl in Hstep; inversion Hstep;
        subst; clear Hstep;
        try match goal with
            | |- setup_inv _ _ _ (Crashed ?e) _ =>
                setup_crashed l (RunJobConfigSetup pt' (Raised e))
            end.
      * simpl in Hl. destruct Hl as (pt & done_ & Hex & ->).
        rewrite app_nil_r in Hex. subst done_. exists pt, pt'. reflexivity.
      * setup_failed l (RunJobConfigSetup pt' (Raised SetupFailureError)) Hl.
    + inversion Hstep; subst. exists l, []. split; [assumption|].
      split; [left; reflexivity|reflexivity].
  - destruct o as [|e]; [|destruct e]; simpl in Hstep; inversion Hstep;
      subst; clear Hstep;
      try match goal with
          | |- setup_inv _ _ _ (Crashed ?e) _ =>
              setup_crashed l (ConfigureProjectType executor params (Raised e))
          end.
    + simpl in Hl. destruct Hl as (pt & done_ & Hex & ->).
      exists pt, (done_ ++ [executor]). rewrite <- app_assoc. split; [exact Hex|].
      rewrite configured_snoc. reflexivity.
    + setup_failed l
        (ConfigureProjectType executor params (Raised SetupFailureError)) Hl.
  - destruct (_manager_api (self p)) as [api|]; simpl in Hstep.
    + destruct o as [|e]; simpl in Hstep; inversion Hstep; subst; clear Hstep.
      * do 4 eexists. split; [reflexivity|]. split; [eassumption|reflexivity].
      * exists l. eexists. split; [assumption|]. split; [|reflexivity].
        right. eexists. split; [reflexivity|]. split; [reflexivity|]. eauto.
    + inversion Hstep; subst. exists l, []. split; [assumption|].
      split; [left; reflexivity|reflexivity].
Qed.

Lemma kills_are_kills w : Forall (fun ev => is_kill ev = true) (kills w).
Proof.
  unfold kills. induction (values (executors_by_id w)); simpl; constructor;
    auto.
Qed.

Lemma polls_snoc n : polls n ++ [QueueFull false; Sleep 1] = polls (S n).
Proof.
  unfold polls. induction n as [|n IH]; [reflexivity|].
  simpl in *. rewrite IH. reflexivity.
Qed.

Lemma teardown_step_inv pc o p r p' evs l :
  async_teardown_build_step pc o p = (r, p', evs) ->
  teardown_reached pc l ->
  match r with
  | Value (Some pc') => teardown_reached pc' (l ++ evs)
  | Value None => teardown_inv pc Finished (l ++ evs)
  | Exception ex => teardown_inv pc (Crashed ex) (l ++ evs)
  | Blocks => True
  end.
Proof.
  intros Hstep Hl. destruct pc as [|pt timeout| | |]; simpl in Hstep, Hl.
  - unfold mbind, Py_bind in Hstep.
    rewrite kill_all_unfold, teardown_gate_unfold in Hstep. subst l.
    destruct (_build_teardown_coin (self p)) as [coin|]; simpl in Hstep.
    + destruct (if is_spent coin then None else _project_type (self p))
        as [pt|]; inversion Hstep; subst; simpl; rewrite app_nil_r.
      * apply kills_are_kills.
      * exists (kills (self p)), 0%nat. rewrite app_nil_r.
        split; [|reflexivity]. exists (kills (self p)), [].
        rewrite app_nil_r. split; [reflexivity|].
        split; [apply kills_are_kills|left; reflexivity].
    + inversion Hstep; subst; simpl. rewrite app_nil_r.
      exists (kills (self p')), 0%nat. rewrite app_nil_r.
      split; [|reflexivity]. exists (kills (self p')), [].
      rewrite app_nil_r. split; [reflexivity|].
      split; [apply kills_are_kills|left; reflexivity].
  - unfold mbind, Py_bind in Hstep. rewrite teardown_finish_unfold in Hstep.
    destruct o as [|e]; inversion Hstep; subst; simpl.
    + exists (l ++ [TeardownBuild pt timeout Returned]), 0%nat.
      rewrite app_nil_r. split; [|reflexivity].
      exists l, [TeardownBuild pt timeout Returned].
      split; [reflexivity|]. split; [assumption|]. right. eauto.
    + exists l, [TeardownBuild pt timeout (Raised e)].
      split; [assumption|]. split; [reflexivity|]. right.
      eexists. split; reflexivity.
  - py_unfold. simpl in Hstep. destruct Hl as (l0 & n & Hl0 & ->).
    destruct (full (_idle_executors (self p))); simpl in Hstep;
      inversion Hstep; subst; simpl.
    + exists l0, n. split; [assumption|]. rewrite <- app_assoc. reflexivity.
    + exists l0, (S n). split; [assumption|].
      rewrite <- app_assoc, polls_snoc. reflexivity.
  - unfold _is_manager_responsive in Hstep. py_unfold. simpl in Hstep.
    destruct (_manager_api (self p)) as [api|]; simpl in Hstep.
    + destruct o as [|e]; simpl in Hstep.
      * inversion Hstep; subst; simpl. exists l, api. auto.
      * destruct (is_transport_error e); simpl in Hstep;
          inversion Hstep; subst; simpl.
        -- exists l. split; [assumption|]. eauto.
        -- exists l, [GetManager api (Raised e)]. split; [assumption|].
           split; [reflexivity|]. right. eexists. split; reflexivity.
    + inversion Hstep; subst; simpl. exists l, []. rewrite app_nil_r. auto.
  - unfold _notify_manager_of_state_change in Hstep. py_unfold.
    simpl in Hstep.
    destruct (_manager_api (self p)) as [api|]; simpl in Hstep.
    + destruct o as [|e]; simpl in Hstep; inversion Hstep; subst; simpl.
      * exists l. split; [assumption|]. eauto.
      * exists l. eexists. split; [assumption|]. split; [reflexivity|].
        right. eexists. split; [reflexivity|]. eauto.
    + inversion Hstep; subst; simpl. exists l, []. rewrite app_nil_r. auto.
Qed.

Lemma pool_and_upload_app l1 l2 :
  pool_and_upload (l1 ++ l2) = pool_and_upload l1 ++ pool_and_upload l2.
Proof. unfold pool_and_upload. apply filter_app. Qed.

Lemma subjob_step_quiet b sj e cmds pc o p r p' evs :
  execute_subjob_step b sj e cmds pc o p = (r, p', evs) ->
  Forall (fun ev => is_put_state ev = false) evs.
Proof.
  intros Hstep. unfold execute_subjob_step, idle_put in Hstep. py_unfold.
  destruct pc as [| |api|api]; simpl in Hstep.
  - destruct o as [|ex]; simpl in Hstep; inversion Hstep; subst;
      repeat constructor.
  - destruct (_manager_api (self p)) as [api|]; simpl in Hstep.
    + destruct o as [|ex]; simpl in Hstep; inversion Hstep; subst;
        repeat constructor.
    + inversion Hstep; subst; repeat constructor.
  - destruct (Queue_put e (_idle_executors (self p))) as [q|];
      simpl in Hstep; inversion Hstep; subst; repeat constructor.
  - destruct o as [|ex]; simpl in Hstep; inversion Hstep; subst;
      repeat constructor.
Qed.

Lemma subjob_step_inv b sj e cmds pc o p r p' evs l :
  execute_subjob_step b sj e cmds pc o p = (r, p', evs) ->
  subjob_pool_inv b sj e pc Running l ->
  match r with
  | Value (Some pc') => subjob_pool_inv b sj e pc' Running (l ++ evs)
  | Value None => subjob_pool_inv b sj e pc Finished (l ++ evs)
  | Exception ex => subjob_pool_inv b sj e pc (Crashed ex) (l ++ evs)
  | Blocks => True
  end.
Proof.
  intros Hstep Hl. unfold execute_subjob_step, idle_put in Hstep. py_unfold.
  destruct pc as [| |api|api]; simpl in Hstep, Hl.
  - destruct o as [|ex]; simpl in Hstep; inversion Hstep; subst;
      simpl; rewrite pool_and_upload_app, Hl; reflexivity.
  - destruct (_manager_api (self p)) as [api|]; simpl in Hstep.
    + destruct o as [|ex]; simpl in Hstep; inversion Hstep; subst;
        simpl; rewrite pool_and_upload_app, Hl; reflexivity.
    + inversion Hstep; subst; simpl.
      rewrite pool_and_upload_app, Hl. reflexivity.
  - destruct (Queue_put e (_idle_executors (self p))) as [q|];
      simpl in Hstep; inversion Hstep; subst; simpl; [|exact I].
    rewrite pool_and_upload_app, Hl. reflexivity.
  - destruct o as [|ex]; simpl in Hstep; inversion Hstep; subst;
      simpl; rewrite pool_and_upload_app, Hl; reflexivity.
Qed.

Lemma resume_unfold b sj cmds p :
  start_working_on_subjob_resume b sj cmds p =
  match Queue_get (_idle_executors (self p)) with
  | None => (Blocks, p, [])
  | Some (e, q) =>
      (Value tt,
       mkProcess (set_idle_executors q (self p))
         (threads p ++ [mkThread (ExecuteSubjob b sj e cmds SjExecute) Running]),
       [QueueGet e;
        ThreadStart (length (threads p)) (ExecuteSubjob b sj e cmds SjExecute);
        Reply (SubjobExecutor.id e)])
  end.
Proof.
  unfold start_working_on_subjob_resume, idle_get. py_unfold.
  destruct (Queue_get (_idle_executors (self p))) as [[e q]|]; reflexivity.
Qed.

(** One segment of a running thread keeps the shape of its log. *)
Lemma thread_inv_step t o p r p' evs l :
  task_step t o p = (r, p', evs) ->
  r <> Blocks ->
  thread_inv (mkThread t Running) l ->
  thread_inv (after t r) (l ++ evs).
Proof.
  intros Hstep Hr Hl. unfold thread_inv in *.
  destruct t as [executors params idx pc|pc|b sj cmds|b sj e cmds pc];
    simpl in Hstep, Hl.
  - apply fmap_value in Hstep. destruct r as [[t'|]|ex|]; try congruence.
    + destruct Hstep as ([pc'|] & Hstep & Heq); inversion Heq; subst.
      simpl. exact (setup_step_inv _ _ _ _ _ _ _ _ _ _ Hstep Hl).
    + destruct Hstep as ([pc'|] & Hstep & Heq); inversion Heq; subst.
      simpl. exact (setup_step_inv _ _ _ _ _ _ _ _ _ _ Hstep Hl).
    + simpl. exact (setup_step_inv _ _ _ _ _ _ _ _ _ _ Hstep Hl).
  - apply fmap_value in Hstep. destruct r as [[t'|]|ex|]; try congruence.
    + destruct Hstep as ([pc'|] & Hstep & Heq); inversion Heq; subst.
      simpl. exact (teardown_step_inv _ _ _ _ _ _ _ Hstep Hl).
    + destruct Hstep as ([pc'|] & Hstep & Heq); inversion Heq; subst.
      simpl. exact (teardown_step_inv _ _ _ _ _ _ _ Hstep Hl).
    + simpl. exact (teardown_step_inv _ _ _ _ _ _ _ Hstep Hl).
  - unfold mbind, Py_bind in Hstep. rewrite resume_unfold in Hstep.
    subst l.
    destruct (Queue_get (_idle_executors (self p))) as [[e q]|];
      inversion Hstep; subst; [|congruence].
    simpl. eauto.
  - apply fmap_value in Hstep. destruct Hl as [Hq Hl].
    destruct r as [[t'|]|ex|]; try congruence.
    + destruct Hstep as ([pc'|] & Hstep & Heq); inversion Heq; subst.
      simpl. split.
      * apply Forall_app. split; [exact Hq|].
        exact (subjob_step_quiet _ _ _ _ _ _ _ _ _ _ Hstep).
      * exact (subjob_step_inv _ _ _ _ _ _ _ _ _ _ _ Hstep Hl).
    + destruct Hstep as ([pc'|] & Hstep & Heq); inversion Heq; subst.
      simpl. split.
      * apply Forall_app. split; [exact Hq|].
        exact (subjob_step_quiet _ _ _ _ _ _ _ _ _ _ Hstep).
      * exact (subjob_step_inv _ _ _ _ _ _ _ _ _ _ _ Hstep Hl).
    + simpl. split.
      * apply Forall_app. split; [exact Hq|].
        exact (subjob_step_quiet _ _ _ _ _ _ _ _ _ _ Hstep).
      * exact (subjob_step_inv _ _ _ _ _ _ _ _ _ _ _ Hstep Hl).
Qed.

(** ** The system invariant *)

Lemma run_snoc schedule a s : run (schedule ++ [a]) s = step a (run schedule s).
Proof. unfold run. rewrite fold_left_app. reflexivity. Qed.

Lemma run_app schedule1 schedule2 s :
  run (schedule1 ++ schedule2) s = run schedule2 (run schedule1 s).
Proof. unfold run. apply fold_left_app. Qed.

Lemma invariant_boot w : invariant (boot w).
Proof. split; simpl; intros; try contradiction. discriminate. Qed.

(** A thread added by a method has not run and has logged nothing. *)
Lemma new_thread_inv s new t th :
  invariant s ->
  Forall initial new ->
  (threads (proc s) ++ new) !! t = Some th ->
  (length (threads (proc s)) <= t)%nat ->
  initial th /\ log_of (Some t) (trace s) = [].
Proof.
  intros Hinv Hnew Hlook Hle. split.
  - rewrite lookup_app_r in Hlook by exact Hle.
    rewrite Forall_forall in Hnew. apply Hnew.
    eapply list_elem_of_lookup_2. exact Hlook.
  - apply log_of_fresh. intros ev Hin.
    apply (inv_tags s Hinv) in Hin. lia.
Qed.

Lemma invariant_call m s : spawns m -> invariant s -> invariant (call m s).
Proof.
  intros Hm Hinv. unfold call.
  destruct (Hm (proc s)) as (new & Hth & Hnew & Hst).
  destruct (m (proc s)) as [[r p'] evs] eqn:Hrun. simpl in Hth, Hst.
  assert (Hgoal : forall evs',
             (forall c t, In (ThreadStart c t) evs' -> In (ThreadStart c t) evs) ->
             invariant (mkSystem p' (trace s ++ tagged None evs'))).
  { intros evs' Hevs'. split; simpl.
    - intros t ev Hin. apply in_app_iff in Hin. destruct Hin as [Hin|Hin].
      + apply (inv_tags s Hinv) in Hin. rewrite Hth, length_app. lia.
      + apply in_tagged in Hin. destruct Hin as [Heq _]. discriminate.
    - intros who c t0 Hin. apply in_app_iff in Hin. destruct Hin as [Hin|Hin].
      + destruct (inv_starts s Hinv _ _ _ Hin) as (th & Hlook & Hor).
        exists th. split; [|exact Hor]. rewrite Hth.
        apply lookup_app_l_Some. exact Hlook.
      + apply in_tagged in Hin. destruct Hin as [_ Hin].
        destruct (Hst c t0 (Hevs' _ _ Hin)) as [Hle Hlook].
        exists (mkThread t0 Running). rewrite Hth. split; [exact Hlook|].
        destruct (new_thread_inv s new c _ Hinv Hnew Hlook Hle) as [[_ Hor] _].
        exact Hor.
    - intros t th Hlook. rewrite Hth in Hlook.
      rewrite log_of_app, log_of_tagged_ne, app_nil_r by discriminate.
      destruct (Nat.lt_ge_cases t (length (threads (proc s)))) as [Hlt|Hge].
      + rewrite lookup_app_l in Hlook by exact Hlt.
        apply (inv_logs s Hinv). exact Hlook.
      + destruct (new_thread_inv s new t th Hinv Hnew Hlook Hge)
          as [Hinit ->].
        apply thread_inv_initial. exact Hinit. }
  destruct r as [a|e|].
  - apply Hgoal. auto.
  - apply Hgoal. intros c t Hin. apply in_app_iff in Hin.
    destruct Hin as [Hin|[Heq|[]]]; [exact Hin|discriminate].
  - exact Hinv.
Qed.

Lemma invariant_step_thread tid o s :
  invariant s -> invariant (step_thread tid o s).
Proof.
  intros Hinv. unfold step_thread.
  destruct (threads (proc s) !! tid) as [[t [| |e]]|] eqn:Htid;
    try exact Hinv.
  destruct (spawns_task_step t o (proc s)) as (new & Hth & Hnew & Hst).
  pose proof (origin_after t o (proc s)) as Hor.
  pose proof (thread_inv_step t o (proc s)) as Hshape.
  destruct (task_step t o (proc s)) as [[r p'] evs] eqn:Hstep.
  simpl in Hth, Hst, Hor.
  specialize (Hshape r p' evs (log_of (Some tid) (trace s)) eq_refl).
  pose proof (lookup_lt_Some _ _ _ Htid) as Hlt.
  assert (Hgoal : r <> Blocks ->
             invariant
               (mkSystem (mkProcess (self p') (<[tid := after t r]> (threads p')))
                  (trace s ++ tagged (Some tid) evs))).
  { intros Hr. split; simpl.
    - intros t' ev Hin. rewrite length_insert, Hth, length_app.
      apply in_app_iff in Hin. destruct Hin as [Hin|Hin].
      + apply (inv_tags s Hinv) in Hin. lia.
      + apply in_tagged in Hin. destruct Hin as [Heq _].
        inversion Heq; subst. lia.
    - intros who c t0 Hin.
      destruct (Nat.eq_dec c tid) as [->|Hne].
      + exists (after t r). split.
        * apply list_lookup_insert_eq. rewrite Hth, length_app. lia.
        * apply in_app_iff in Hin. destruct Hin as [Hin|Hin].
          -- destruct (inv_starts s Hinv _ _ _ Hin) as (th & Hlook & Hor').
             rewrite Htid in Hlook. injection Hlook as <-. simpl in Hor'.
             rewrite <- Hor'. exact Hor.
          -- apply in_tagged in Hin. destruct Hin as [_ Hin].
             destruct (Hst _ _ Hin) as [Hle _]. lia.
      + rewrite list_lookup_insert_ne by congruence.
        apply in_app_iff in Hin. destruct Hin as [Hin|Hin].
        * destruct (inv_starts s Hinv _ _ _ Hin) as (th & Hlook & Hor').
          exists th. split; [|exact Hor']. rewrite Hth.
          apply lookup_app_l_Some. exact Hlook.
        * apply in_tagged in Hin. destruct Hin as [_ Hin].
          destruct (Hst _ _ Hin) as [Hle Hlook].
          exists (mkThread t0 Running). rewrite Hth. split; [exact Hlook|].
          destruct (new_thread_inv s new c _ Hinv Hnew Hlook Hle)
            as [[_ Hor'] _].
          exact Hor'.
    - intros t' th Hlook. rewrite log_of_app.
      destruct (Nat.eq_dec t' tid) as [->|Hne].
      + rewrite list_lookup_insert_eq in Hlook
          by (rewrite Hth, length_app; lia).
        inversion Hlook; subst. rewrite log_of_tagged.
        apply Hshape; [exact Hr|].
        apply (inv_logs s Hinv). exact Htid.
      + rewrite list_lookup_insert_ne in Hlook by congruence.
        rewrite log_of_tagged_ne, app_nil_r by congruence.
        rewrite Hth in Hlook.
        destruct (Nat.lt_ge_cases t' (length (threads (proc s)))) as [Hlt'|Hge].
        * rewrite lookup_app_l in Hlook by exact Hlt'.
          apply (inv_logs s Hinv). exact Hlook.
        * destruct (new_thread_inv s new t' th Hinv Hnew Hlook Hge)
            as [Hinit ->].
          apply thread_inv_initial. exact Hinit. }
  destruct r as [[t'|]|e'|]; try (apply Hgoal; discriminate).
  exact Hinv.
Qed.

Lemma invariant_step a s : invariant s -> invariant (step a s).
Proof.
  intros Hinv. destruct (step_is_call a s) as [(m & Hm & ->)|(tid & o & ->)].
  - apply invariant_call; assumption.
  - apply invariant_step_thread. exact Hinv.
Qed.

Lemma invariant_run schedule s : invariant s -> invariant (run schedule s).
Proof.
  revert s. induction schedule as [|a schedule IH]; intros s Hinv;
    [exact Hinv|].
  simpl. apply IH, invariant_step, Hinv.
Qed.

Lemma invariant_reachable schedule w : invariant (run schedule (boot w)).
Proof. apply invariant_run, invariant_boot. Qed.

(** ** The setup thread *)

Lemma setup_reached_no_put_state executors params pc l :
  setup_reached executors params pc l ->
  Forall (fun e => is_put_state e = false) l.
Proof.
  intros Hl. destruct pc as [|rest|sta].
  - apply (setup_reached_quiet _ _ _ _ Hl). discriminate.
  - apply (setup_reached_quiet _ _ _ _ Hl). discriminate.
  - destruct sta; simpl in Hl; try contradiction.
    + destruct Hl as (pt & pt' & ->). constructor; [reflexivity|].
      apply Forall_app. split; [apply no_put_state_in_configured|].
      constructor; [reflexivity|constructor].
    + destruct Hl as (l0 & ev & -> & Hev & Hq & _).
      apply Forall_app. split; [exact Hq|].
      constructor; [|constructor]. destruct ev; try reflexivity; discriminate.
Qed.

Lemma setup_reached_failure executors params pc l :
  setup_reached executors params pc l ->
  Exists (fun e => is_setup_failure e = true) l ->
  pc = SetupNotify SETUP_FAILED.
Proof.
  intros Hl Hex.
  assert (Hno : Forall (fun e => is_setup_failure e = false) l -> False).
  { intros Hall. rewrite Forall_forall in Hall. apply Exists_exists in Hex.
    destruct Hex as (ev & Hin & Hev). apply Hall in Hin. congruence. }
  destruct pc as [|rest|sta].
  - exfalso. apply Hno. apply (setup_reached_quiet _ _ _ _ Hl). discriminate.
  - exfalso. apply Hno. apply (setup_reached_quiet _ _ _ _ Hl). discriminate.
  - destruct sta; simpl in Hl; try contradiction; [|reflexivity].
    exfalso. apply Hno. destruct Hl as (pt & pt' & ->).
    constructor; [reflexivity|].
    apply Forall_app. split; [apply no_setup_failure_in_configured|].
    constructor; [reflexivity|constructor].
Qed.

Lemma not_in_quiet (P : event -> bool) l ev :
  Forall (fun e => P e = false) l -> P ev = true -> ~ In ev l.
Proof.
  intros Hall Hev Hin. rewrite Forall_forall in Hall.
  apply list_elem_of_In, Hall in Hin. congruence.
Qed.

(** A notification in the log of a setup thread is its last event, and the
    thread reached the notification it names. *)
Lemma setup_inv_notification executors params pc st log api wid sta o :
  setup_inv executors params pc st log ->
  In (PutState api wid sta o) log ->
  exists l,
    pc = SetupNotify sta /\ setup_reached executors params pc l
    /\ log = l ++ [PutState api wid sta o].
Proof.
  intros Hinv Hin. destruct st as [| |ex]; simpl in Hinv.
  - exfalso. apply setup_reached_no_put_state in Hinv.
    exact (not_in_quiet is_put_state _ (PutState api wid sta o) Hinv eq_refl Hin).
  - destruct Hinv as (l & sta' & api' & wid' & -> & Hl & ->).
    apply in_app_iff in Hin. destruct Hin as [Hin|[Heq|[]]].
    + exfalso. apply setup_reached_no_put_state in Hl.
      exact (not_in_quiet is_put_state _ (PutState api wid sta o) Hl eq_refl Hin).
    + inversion Heq; subst. exists l. auto.
  - destruct Hinv as (l & tail & Hl & Hcrash & ->).
    apply in_app_iff in Hin. destruct Hin as [Hin|Hin].
    + exfalso. apply setup_reached_no_put_state in Hl.
      exact (not_in_quiet is_put_state _ (PutState api wid sta o) Hl eq_refl Hin).
    + destruct Hcrash as [->|(ev & -> & _ & Hev)]; [destruct Hin|].
      destruct Hin as [Heq|[]]. subst ev.
      destruct pc as [|rest|sta']; try discriminate.
      destruct Hev as (api' & wid' & Heq). inversion Heq; subst.
      exists l. auto.
Qed.

(** A setup failure in the log of a setup thread sent the thread to the
    SETUP_FAILED notification. *)
Lemma setup_inv_failure executors params pc st log :
  setup_inv executors params pc st log ->
  Exists (fun e => is_setup_failure e = true) log ->
  pc = SetupNotify SETUP_FAILED.
Proof.
  intros Hinv Hex. destruct st as [| |ex]; simpl in Hinv.
  - eapply setup_reached_failure; eassumption.
  - destruct Hinv as (l & sta & api & wid & _ & Hl & ->).
    apply Exists_app in Hex. destruct Hex as [Hex|Hex].
    + eapply setup_reached_failure; eassumption.
    + apply Exists_cons in Hex. destruct Hex as [Hex|Hex];
        [discriminate|inversion Hex].
  - destruct Hinv as (l & tail & Hl & Hcrash & ->).
    apply Exists_app in Hex. destruct Hex as [Hex|Hex].
    + eapply setup_reached_failure; eassumption.
    + destruct Hcrash as [->|(ev & -> & Hev & _)]; [inversion Hex|].
      apply Exists_cons in Hex. destruct Hex as [Hex|Hex];
        [congruence|inversion Hex].
Qed.

(** The notification segment of a setup thread, on a connected worker. *)
Lemma setup_notify_step executors params idx sta o t s api :
  threads (proc s) !! t
  = Some (mkThread (AsyncSetupBuild executors params idx (SetupNotify sta))
            Running) ->
  _manager_api (self (proc s)) = Some api ->
  log_of (Some t) (trace (step (StepThread t o) s))
  = log_of (Some t) (trace s)
    ++ [PutState api (_worker_id (self (proc s))) sta o]
  /\ state <$> threads (proc (step (StepThread t o) s)) !! t
     = Some (match o with
             | Returned => Finished
             | Raised e => Crashed e
             end).
Proof.
  intros Ht Hapi. pose proof (lookup_lt_Some _ _ _ Ht) as Hlt.
  simpl. unfold step_thread. rewrite Ht. simpl.
  unfold _notify_manager_of_state_change. py_unfold. simpl. rewrite Hapi.
  destruct o as [|e]; simpl; rewrite list_lookup_insert_eq by exact Hlt;
    (split; [apply log_of_snoc|reflexivity]).
Qed.

(** C5: in the log of a setup thread started by [setup_build] with the
    snapshot [executors], a SETUP_COMPLETED notification is the last event
    and comes after [fetch_project], [configure_project_type] on every
    executor of the snapshot, in order, and [run_job_config_setup], all
    returned; if one of these calls raised SetupFailureError, no
    SETUP_COMPLETED notification is in the log, the thread stands at (or
    went through) the SETUP_FAILED notification, which a finished thread
    has sent and which a running thread of a connected worker sends as its
    next and last event. *)
Theorem setup_notification_follows_setup :
  forall w schedule t executors params idx pc st,
    threads (proc (run schedule (boot w))) !! t
    = Some (mkThread (AsyncSetupBuild executors params idx pc) st) ->
    let s := run schedule (boot w) in
    let log := log_of (Some t) (trace s) in
    (forall api wid o,
       In (PutState api wid SETUP_COMPLETED o) log ->
       exists pt pt',
         log = FetchProject pt Returned
               :: configured params executors
               ++ [RunJobConfigSetup pt' Returned;
                   PutState api wid SETUP_COMPLETED o])
    /\ (Exists (fun ev => is_setup_failure ev = true) log ->
        pc = SetupNotify SETUP_FAILED
        /\ (forall api wid o, ~ In (PutState api wid SETUP_COMPLETED o) log)
        /\ (st = Finished ->
            exists l api wid,
              log = l ++ [PutState api wid SETUP_FAILED Returned])
        /\ (st = Running ->
            forall o api,
              _manager_api (self (proc s)) = Some api ->
              log_of (Some t) (trace (step (StepThread t o) s))
              = log ++ [PutState api (_worker_id (self (proc s)))
                          SETUP_FAILED o]
              /\ state <$> threads (proc (step (StepThread t o) s)) !! t
                 = Some (match o with
                         | Returned => Finished
                         | Raised e => Crashed e
                         end))).
Proof.
  intros w schedule t executors params idx pc st Ht s log.
  pose proof (inv_logs s (invariant_reachable schedule w) t _ Ht) as Hinv.
  unfold thread_inv in Hinv. simpl in Hinv. fold log in Hinv.
  split.
  - intros api wid o Hin.
    destruct (setup_inv_notification _ _ _ _ _ _ _ _ _ Hinv Hin)
      as (l & -> & Hl & Hlog).
    simpl in Hl. destruct Hl as (pt & pt' & ->). exists pt, pt'.
    rewrite Hlog. simpl. rewrite <- app_assoc. reflexivity.
  - intros Hex. pose proof (setup_inv_failure _ _ _ _ _ Hinv Hex) as ->.
    split; [reflexivity|]. split; [|split].
    + intros api wid o Hin.
      destruct (setup_inv_notification _ _ _ _ _ _ _ _ _ Hinv Hin)
        as (l & Heq & _). discriminate.
    + intros ->. simpl in Hinv.
      destruct Hinv as (l & sta & api & wid & Heq & _ & Hlog).
      inversion Heq; subst sta. eauto.
    + intros -> o api Hapi.
      apply (setup_notify_step executors params idx); assumption.
Qed.

(** Witness of [setup_notification_follows_setup]: build 42 is set up on
    the two-executor worker, [fetch_project] returns and the first
    [configure_project_type] raises SetupFailureError; the next segment of
    the setup thread sends SETUP_FAILED. *)
Lemma setup_notification_follows_setup_witness :
  threads (proc (run [CallSetupBuild 42 [] 0; StepThread 0 Returned;
                      StepThread 0 (Raised SetupFailureError)]
                   (boot fresh_worker))) !! 0%nat
  = Some (mkThread
            (AsyncSetupBuild [SubjobExecutor.new 0; SubjobExecutor.new 1] [] 0
               (SetupNotify SETUP_FAILED)) Running)
  /\ log_of (Some 0%nat)
       (trace (run [CallSetupBuild 42 [] 0; StepThread 0 Returned;
                    StepThread 0 (Raised SetupFailureError);
                    StepThread 0 Returned] (boot fresh_worker)))
     = [FetchProject (create_project_type []) Returned;
        ConfigureProjectType (SubjobExecutor.new 0) [] (Raised SetupFailureError);
        PutState (mkUrlBuilder example_url) (Some 7) SETUP_FAILED Returned].
Proof.
  split; [reflexivity|].
  pose proof (setup_notification_follows_setup fresh_worker
                [CallSetupBuild 42 [] 0; StepThread 0 Returned;
                 StepThread 0 (Raised SetupFailureError)]
                0%nat [SubjobExecutor.new 0; SubjobExecutor.new 1] [] 0
                (SetupNotify SETUP_FAILED) Running eq_refl) as [_ Hfail].
  destruct Hfail as (_ & _ & _ & Hnext).
  - apply Exists_cons. right. apply Exists_cons. left. reflexivity.
  - destruct (Hnext eq_refl Returned (mkUrlBuilder example_url) eq_refl)
      as [Hlog _].
    exact Hlog.
Defined.

(** ** The teardown thread *)

Lemma kills_no_put_state l :
  Forall (fun ev => is_kill ev = true) l ->
  Forall (fun ev => is_put_state ev = false) l.
Proof.
  intros Hl. eapply Forall_impl; [exact Hl|].
  intros ev Hev. destruct ev; try discriminate; reflexivity.
Qed.

Lemma polls_no_put_state n :
  Forall (fun ev => is_put_state ev = false) (polls n).
Proof.
  unfold polls. induction n as [|n IH]; simpl; repeat constructor. exact IH.
Qed.

Lemma teardown_returned_no_put_state l :
  teardown_returned l -> Forall (fun ev => is_put_state ev = false) l.
Proof.
  intros (ks & td & -> & Hks & Htd). apply Forall_app. split.
  - apply kills_no_put_state. exact Hks.
  - destruct Htd as [->|(pt & timeout & ->)]; repeat constructor.
Qed.

Lemma left_polling_loop_no_put_state l :
  left_polling_loop l -> Forall (fun ev => is_put_state ev = false) l.
Proof.
  intros (l0 & n & Hl0 & ->). apply Forall_app. split.
  - apply teardown_returned_no_put_state. exact Hl0.
  - apply Forall_app. split; [apply polls_no_put_state|repeat constructor].
Qed.

Lemma teardown_reached_no_put_state pc l :
  teardown_reached pc l -> Forall (fun ev => is_put_state ev = false) l.
Proof.
  intros Hl. destruct pc as [|pt timeout| | |]; simpl in Hl.
  - subst l. constructor.
  - apply kills_no_put_state. exact Hl.
  - destruct Hl as (l0 & n & Hl0 & ->). apply Forall_app. split.
    + apply teardown_returned_no_put_state. exact Hl0.
    + apply polls_no_put_state.
  - apply left_polling_loop_no_put_state. exact Hl.
  - destruct Hl as (l1 & api & Hl1 & ->). apply Forall_app. split.
    + apply left_polling_loop_no_put_state. exact Hl1.
    + repeat constructor.
Qed.

(** A notification in the log of a teardown thread is IDLE, is its last
    event, and follows the responsiveness probe made on leaving the polling
    loop. *)
Lemma teardown_inv_notification pc st log api wid sta o :
  teardown_inv pc st log ->
  In (PutState api wid sta o) log ->
  sta = IDLE /\ pc = TdNotify
  /\ exists l1 api',
       left_polling_loop l1
       /\ log = l1 ++ [GetManager api' Returned; PutState api wid IDLE o].
Proof.
  intros Hinv Hin. destruct st as [| |ex]; simpl in Hinv.
  - exfalso. apply teardown_reached_no_put_state in Hinv.
    exact (not_in_quiet is_put_state _ (PutState api wid sta o) Hinv
             eq_refl Hin).
  - destruct Hinv as (l & Hl & Hlog).
    assert (Hnot : ~ In (PutState api wid sta o) l).
    { apply (not_in_quiet is_put_state); [|reflexivity].
      eapply teardown_reached_no_put_state. exact Hl. }
    destruct pc as [|pt timeout| | |]; try contradiction.
    + destruct Hlog as (api' & e & ->). apply in_app_iff in Hin.
      destruct Hin as [Hin|[Heq|[]]]; [contradiction|discriminate].
    + destruct Hlog as (api' & wid' & ->). apply in_app_iff in Hin.
      destruct Hin as [Hin|[Heq|[]]]; [contradiction|].
      inversion Heq; subst. simpl in Hl. destruct Hl as (l1 & api1 & Hl1 & ->).
      split; [reflexivity|]. split; [reflexivity|]. exists l1, api1.
      split; [exact Hl1|]. rewrite <- app_assoc. reflexivity.
  - destruct Hinv as (l & tail & Hl & -> & Htail).
    assert (Hnot : ~ In (PutState api wid sta o) l).
    { apply (not_in_quiet is_put_state); [|reflexivity].
      eapply teardown_reached_no_put_state. exact Hl. }
    apply in_app_iff in Hin. destruct Hin as [Hin|Hin]; [contradiction|].
    destruct Htail as [->|(ev & -> & Hev)]; [destruct Hin|].
    destruct Hin as [Heq|[]]. subst ev.
    destruct pc as [|pt timeout| | |]; try discriminate.
    destruct Hev as (api' & wid' & Heq). inversion Heq; subst.
    simpl in Hl. destruct Hl as (l1 & api1 & Hl1 & ->).
    split; [reflexivity|]. split; [reflexivity|]. exists l1, api1.
    split; [exact Hl1|]. rewrite <- app_assoc. reflexivity.
Qed.

(** Only a teardown thread sends IDLE. *)
Lemma idle_sender th log api wid o :
  thread_inv th log ->
  In (PutState api wid IDLE o) log ->
  exists st,
    th = mkThread (AsyncTeardownBuild TdNotify) st
    /\ exists l1 api',
         left_polling_loop l1
         /\ log = l1 ++ [GetManager api' Returned; PutState api wid IDLE o].
Proof.
  destruct th as [t st]. unfold thread_inv. simpl.
  destruct t as [executors params idx pc|pc|b sj cmds|b sj e cmds pc];
    intros Hinv Hin.
  - exfalso.
    destruct (setup_inv_notification _ _ _ _ _ _ _ _ _ Hinv Hin)
      as (l & -> & Hl & _). exact Hl.
  - destruct (teardown_inv_notification _ _ _ _ _ _ _ Hinv Hin)
      as (_ & -> & Hshape). eauto.
  - exfalso. destruct st as [| |ex]; simpl in Hinv.
    + subst log. destruct Hin.
    + destruct Hinv as (e & c & ->).
      destruct Hin as [?|[?|[?|[]]]]; discriminate.
    + exact Hinv.
  - exfalso. destruct Hinv as [Hq _].
    exact (not_in_quiet is_put_state _ (PutState api wid IDLE o) Hq
             eq_refl Hin).
Qed.

(** What an action does to the thread at [t]. *)
Lemma thread_after_step a s t th' :
  threads (proc (step a s)) !! t = Some th' ->
  threads (proc s) !! t = Some th'
  \/ (threads (proc s) !! t = None /\ initial th')
  \/ exists o tk r p' evs,
       a = StepThread t o
       /\ threads (proc s) !! t = Some (mkThread tk Running)
       /\ task_step tk o (proc s) = (r, p', evs)
       /\ r <> Blocks
       /\ th' = after tk r
       /\ self (proc (step a s)) = self p'.
Proof.
  intros Hlook.
  assert (Happ : forall new,
             Forall initial new ->
             (threads (proc s) ++ new) !! t = Some th' ->
             threads (proc s) !! t = Some th'
             \/ (threads (proc s) !! t = None /\ initial th')).
  { intros new Hnew Hl.
    destruct (Nat.lt_ge_cases t (length (threads (proc s)))) as [Hlt|Hge].
    - left. rewrite lookup_app_l in Hl by exact Hlt. exact Hl.
    - right. split; [apply lookup_ge_None_2; exact Hge|].
      rewrite lookup_app_r in Hl by exact Hge.
      rewrite Forall_forall in Hnew. apply Hnew.
      eapply list_elem_of_lookup_2. exact Hl. }
  destruct (step_is_call a s) as [(m & Hm & Heq)|(tid & o & ->)].
  - rewrite Heq in Hlook. unfold call in Hlook.
    destruct (Hm (proc s)) as (new & Hth & Hnew & _).
    destruct (m (proc s)) as [[[x|e|] p'] evs]; simpl in *.
    + rewrite Hth in Hlook. destruct (Happ new Hnew Hlook); auto.
    + rewrite Hth in Hlook. destruct (Happ new Hnew Hlook); auto.
    + auto.
  - simpl in *. unfold step_thread in *.
    destruct (threads (proc s) !! tid) as [[tk [| |e]]|] eqn:Htid; auto.
    destruct (spawns_task_step tk o (proc s)) as (new & Hth & Hnew & _).
    destruct (task_step tk o (proc s)) as [[r p'] evs] eqn:Hstep.
    simpl in Hth.
    assert (Hcase : r <> Blocks ->
              (mkProcess (self p') (<[tid := after tk r]> (threads p')))
                .(threads) !! t = Some th' ->
              threads (proc s) !! t = Some th'
              \/ (threads (proc s) !! t = None /\ initial th')
              \/ exists o0 tk0 r0 p0 evs0,
                   StepThread tid o = StepThread t o0
                   /\ threads (proc s) !! t = Some (mkThread tk0 Running)
                   /\ task_step tk0 o0 (proc s) = (r0, p0, evs0)
                   /\ r0 <> Blocks
                   /\ th' = after tk0 r0
                   /\ self p' = self p0).
    { intros Hr Hl. simpl in Hl.
      pose proof (lookup_lt_Some _ _ _ Htid) as Hlt.
      destruct (Nat.eq_dec t tid) as [->|Hne].
      - rewrite list_lookup_insert_eq in Hl
          by (rewrite Hth, length_app; lia).
        inversion Hl; subst. right. right.
        exists o, tk, r, p', evs. auto 10.
      - rewrite list_lookup_insert_ne in Hl by congruence.
        rewrite Hth in Hl. destruct (Happ new Hnew Hl); auto. }
    destruct r as [[tk'|]|e'|]; simpl in Hlook |- *;
      try (apply Hcase; [discriminate|exact Hlook]).
    auto.
Qed.

Lemma teardown_step_leaves_loop pc0 o p pc p' evs :
  async_teardown_build_step pc0 o p = (Value (Some pc), p', evs) ->
  pc = TdProbe \/ pc = TdNotify ->
  pc0 = TdProbe \/ pc0 = TdNotify
  \/ (pc0 = TdWait /\ pc = TdProbe
      /\ full (_idle_executors (self p)) = true /\ p' = p).
Proof.
  intros Hstep Hpc. destruct pc0 as [|pt timeout| | |]; auto.
  - exfalso. simpl in Hstep. unfold mbind, Py_bind in Hstep.
    rewrite kill_all_unfold, teardown_gate_unfold in Hstep.
    destruct (_build_teardown_coin (self p)) as [coin|]; simpl in Hstep.
    + destruct (if is_spent coin then None else _project_type (self p));
        inversion Hstep; subst; destruct Hpc; discriminate.
    + inversion Hstep; subst; destruct Hpc; discriminate.
  - exfalso. simpl in Hstep. unfold mbind, Py_bind in Hstep.
    rewrite teardown_finish_unfold in Hstep.
    destruct o; inversion Hstep; subst; destruct Hpc; discriminate.
  - right. right. revert Hstep. simpl. py_unfold. simpl.
    destruct (full (_idle_executors (self p))) eqn:Hfull; simpl;
      intros Hstep; inversion Hstep; subst.
    + auto.
    + destruct Hpc; discriminate.
Qed.

Lemma left_loop_later w schedule a t :
  left_loop_on_full_pool w schedule t ->
  left_loop_on_full_pool w (schedule ++ [a]) t.
Proof.
  intros (s1 & s2 & -> & Hfull & Hth & Hlog).
  exists s1, (s2 ++ [a]). rewrite app_assoc. auto.
Qed.

(** A teardown thread past its polling loop left it on a full pool. *)
Lemma teardown_past_loop w schedule :
  forall t pc st,
    threads (proc (run schedule (boot w))) !! t
    = Some (mkThread (AsyncTeardownBuild pc) st) ->
    pc = TdProbe \/ pc = TdNotify ->
    left_loop_on_full_pool w schedule t.
Proof.
  induction schedule as [|a schedule IH] using rev_ind; intros t pc st Ht Hpc.
  - discriminate.
  - rewrite run_snoc in Ht.
    destruct (thread_after_step _ _ _ _ Ht)
      as [Hold|[[_ [_ Hinit]]|(o & tk & r & p' & evs & -> & Hold & Hstep
                               & Hr & Hafter & Hself)]].
    + apply left_loop_later. eapply IH; eassumption.
    + simpl in Hinit. inversion Hinit; subst. destruct Hpc; discriminate.
    + destruct r as [[tk'|]|e|]; simpl in Hafter; try congruence.
      * inversion Hafter; subst tk' st. clear Hafter.
        destruct tk as [executors params idx pc0|pc0|b sj cmds|b sj e cmds pc0];
          simpl in Hstep.
        -- apply fmap_value in Hstep. destruct Hstep as ([?|] & _ & Heq);
             discriminate.
        -- apply fmap_value in Hstep.
           destruct Hstep as ([pc'|] & Hstep & Heq); inversion Heq; subst pc'.
           destruct (teardown_step_leaves_loop _ _ _ _ _ _ Hstep Hpc)
             as [Hpc0|[Hpc0|(-> & -> & Hfull & ->)]].
           ++ apply left_loop_later. eapply IH; eauto.
           ++ apply left_loop_later. eapply IH; eauto.
           ++ exists (schedule ++ [StepThread t o]), [].
              rewrite app_nil_r, run_snoc. split; [reflexivity|].
              rewrite Hself. split; [exact Hfull|]. split; [exact Ht|].
              pose proof (invariant_reachable
                            (schedule ++ [StepThread t o]) w) as Hinv.
              rewrite run_snoc in Hinv.
              exact (inv_logs _ Hinv t _ Ht).
        -- unfold mbind, Py_bind, mret, Py_ret in Hstep.
           destruct (start_working_on_subjob_resume b sj cmds
                       (proc (run schedule (boot w))))
             as [[[[]| |] p1] ev1]; discriminate.
        -- apply fmap_value in Hstep. destruct Hstep as ([?|] & _ & Heq);
             discriminate.
      * inversion Hafter; subst tk st. apply left_loop_later.
        eapply IH; eauto.
      * inversion Hafter; subst tk st. apply left_loop_later.
        eapply IH; eauto.
Qed.

(** ** Subjobs *)

(** A request waiting in [get()] on an empty pool stays there. *)
Lemma handler_blocks s h b sj cmds o :
  threads (proc s) !! h
  = Some (mkThread (StartWorkingOnSubjob b sj cmds) Running) ->
  queue (_idle_executors (self (proc s))) = [] ->
  step (StepThread h o) s = s.
Proof.
  intros Hh Hq. simpl. unfold step_thread. rewrite Hh. simpl.
  unfold mbind, Py_bind. rewrite resume_unfold. unfold Queue_get.
  rewrite Hq. reflexivity.
Qed.

(** A request waiting in [get()] takes the head of a pool that is not
    empty, starts the subjob thread with it and replies with its id. *)
Lemma handler_acquires s h b sj cmds o e rest :
  threads (proc s) !! h
  = Some (mkThread (StartWorkingOnSubjob b sj cmds) Running) ->
  queue (_idle_executors (self (proc s))) = e :: rest ->
  let s' := step (StepThread h o) s in
  threads (proc s') !! h
  = Some (mkThread (StartWorkingOnSubjob b sj cmds) Finished)
  /\ threads (proc s') !! length (threads (proc s))
     = Some (mkThread (ExecuteSubjob b sj e cmds SjExecute) Running)
  /\ queue (_idle_executors (self (proc s'))) = rest
  /\ log_of (Some h) (trace s')
     = log_of (Some h) (trace s)
       ++ [QueueGet e;
           ThreadStart (length (threads (proc s)))
             (ExecuteSubjob b sj e cmds SjExecute);
           Reply (SubjobExecutor.id e)].
Proof.
  intros Hh Hq. pose proof (lookup_lt_Some _ _ _ Hh) as Hlt.
  simpl. unfold step_thread. rewrite Hh. simpl.
  unfold mbind, Py_bind. rewrite resume_unfold. unfold Queue_get.
  rewrite Hq. simpl. split; [|split; [|split]].
  - apply list_lookup_insert_eq. rewrite length_app. lia.
  - rewrite list_lookup_insert_ne by lia.
    rewrite lookup_app_r by lia. rewrite Nat.sub_diag. reflexivity.
  - reflexivity.
  - exact (log_of_app_tagged (Some h) _ [_; _; _]).
Qed.

(** One segment of a running thread that does not block. *)
Lemma step_thread_running s c tk o r p' evs :
  threads (proc s) !! c = Some (mkThread tk Running) ->
  task_step tk o (proc s) = (r, p', evs) ->
  r <> Blocks ->
  step (StepThread c o) s
  = mkSystem (mkProcess (self p') (<[c := after tk r]> (threads p')))
      (trace s ++ tagged (Some c) evs).
Proof.
  intros Hc Hstep Hr. simpl. unfold step_thread. rewrite Hc, Hstep.
  destruct r as [[tk'|]|e|]; try reflexivity. congruence.
Qed.

(** A subjob thread of a connected worker whose calls return, and whose
    [put] finds room, runs to its end in four segments: analytics start,
    [execute_subjob], analytics finish, [open], the [put] of its executor,
    and then the upload. *)
Lemma subjob_runs_to_completion s c b sj e cmds api :
  threads (proc s) !! c
  = Some (mkThread (ExecuteSubjob b sj e cmds SjExecute) Running) ->
  _manager_api (self (proc s)) = Some api ->
  full (_idle_executors (self (proc s))) = false ->
  let s' := run [StepThread c Returned; StepThread c Returned;
                 StepThread c Returned; StepThread c Returned] s in
  threads (proc s') !! c
  = Some (mkThread (ExecuteSubjob b sj e cmds (SjUpload api)) Finished)
  /\ queue (_idle_executors (self (proc s')))
     = queue (_idle_executors (self (proc s))) ++ [e]
  /\ log_of (Some c) (trace s')
     = log_of (Some c) (trace s)
       ++ [AnalyticsRecord SUBJOB_EXECUTION_START b sj (SubjobExecutor.id e);
           ExecutorExecuteSubjob e b sj cmds
             (_base_executor_index (self (proc s))) Returned;
           AnalyticsRecord SUBJOB_EXECUTION_FINISH b sj (SubjobExecutor.id e);
           OpenResultsFile Returned;
           QueuePut e;
           PostResult api b sj (SubjobExecutor.id e) Returned].
Proof.
  intros Hc Hapi Hfull. pose proof (lookup_lt_Some _ _ _ Hc) as Hlt.
  destruct s as [[w ths] tr]. simpl in Hc, Hapi, Hfull, Hlt.
  unfold run. cbn [fold_left].
  set (th pc := mkThread (ExecuteSubjob b sj e cmds pc) Running).
  set (w' := set_idle_executors
               (mkQueue (maxsize (_idle_executors w))
                  (queue (_idle_executors w) ++ [e])) w).
  set (ev1 := [AnalyticsRecord SUBJOB_EXECUTION_START b sj (SubjobExecutor.id e);
               ExecutorExecuteSubjob e b sj cmds (_base_executor_index w)
                 Returned]).
  set (ev2 := [AnalyticsRecord SUBJOB_EXECUTION_FINISH b sj (SubjobExecutor.id e);
               OpenResultsFile Returned]).
  set (s0 := mkSystem (mkProcess w ths) tr).
  set (s1 := mkSystem (mkProcess w (<[c := th SjOpen]> ths))
               (tr ++ tagged (Some c) ev1)).
  set (s2 := mkSystem
               (mkProcess w (<[c := th (SjRelease api)]> (<[c := th SjOpen]> ths)))
               (trace s1 ++ tagged (Some c) ev2)).
  set (s3 := mkSystem
               (mkProcess w'
                  (<[c := th (SjUpload api)]>
                     (<[c := th (SjRelease api)]> (<[c := th SjOpen]> ths))))
               (trace s2 ++ tagged (Some c) [QueuePut e])).
  assert (E1 : step (StepThread c Returned) s0 = s1).
  { apply (step_thread_running s0 c _ Returned
             (Value (Some (ExecuteSubjob b sj e cmds SjOpen))) (mkProcess w ths)
             ev1 Hc); [reflexivity|discriminate]. }
  assert (E2 : step (StepThread c Returned) s1 = s2).
  { apply (step_thread_running s1 c (ExecuteSubjob b sj e cmds SjOpen) Returned
             (Value (Some (ExecuteSubjob b sj e cmds (SjRelease api))))
             (proc s1) ev2).
    - apply list_lookup_insert_eq. exact Hlt.
    - simpl. unfold execute_subjob_step. py_unfold. simpl. rewrite Hapi.
      reflexivity.
    - discriminate. }
  assert (E3 : step (StepThread c Returned) s2 = s3).
  { apply (step_thread_running s2 c
             (ExecuteSubjob b sj e cmds (SjRelease api)) Returned
             (Value (Some (ExecuteSubjob b sj e cmds (SjUpload api))))
             (mkProcess w' (threads (proc s2))) [QueuePut e]).
    - apply list_lookup_insert_eq. rewrite length_insert. exact Hlt.
    - simpl. unfold execute_subjob_step, idle_put, Queue_put. py_unfold.
      simpl. rewrite Hfull. reflexivity.
    - discriminate. }
  rewrite E1, E2, E3.
  rewrite (step_thread_running s3 c
             (ExecuteSubjob b sj e cmds (SjUpload api)) Returned (Value None)
             (proc s3) [PostResult api b sj (SubjobExecutor.id e) Returned]);
    [|apply list_lookup_insert_eq; rewrite !length_insert; exact Hlt
     |reflexivity|discriminate].
  simpl. split; [|split].
  - apply list_lookup_insert_eq. rewrite !length_insert. exact Hlt.
  - reflexivity.
  - rewrite <- !app_assoc.
    exact (log_of_app_tagged (Some c) _ [_; _; _; _; _; _]).
Qed.

(** The subjob thread started by a request that has returned. *)
Lemma handler_thread_link s h b sj cmds :
  invariant s ->
  threads (proc s) !! h
  = Some (mkThread (StartWorkingOnSubjob b sj cmds) Finished) ->
  exists e c pc st',
    log_of (Some h) (trace s)
    = [QueueGet e; ThreadStart c (ExecuteSubjob b sj e cmds SjExecute);
       Reply (SubjobExecutor.id e)]
    /\ threads (proc s) !! c
       = Some (mkThread (ExecuteSubjob b sj e cmds pc) st')
    /\ subjob_inv b sj e pc st' (log_of (Some c) (trace s)).
Proof.
  intros Hinv Hh. pose proof (inv_logs s Hinv _ _ Hh) as Hlog.
  unfold thread_inv in Hlog. simpl in Hlog. destruct Hlog as (e & c & Hlog).
  assert (Hin : In (Some h, ThreadStart c (ExecuteSubjob b sj e cmds SjExecute))
                  (trace s)).
  { apply in_log_of. rewrite Hlog. right. left. reflexivity. }
  destruct (inv_starts s Hinv _ _ _ Hin) as ([tk st'] & Hc & Hor).
  simpl in Hor.
  destruct tk as [? ? ? ?|?|? ? ?|b' sj' e' cmds' pc]; try discriminate.
  inversion Hor; subst b' sj' e' cmds'.
  exists e, c, pc, st'. split; [exact Hlog|]. split; [exact Hc|].
  exact (inv_logs s Hinv _ _ Hc).
Qed.

(** The pool operations and upload of a subjob thread, whatever its
    state. *)
Lemma subjob_pool_inv_cases b sj e pc st log :
  subjob_pool_inv b sj e pc st log ->
  (pool_and_upload log = []
   \/ pool_and_upload log = [QueuePut e]
   \/ exists api o,
        pool_and_upload log
        = [QueuePut e; PostResult api b sj (SubjobExecutor.id e) o])
  /\ (st = Finished ->
      exists api,
        pc = SjUpload api
        /\ pool_and_upload log
           = [QueuePut e; PostResult api b sj (SubjobExecutor.id e) Returned]).
Proof.
  intros Hinv. destruct pc as [| |api|api], st as [| |ex]; simpl in Hinv;
    try contradiction; (split; [|try discriminate]); eauto 6.
Qed.

(** ** Segments and the methods they cut *)

(** The first two segments of a teardown thread, run back to back, are
    [_do_build_teardown_and_reset()] without a timeout. *)
Lemma teardown_segments_compose o p :
  _do_build_teardown_and_reset None o p =
  match async_teardown_build_step TdEnter o p with
  | (Value (Some (TdInTeardownBuild pt timeout)), p1, ev1) =>
      match async_teardown_build_step (TdInTeardownBuild pt timeout) o p1 with
      | (Value _, p2, ev2) => (Value tt, p2, ev1 ++ ev2)
      | (Exception e, p2, ev2) => (Exception e, p2, ev1 ++ ev2)
      | (Blocks, p2, ev2) => (Blocks, p2, ev1 ++ ev2)
      end
  | (Value _, p1, ev1) => (Value tt, p1, ev1)
  | (Exception e, p1, ev1) => (Exception e, p1, ev1)
  | (Blocks, p1, ev1) => (Blocks, p1, ev1)
  end.
Proof.
  rewrite do_build_teardown_and_reset_unfold. simpl.
  unfold mbind, Py_bind. rewrite kill_all_unfold, teardown_gate_unfold.
  destruct (_build_teardown_coin (self p)) as [coin|]; simpl.
  - destruct (if is_spent coin then None else _project_type (self p))
      as [pt|]; simpl.
    + rewrite teardown_finish_unfold. rewrite app_nil_r.
      destruct o; reflexivity.
    + rewrite app_nil_r. reflexivity.
  - rewrite app_nil_r. reflexivity.
Qed.

(** The last two segments of a teardown thread, run back to back, are
    [_send_manager_idle_notification()]. *)
Lemma idle_notification_segments_compose probe put p :
  _send_manager_idle_notification probe put p =
  match async_teardown_build_step TdProbe probe p with
  | (Value (Some pc), p1, ev1) =>
      match async_teardown_build_step pc put p1 with
      | (Value _, p2, ev2) => (Value tt, p2, ev1 ++ ev2)
      | (Exception e, p2, ev2) => (Exception e, p2, ev1 ++ ev2)
      | (Blocks, p2, ev2) => (Blocks, p2, ev1 ++ ev2)
      end
  | (Value None, p1, ev1) => (Value tt, p1, ev1 ++ [])
  | (Exception e, p1, ev1) => (Exception e, p1, ev1)
  | (Blocks, p1, ev1) => (Blocks, p1, ev1)
  end.
Proof.
  unfold _send_manager_idle_notification. simpl.
  unfold _is_manager_responsive, _notify_manager_of_state_change.
  py_unfold. simpl.
  destruct (_manager_api (self p)) as [api|] eqn:Hapi; simpl; [|reflexivity].
  destruct probe as [|e]; simpl.
  - unfold _notify_manager_of_state_change. py_unfold. simpl.
    rewrite ?Hapi. destruct put; reflexivity.
  - destruct (is_transport_error e); reflexivity.
Qed.

(** ** Executors are conserved *)

Lemma conserves_ret {A : Type} (a : A) : conserves (mret a).
Proof. intros p. split; reflexivity. Qed.

Lemma conserves_bind {A B : Type} (m : Py A) (k : A -> Py B) :
  conserves m -> (forall a, conserves (k a)) -> conserves (m ≫= k).
Proof.
  intros Hm Hk p. unfold mbind, Py_bind. destruct (Hm p) as [Hq Hh].
  destruct (m p) as [[[a| |] p1] ev1]; simpl in *; auto.
  destruct (Hk a p1) as [Hq' Hh']. destruct (k a p1) as [[r p2] ev2].
  simpl in *. split; congruence.
Qed.

Lemma conserves_fmap {A B : Type} (g : A -> B) (m : Py A) :
  conserves m -> conserves (g <$> m).
Proof.
  intros Hm p. unfold fmap, Py_fmap. specialize (Hm p).
  destruct (m p) as [[[a| |] p1] ev1]; exact Hm.
Qed.

Lemma conserves_get_self : conserves get_self.
Proof. intros p. split; reflexivity. Qed.

Lemma conserves_emit ev : conserves (emit ev).
Proof. intros p. split; reflexivity. Qed.

Lemma conserves_raise {A : Type} e : conserves (raise (A := A) e).
Proof. intros p. split; reflexivity. Qed.

Lemma conserves_answer o : conserves (answer o).
Proof. intros p. destruct o; split; reflexivity. Qed.

Lemma conserves_update g :
  (forall w, _idle_executors (g w) = _idle_executors w) ->
  conserves (update g).
Proof. intros Hg p. split; [apply Hg|reflexivity]. Qed.

Lemma held_app ths1 ths2 : held (ths1 ++ ths2) = held ths1 ++ held ths2.
Proof. unfold held. apply omap_app. Qed.

Lemma conserves_thread_start t :
  holds (mkThread t Running) = None -> conserves (thread_start t).
Proof.
  intros Ht p. split; [reflexivity|]. simpl. rewrite held_app. simpl.
  unfold held at 2. simpl. rewrite Ht. apply app_nil_r.
Qed.

Lemma conserves_park t :
  holds (mkThread t Running) = None -> conserves (park t).
Proof.
  intros Ht p. split; [reflexivity|]. simpl. rewrite held_app. simpl.
  unfold held at 2. simpl. rewrite Ht. apply app_nil_r.
Qed.

Lemma conserves_for_each {A : Type} (l : list A) (g : A -> Py unit) :
  (forall x, conserves (g x)) -> conserves (for_each l g).
Proof.
  intros Hg. induction l as [|x l IH]; simpl.
  - apply conserves_ret.
  - apply conserves_bind; auto.
Qed.

Lemma conserves_try_except {A : Type} (m : Py A) handler :
  conserves m ->
  (forall e h, handler e = Some h -> conserves h) ->
  conserves (try_except m handler).
Proof.
  intros Hm Hh p. unfold try_except. destruct (Hm p) as [Hq Hheld].
  destruct (m p) as [[[a|e|] p1] ev1]; simpl in *; auto.
  destruct (handler e) as [h|] eqn:He; simpl; auto.
  destruct (Hh e h He p1) as [Hq' Hheld']. destruct (h p1) as [[r p2] ev2].
  simpl in *. split; congruence.
Qed.

(** One rule at a time, by the shape of the body. *)
Ltac conserves_rule :=
  lazymatch goal with
  | |- conserves (mbind _ _) => apply conserves_bind; [|intros ?]
  | |- conserves (mret _) => apply conserves_ret
  | |- conserves (fmap _ _) => apply conserves_fmap
  | |- conserves get_self => apply conserves_get_self
  | |- conserves (emit _) => apply conserves_emit
  | |- conserves (raise _) => apply conserves_raise
  | |- conserves (answer _) => apply conserves_answer
  | |- conserves (thread_start _) => apply conserves_thread_start; reflexivity
  | |- conserves (park _) => apply conserves_park; reflexivity
  | |- conserves (for_each _ _) => apply conserves_for_each; intros ?
  | |- conserves (update _) => apply conserves_update; intros ?; reflexivity
  | |- conserves (match ?x with _ => _ end) => destruct x
  end.

Lemma conserves_notify st o : conserves (_notify_manager_of_state_change st o).
Proof. unfold _notify_manager_of_state_change. repeat conserves_rule. Qed.

Lemma conserves_is_manager_responsive o :
  conserves (_is_manager_responsive o).
Proof. unfold _is_manager_responsive. repeat conserves_rule. Qed.

(** Every method called from outside conserves the executors. *)
Lemma conserves_call a s :
  (forall tid o, a <> StepThread tid o) ->
  exists m, conserves m /\ step a s = call m s.
Proof.
  intros Hnot. destruct a; simpl; try (exfalso; eapply Hnot; reflexivity);
    eexists; (split; [|reflexivity]).
  - unfold connect_to_manager. repeat conserves_rule.
  - unfold setup_build. repeat conserves_rule.
  - unfold start_working_on_subjob. repeat conserves_rule.
  - unfold teardown_build. repeat conserves_rule.
  - unfold _run_heartbeat, _send_heartbeat_to_manager, kill.
    apply conserves_bind; [|intros ?; repeat conserves_rule].
    apply conserves_try_except; [repeat conserves_rule|].
    intros e h He. destruct (is_transport_error e); [|discriminate].
    inversion He; subst. repeat conserves_rule.
  - unfold _disconnect_from_manager.
    repeat first [apply conserves_notify
                 | apply conserves_is_manager_responsive | conserves_rule].
  - unfold _do_build_teardown_and_reset, kill_all, teardown_gate,
      teardown_finish, spend.
    repeat conserves_rule.
Qed.

(** The segments that neither take nor put back an executor. *)
Lemma conserves_task_step t o :
  (forall b sj cmds, t <> StartWorkingOnSubjob b sj cmds) ->
  (forall b sj e cmds api, t <> ExecuteSubjob b sj e cmds (SjRelease api)) ->
  conserves (task_step t o).
Proof.
  intros Hh Hr.
  destruct t as [executors params idx pc|pc|b sj cmds|b sj e cmds pc]; simpl.
  - apply conserves_fmap. unfold async_setup_build_step, after_setup_call.
    repeat first [apply conserves_notify | conserves_rule].
  - apply conserves_fmap.
    unfold async_teardown_build_step, kill_all, teardown_gate,
      teardown_finish, spend.
    repeat first [apply conserves_notify
                 | apply conserves_is_manager_responsive | conserves_rule].
  - exfalso. eapply Hh. reflexivity.
  - apply conserves_fmap. unfold execute_subjob_step.
    destruct pc as [| |api|api]; try (repeat conserves_rule; fail).
    exfalso. eapply Hr. reflexivity.
Qed.

Lemma held_cons th ths : held (th :: ths) = option_list (holds th) ++ held ths.
Proof. unfold held. simpl. destruct (holds th); reflexivity. Qed.

Lemma held_split ths i th :
  ths !! i = Some th ->
  held ths = held (take i ths) ++ option_list (holds th) ++ held (drop (S i) ths).
Proof.
  intros Hi. rewrite <- (take_drop_middle ths i th Hi) at 1.
  rewrite held_app, held_cons. reflexivity.
Qed.

Lemma held_insert ths i th th' :
  ths !! i = Some th ->
  held (<[i := th']> ths)
  = held (take i ths) ++ option_list (holds th') ++ held (drop (S i) ths).
Proof.
  intros Hi. rewrite insert_take_drop by (eapply lookup_lt_Some; exact Hi).
  rewrite held_app, held_cons. reflexivity.
Qed.

Lemma held_insert_same ths i th th' :
  ths !! i = Some th -> holds th' = holds th ->
  held (<[i := th']> ths) = held ths.
Proof.
  intros Hi Hh. rewrite (held_insert _ _ _ _ Hi), (held_split _ _ _ Hi), Hh.
  reflexivity.
Qed.

(** A segment that is neither the request's [get()] nor the [put] leaves
    the thread holding what it held. *)
Lemma holds_after t o p :
  (forall b sj cmds, t <> StartWorkingOnSubjob b sj cmds) ->
  (forall b sj e cmds api, t <> ExecuteSubjob b sj e cmds (SjRelease api)) ->
  holds (after t (fst (fst (task_step t o p)))) = holds (mkThread t Running).
Proof.
  intros Hh Hr.
  destruct (task_step t o p) as [[r p'] evs] eqn:Hstep. simpl.
  destruct r as [[t'|]|e|]; try reflexivity. simpl.
  destruct t as [executors params idx pc|pc|b sj cmds|b sj e cmds pc];
    simpl in Hstep.
  - apply fmap_value in Hstep. destruct Hstep as ([pc'|] & _ & Heq);
      inversion Heq; reflexivity.
  - apply fmap_value in Hstep. destruct Hstep as ([pc'|] & _ & Heq);
      inversion Heq; reflexivity.
  - exfalso. eapply Hh. reflexivity.
  - apply fmap_value in Hstep. destruct Hstep as ([pc'|] & Hstep & Heq);
      inversion Heq; subst t'. clear Heq. unfold holds. simpl.
    unfold execute_subjob_step in Hstep. py_unfold.
    destruct pc as [| |api|api]; simpl in Hstep.
    + destruct o; inversion Hstep; reflexivity.
    + destruct (_manager_api (self p)); [destruct o|]; inversion Hstep;
        reflexivity.
    + exfalso. eapply Hr. reflexivity.
    + destruct o; inversion Hstep.
Qed.

Lemma pool_inv_boot w : pool_inv w (boot w).
Proof.
  split; [reflexivity|]. unfold pool_content. simpl. rewrite app_nil_r.
  reflexivity.
Qed.

Lemma pool_inv_step w0 a s : pool_inv w0 s -> pool_inv w0 (step a s).
Proof.
  intros [Hmax Hperm].
  destruct a as [url o0| | | | | | |tid o];
    try (edestruct conserves_call as (m & Hm & ->); [discriminate|];
         unfold call; destruct (Hm (proc s)) as [Hq Hh];
         destruct (m (proc s)) as [[[x|e|] p'] evs]; simpl in Hq, Hh;
         try (split; assumption);
         (split; [simpl; rewrite Hq; exact Hmax|];
          unfold pool_content in *; simpl; rewrite Hq, Hh; exact Hperm)).
  simpl. unfold step_thread.
  destruct (threads (proc s) !! tid) as [[t [| |e]]|] eqn:Htid;
    try (split; assumption).
  destruct t as [executors params idx pc|pc|b sj cmds|b sj e cmds pc].
  1, 2: shelve.
  - (* the request takes the head of the queue *)
    simpl. unfold mbind, Py_bind. rewrite resume_unfold. unfold Queue_get.
    destruct (queue (_idle_executors (self (proc s)))) as [|e rest] eqn:Hq;
      [split; assumption|].
    simpl. split; [exact Hmax|]. unfold pool_content in *. simpl.
    rewrite (held_insert_same _ tid
               (mkThread (StartWorkingOnSubjob b sj cmds) Running));
      [|apply lookup_app_l_Some; exact Htid|reflexivity].
    rewrite held_app, held_cons. simpl. rewrite Hq in Hperm.
    rewrite <- Hperm. solve_Permutation.
  - destruct pc as [| |api|api].
    1, 2, 4: shelve.
    (* the subjob thread puts its executor back *)
    simpl. unfold fmap, Py_fmap, execute_subjob_step, idle_put, Queue_put.
    py_unfold.
    destruct (full (_idle_executors (self (proc s)))); simpl;
      [split; assumption|].
    split; [exact Hmax|]. unfold pool_content in *. simpl.
    rewrite (held_insert _ _ _ _ Htid). rewrite (held_split _ _ _ Htid) in Hperm.
    rewrite <- Hperm. unfold holds. simpl. solve_Permutation.
  Unshelve.
  all: match goal with
       | |- pool_inv _ (match task_step ?t ?o ?p with _ => _ end) =>
           pose proof (conserves_task_step t o ltac:(discriminate)
                         ltac:(discriminate) p) as [Hq Hheld];
           pose proof (holds_after t o p ltac:(discriminate)
                         ltac:(discriminate)) as Hh;
           destruct (spawns_task_step t o p) as (new & Hth & _);
           destruct (task_step t o p) as [[r p'] evs];
           simpl in Hq, Hheld, Hh, Hth;
           assert (Hlook : threads p' !! tid = Some (mkThread t Running))
             by (rewrite Hth; apply lookup_app_l_Some; exact Htid);
           assert (Hgoal : pool_inv w0
                     (mkSystem
                        (mkProcess (self p') (<[tid := after t r]> (threads p')))
                        (trace s ++ tagged (Some tid) evs)));
           [split; [simpl; rewrite Hq; exact Hmax|];
            unfold pool_content in *; simpl;
            rewrite (held_insert_same _ tid _ _ Hlook Hh);
            rewrite Hq, Hheld; exact Hperm
           |destruct r as [[t'|]|e'|]; try exact Hgoal; split; assumption]
       end.
Qed.

Lemma pool_inv_run w0 schedule s :
  pool_inv w0 s -> pool_inv w0 (run schedule s).
Proof.
  revert s. induction schedule as [|a schedule IH]; intros s Hinv;
    [exact Hinv|].
  simpl. apply IH, pool_inv_step, Hinv.
Qed.

(** The queue built by [__init__] is bounded by the number of executors
    it holds, or is unbounded. *)
Lemma init_pool port host n threshold interval w :
  ClusterWorker_init port host n threshold interval = Some w ->
  qsize (_idle_executors w) <= maxsize (_idle_executors w)
  \/ maxsize (_idle_executors w) <= 0.
Proof.
  rewrite init_unfold. intros Hw. inversion Hw; subst. simpl.
  unfold qsize, range. simpl. rewrite length_map, length_seq. lia.
Qed.

(** I1 at work: when the pool of a worker built by [__init__] is full, no
    thread holds an executor. *)
Lemma full_pool_nobody_holds port host n threshold interval w schedule :
  ClusterWorker_init port host n threshold interval = Some w ->
  full (_idle_executors (self (proc (run schedule (boot w))))) = true ->
  held (threads (proc (run schedule (boot w)))) = [].
Proof.
  intros Hw Hfull.
  destruct (pool_inv_run w schedule _ (pool_inv_boot w)) as [Hmax Hperm].
  apply Permutation_length in Hperm. unfold pool_content in Hperm.
  rewrite length_app in Hperm.
  unfold full, qsize in Hfull. rewrite Hmax in Hfull.
  destruct (init_pool _ _ _ _ _ _ Hw) as [Hle|Hle]; unfold qsize in Hle.
  - apply length_zero_iff_nil. lia.
  - lia.
Qed.

Lemma holder_is_held ths c th e :
  ths !! c = Some th -> holds th = Some e -> held ths <> [].
Proof.
  intros Hc Hh. rewrite (held_split _ _ _ Hc), Hh. simpl.
  intros Heq. apply app_eq_nil in Heq. destruct Heq as [_ Heq].
  discriminate.
Qed.

(** While a thread holds an executor of a worker built by [__init__], the
    pool is not full: its [put] will not block. *)
Lemma holder_has_room port host n threshold interval w schedule c th e :
  ClusterWorker_init port host n threshold interval = Some w ->
  threads (proc (run schedule (boot w))) !! c = Some th ->
  holds th = Some e ->
  full (_idle_executors (self (proc (run schedule (boot w))))) = false.
Proof.
  intros Hw Hc Hh.
  destruct (full (_idle_executors (self (proc (run schedule (boot w))))))
    eqn:Hfull; [|reflexivity].
  exfalso. eapply holder_is_held; [exact Hc|exact Hh|].
  eapply full_pool_nobody_holds; eassumption.
Qed.

(** On a full pool every subjob thread of the table has put its executor
    back. *)
Lemma full_pool_all_released port host n threshold interval w schedule :
  ClusterWorker_init port host n threshold interval = Some w ->
  full (_idle_executors (self (proc (run schedule (boot w))))) = true ->
  forall c b sj e cmds pc st,
    threads (proc (run schedule (boot w))) !! c
    = Some (mkThread (ExecuteSubjob b sj e cmds pc) st) ->
    exists api,
      pc = SjUpload api
      /\ In (QueuePut e) (log_of (Some c) (trace (run schedule (boot w)))).
Proof.
  intros Hw Hfull c b sj e cmds pc st Hc.
  pose proof (full_pool_nobody_holds _ _ _ _ _ _ schedule Hw Hfull) as Hheld.
  destruct pc as [| |api|api];
    try (exfalso; eapply holder_is_held; [exact Hc|reflexivity|exact Hheld]).
  exists api. split; [reflexivity|].
  pose proof (inv_logs _ (invariant_reachable schedule w) _ _ Hc) as [_ Hpool].
  simpl in Hpool.
  assert (Hin : In (QueuePut e)
                  (pool_and_upload
                     (log_of (Some c) (trace (run schedule (boot w)))))).
  { destruct st; rewrite Hpool; left; reflexivity. }
  unfold pool_and_upload in Hin.
  apply list_elem_of_In, list_elem_of_filter in Hin.
  apply list_elem_of_In. apply Hin.
Qed.

(** ** The two ordering properties *)

(** C6: an IDLE notification in the log of a thread is the last event of a
    teardown thread; before it, in order, [_do_build_teardown_and_reset]
    returned (the kills, then [project_type.teardown_build] if the gate
    let it through), the pool was polled with a sleep of 1 second after
    every poll that found it not full, a poll found it full, and the
    responsiveness probe returned; and there is a moment of the schedule,
    before the notification, at which the idle pool was full and the thread
    had just left the polling loop; at that moment, on a worker built by
    the constructor, every subjob thread had put its executor back. *)
Theorem idle_notification_follows_teardown_and_full_pool :
  forall w schedule t api wid o,
    In (Some t, PutState api wid IDLE o) (trace (run schedule (boot w))) ->
    (exists st l0 n api',
       threads (proc (run schedule (boot w))) !! t
       = Some (mkThread (AsyncTeardownBuild TdNotify) st)
       /\ teardown_returned l0
       /\ log_of (Some t) (trace (run schedule (boot w)))
          = l0 ++ polls n
            ++ [QueueFull true; GetManager api' Returned;
                PutState api wid IDLE o])
    /\ exists schedule1 schedule2,
         schedule = schedule1 ++ schedule2
         /\ full (_idle_executors (self (proc (run schedule1 (boot w)))))
            = true
         /\ threads (proc (run schedule1 (boot w))) !! t
            = Some (mkThread (AsyncTeardownBuild TdProbe) Running)
         /\ (exists l0 n,
               teardown_returned l0
               /\ log_of (Some t) (trace (run schedule1 (boot w)))
                  = l0 ++ polls n ++ [QueueFull true])
         /\ (forall port host num_executors threshold interval,
               ClusterWorker_init port host num_executors threshold interval
               = Some w ->
               forall c b sj e cmds pc st',
                 threads (proc (run schedule1 (boot w))) !! c
                 = Some (mkThread (ExecuteSubjob b sj e cmds pc) st') ->
                 exists api',
                   pc = SjUpload api'
                   /\ In (QueuePut e)
                        (log_of (Some c)
                           (trace (run schedule1 (boot w))))).
Proof.
  intros w schedule t api wid o Hin.
  pose proof (invariant_reachable schedule w) as Hinv.
  pose proof (inv_tags _ Hinv _ _ Hin) as Hlt.
  destruct (lookup_lt_is_Some_2 _ _ Hlt) as [th Hth].
  pose proof (inv_logs _ Hinv _ _ Hth) as Hlog.
  apply in_log_of in Hin.
  destruct (idle_sender _ _ _ _ _ Hlog Hin)
    as (st & -> & l1 & api' & (l0 & n & Hl0 & ->) & Hshape).
  split.
  - exists st, l0, n, api'. split; [exact Hth|]. split; [exact Hl0|].
    rewrite Hshape, <- !app_assoc. reflexivity.
  - destruct (teardown_past_loop w schedule t TdNotify st Hth)
      as (s1 & s2 & Hs & Hfull & Ht1 & Hl1); [auto|].
    exists s1, s2. split; [exact Hs|]. split; [exact Hfull|].
    split; [exact Ht1|]. split; [exact Hl1|].
    intros port host num_executors threshold interval Hw.
    exact (full_pool_all_released _ _ _ _ _ _ s1 Hw Hfull).
Qed.

(** Witness of [idle_notification_follows_teardown_and_full_pool]: the
    two-executor worker registers, build 42 is set up, a subjob takes an
    executor, the teardown polls once while the subjob holds it, and sends
    IDLE after the subjob has put it back. *)
Lemma idle_notification_follows_teardown_and_full_pool_witness :
  ClusterWorker_init 43001 "host" 2 3 5 = Some new_worker
  /\ In (Some 3%nat,
         PutState (mkUrlBuilder "localhost:43000") (Some 7) IDLE Returned)
       (trace (run [CallConnectToManager None (PostReturned (Some 7));
                    CallSetupBuild 42 [] 0;
                    CallStartWorkingOnSubjob 42 3 []; StepThread 1 Returned;
                    CallTeardownBuild (Some 42);
                    StepThread 3 Returned; StepThread 3 Returned;
                    StepThread 3 Returned;
                    StepThread 2 Returned; StepThread 2 Returned;
                    StepThread 2 Returned;
                    StepThread 3 Returned; StepThread 3 Returned;
                    StepThread 3 Returned]
                 (boot new_worker)))
  /\ exists schedule1 schedule2,
       [CallConnectToManager None (PostReturned (Some 7));
        CallSetupBuild 42 [] 0;
        CallStartWorkingOnSubjob 42 3 []; StepThread 1 Returned;
        CallTeardownBuild (Some 42);
        StepThread 3 Returned; StepThread 3 Returned; StepThread 3 Returned;
        StepThread 2 Returned; StepThread 2 Returned; StepThread 2 Returned;
        StepThread 3 Returned; StepThread 3 Returned; StepThread 3 Returned]
       = schedule1 ++ schedule2
       /\ full (_idle_executors
                  (self (proc (run schedule1 (boot new_worker))))) = true
       /\ threads (proc (run schedule1 (boot new_worker))) !! 3%nat
          = Some (mkThread (AsyncTeardownBuild TdProbe) Running)
       /\ forall c b sj e cmds pc st',
            threads (proc (run schedule1 (boot new_worker))) !! c
            = Some (mkThread (ExecuteSubjob b sj e cmds pc) st') ->
            exists api',
              pc = SjUpload api'
              /\ In (QueuePut e)
                   (log_of (Some c)
                      (trace (run schedule1 (boot new_worker)))).
Proof.
  assert (Hw : ClusterWorker_init 43001 "host" 2 3 5 = Some new_worker)
    by (vm_compute; reflexivity).
  split; [exact Hw|].
  assert (Hin :
    In (Some 3%nat,
        PutState (mkUrlBuilder "localhost:43000") (Some 7) IDLE Returned)
      (trace (run [CallConnectToManager None (PostReturned (Some 7));
                   CallSetupBuild 42 [] 0;
                   CallStartWorkingOnSubjob 42 3 []; StepThread 1 Returned;
                   CallTeardownBuild (Some 42);
                   StepThread 3 Returned; StepThread 3 Returned;
                   StepThread 3 Returned;
                   StepThread 2 Returned; StepThread 2 Returned;
                   StepThread 2 Returned;
                   StepThread 3 Returned; StepThread 3 Returned;
                   StepThread 3 Returned]
                (boot new_worker)))).
  { vm_compute. do 30 (try (left; reflexivity); right). }
  split; [exact Hin|].
  destruct (idle_notification_follows_teardown_and_full_pool _ _ _ _ _ _ Hin)
    as [_ (s1 & s2 & Hs & Hfull & Ht & _ & Hreleased)].
  exists s1, s2. split; [exact Hs|]. split; [exact Hfull|].
  split; [exact Ht|]. exact (Hreleased 43001 "host"%string 2 3 5 Hw).
Defined.

(** C4: for an accepted [start_working_on_subjob] call.  While it waits in
    [get()] it has taken nothing; it stays there on an empty pool and, on a
    pool that is not empty, takes exactly the head executor, starts the
    subjob thread with it and returns that executor's id.  Once it has
    returned, its log is that one [get()], the thread start and the reply
    [{executor_id: id}] of the executor taken; the subjob thread it started
    holds that same executor, never takes another, puts back that executor
    and no other, at most once and before the upload, and has put it back
    exactly once, followed by the upload, when it has run to its end; and
    from its start, on a connected worker built by the constructor whose
    [execute_subjob] and [open] return, it does run to its end:
    [put(executor)], which finds room, and then the upload. *)
Theorem start_working_on_subjob_pairs_get_and_put :
  forall w schedule h b sj cmds st,
    threads (proc (run schedule (boot w))) !! h
    = Some (mkThread (StartWorkingOnSubjob b sj cmds) st) ->
    let s := run schedule (boot w) in
    match st with
    | Running =>
        log_of (Some h) (trace s) = []
        /\ (queue (_idle_executors (self (proc s))) = [] ->
            forall o, step (StepThread h o) s = s)
        /\ (forall e rest o,
              queue (_idle_executors (self (proc s))) = e :: rest ->
              let s' := step (StepThread h o) s in
              threads (proc s') !! h
              = Some (mkThread (StartWorkingOnSubjob b sj cmds) Finished)
              /\ queue (_idle_executors (self (proc s'))) = rest
              /\ log_of (Some h) (trace s')
                 = [QueueGet e;
                    ThreadStart (length (threads (proc s)))
                      (ExecuteSubjob b sj e cmds SjExecute);
                    Reply (SubjobExecutor.id e)])
    | Finished =>
        exists e c pc st',
          log_of (Some h) (trace s)
          = [QueueGet e; ThreadStart c (ExecuteSubjob b sj e cmds SjExecute);
             Reply (SubjobExecutor.id e)]
          /\ threads (proc s) !! c
             = Some (mkThread (ExecuteSubjob b sj e cmds pc) st')
          /\ (pool_and_upload (log_of (Some c) (trace s)) = []
              \/ pool_and_upload (log_of (Some c) (trace s)) = [QueuePut e]
              \/ exists api o,
                   pool_and_upload (log_of (Some c) (trace s))
                   = [QueuePut e;
                      PostResult api b sj (SubjobExecutor.id e) o])
          /\ (st' = Finished ->
              exists api,
                pool_and_upload (log_of (Some c) (trace s))
                = [QueuePut e;
                   PostResult api b sj (SubjobExecutor.id e) Returned])
          /\ (pc = SjExecute -> st' = Running ->
              forall api port host num_executors threshold interval,
                ClusterWorker_init port host num_executors threshold interval
                = Some w ->
                _manager_api (self (proc s)) = Some api ->
                let s' := run [StepThread c Returned; StepThread c Returned;
                               StepThread c Returned; StepThread c Returned]
                            s in
                threads (proc s') !! c
                = Some (mkThread (ExecuteSubjob b sj e cmds (SjUpload api))
                          Finished)
                /\ queue (_idle_executors (self (proc s')))
                   = queue (_idle_executors (self (proc s))) ++ [e]
                /\ pool_and_upload (log_of (Some c) (trace s'))
                   = [QueuePut e;
                      PostResult api b sj (SubjobExecutor.id e) Returned])
    | Crashed _ => False
    end.
Proof.
  intros w schedule h b sj cmds st Hh s.
  pose proof (invariant_reachable schedule w) as Hinv. fold s in Hinv, Hh.
  destruct st as [| |ex].
  - pose proof (inv_logs s Hinv _ _ Hh) as Hlog.
    unfold thread_inv in Hlog. simpl in Hlog. split; [exact Hlog|]. split.
    + intros Hq o. eapply handler_blocks; eassumption.
    + intros e rest o Hq.
      destruct (handler_acquires s h b sj cmds o e rest Hh Hq)
        as (Hh' & _ & Hq' & Hlog').
      rewrite Hlog in Hlog'. auto.
  - destruct (handler_thread_link s h b sj cmds Hinv Hh)
      as (e & c & pc & st' & Hlog & Hc & _ & Hpool).
    destruct (subjob_pool_inv_cases _ _ _ _ _ _ Hpool) as [Hcases Hdone].
    exists e, c, pc, st'. split; [exact Hlog|]. split; [exact Hc|].
    split; [exact Hcases|]. split.
    + intros Hst. destruct (Hdone Hst) as (api & _ & Hpu). eauto.
    + intros -> -> api port host num_executors threshold interval Hw Hapi.
      assert (Hfull : full (_idle_executors (self (proc s))) = false).
      { eapply holder_has_room; [exact Hw|exact Hc|reflexivity]. }
      destruct (subjob_runs_to_completion s c b sj e cmds api Hc Hapi Hfull)
        as (Hc' & Hq' & Hlog').
      split; [exact Hc'|]. split; [exact Hq'|].
      rewrite Hlog', pool_and_upload_app. simpl in Hpool. rewrite Hpool.
      reflexivity.
  - exact (inv_logs s Hinv _ _ Hh).
Qed.

(** Witness of [start_working_on_subjob_pairs_get_and_put]: the
    two-executor worker registers, build 42 is set up, a subjob request is
    accepted, takes executor 0 and replies with its id; the subjob thread
    runs to its end, putting executor 0 back before the upload. *)
Lemma start_working_on_subjob_pairs_get_and_put_witness :
  threads (proc (run [CallConnectToManager None (PostReturned (Some 7));
                      CallSetupBuild 42 [] 0;
                      CallStartWorkingOnSubjob 42 3 []; StepThread 1 Returned]
                   (boot new_worker))) !! 1%nat
  = Some (mkThread (StartWorkingOnSubjob 42 3 []) Finished)
  /\ exists e c,
       log_of (Some 1%nat)
         (trace (run [CallConnectToManager None (PostReturned (Some 7));
                      CallSetupBuild 42 [] 0;
                      CallStartWorkingOnSubjob 42 3 []; StepThread 1 Returned]
                   (boot new_worker)))
       = [QueueGet e; ThreadStart c (ExecuteSubjob 42 3 e [] SjExecute);
          Reply (SubjobExecutor.id e)]
       /\ pool_and_upload
            (log_of (Some c)
               (trace (run [StepThread c Returned; StepThread c Returned;
                            StepThread c Returned; StepThread c Returned]
                         (run [CallConnectToManager None
                                 (PostReturned (Some 7));
                               CallSetupBuild 42 [] 0;
                               CallStartWorkingOnSubjob 42 3 [];
                               StepThread 1 Returned] (boot new_worker)))))
          = [QueuePut e;
             PostResult (mkUrlBuilder "localhost:43000") 42 3
               (SubjobExecutor.id e) Returned].
Proof.
  assert (Hh : threads (proc (run [CallConnectToManager None
                                     (PostReturned (Some 7));
                                   CallSetupBuild 42 [] 0;
                                   CallStartWorkingOnSubjob 42 3 [];
                                   StepThread 1 Returned]
                                (boot new_worker))) !! 1%nat
               = Some (mkThread (StartWorkingOnSubjob 42 3 []) Finished))
    by (vm_compute; reflexivity).
  split; [exact Hh|].
  destruct (start_working_on_subjob_pairs_get_and_put new_worker
              [CallConnectToManager None (PostReturned (Some 7));
               CallSetupBuild 42 [] 0;
               CallStartWorkingOnSubjob 42 3 []; StepThread 1 Returned]
              1%nat 42 3 [] Finished Hh)
    as (e & c & pc & st' & Hlog & Hc & _ & _ & Hrun).
  exists e, c. split; [exact Hlog|].
  assert (Hlog0 : log_of (Some 1%nat)
                    (trace (run [CallConnectToManager None
                                   (PostReturned (Some 7));
                                 CallSetupBuild 42 [] 0;
                                 CallStartWorkingOnSubjob 42 3 [];
                                 StepThread 1 Returned] (boot new_worker)))
                  = [QueueGet (SubjobExecutor.new 0);
                     ThreadStart 2
                       (ExecuteSubjob 42 3 (SubjobExecutor.new 0) [] SjExecute);
                     Reply 0])
    by (vm_compute; reflexivity).
  rewrite Hlog0 in Hlog. inversion Hlog; subst c e. clear Hlog.
  assert (Hc0 : threads (proc (run [CallConnectToManager None
                                      (PostReturned (Some 7));
                                    CallSetupBuild 42 [] 0;
                                    CallStartWorkingOnSubjob 42 3 [];
                                    StepThread 1 Returned]
                                 (boot new_worker))) !! 2%nat
                = Some (mkThread
                          (ExecuteSubjob 42 3 (SubjobExecutor.new 0) []
                             SjExecute) Running))
    by (vm_compute; reflexivity).
  rewrite Hc0 in Hc. inversion Hc; subst pc st'. clear Hc.
  assert (Hw : ClusterWorker_init 43001 "host" 2 3 5 = Some new_worker)
    by (vm_compute; reflexivity).
  assert (Hapi : _manager_api
                   (self (proc (run [CallConnectToManager None
                                       (PostReturned (Some 7));
                                     CallSetupBuild 42 [] 0;
                                     CallStartWorkingOnSubjob 42 3 [];
                                     StepThread 1 Returned]
                                  (boot new_worker))))
                 = Some (mkUrlBuilder "localhost:43000"))
    by (vm_compute; reflexivity).
  destruct (Hrun eq_refl eq_refl (mkUrlBuilder "localhost:43000")
              43001 "host"%string 2 3 5 Hw Hapi)
    as (_ & _ & Hpu).
  exact Hpu.
Defined.

(** * Further properties of the worker *)

(** ** The build-id check of [start_working_on_subjob] *)

(** X1: [start_working_on_subjob] accepts a subjob exactly when its build id
    is the current build id; a worker with no current build rejects every
    subjob.  A rejected call raises BadRequestError before it touches the
    pool: it takes no executor, starts no thread, changes no attribute and
    emits nothing, so that the schedule only records the exception.  An
    accepted call goes on to the blocking [get()] and has changed nothing
    else yet. *)
Theorem start_working_on_subjob_checks_build_id :
  forall b sj cmds p,
    (_current_build_id (self p) <> Some b ->
     start_working_on_subjob b sj cmds p = (Exception BadRequestError, p, []))
    /\ (_current_build_id (self p) = None ->
        start_working_on_subjob b sj cmds p
        = (Exception BadRequestError, p, []))
    /\ (_current_build_id (self p) = Some b ->
        start_working_on_subjob b sj cmds p
        = (Value tt,
           mkProcess (self p)
             (threads p ++ [mkThread (StartWorkingOnSubjob b sj cmds) Running]),
           [Parked (length (threads p))]))
    /\ (forall s,
          _current_build_id (self (proc s)) <> Some b ->
          step (CallStartWorkingOnSubjob b sj cmds) s
          = mkSystem (proc s) (trace s ++ [(None, Raise BadRequestError)])).
Proof.
  intros b sj cmds p.
  assert (Hrej : forall q,
             _current_build_id (self q) <> Some b ->
             start_working_on_subjob b sj cmds q
             = (Exception BadRequestError, q, [])).
  { intros q Hne. unfold start_working_on_subjob. py_unfold. simpl.
    rewrite bool_decide_eq_false_2 by congruence. reflexivity. }
  split; [apply Hrej|]. split; [|split].
  - intros Hnone. apply Hrej. congruence.
  - intros Hb. unfold start_working_on_subjob. py_unfold. simpl.
    rewrite bool_decide_eq_true_2 by congruence. reflexivity.
  - intros s Hne. simpl. unfold call. rewrite (Hrej _ Hne). reflexivity.
Qed.

(** ** Disconnecting *)

(** X2: [_disconnect_from_manager] marks the worker as not alive before it
    looks at the manager, and does so whatever happens next; it changes no
    other attribute and starts no thread.  It probes the manager once; when
    the probe returns it sends exactly one DISCONNECTED notification, under
    the current worker id, and an exception of that notification
    propagates; when the probe raises a connection or timeout error no
    notification is sent and the method returns normally; any other
    exception of the probe propagates.  On a worker that never connected it
    raises AttributeError after marking the worker. *)
Theorem disconnect_from_manager_marks_then_notifies :
  forall probe put p,
    let r := fst (fst (_disconnect_from_manager probe put p)) in
    let p' := snd (fst (_disconnect_from_manager probe put p)) in
    let evs := snd (_disconnect_from_manager probe put p) in
    p' = mkProcess (set_is_alive false (self p)) (threads p)
    /\ is_alive (self p') = false
    /\ match _manager_api (self p) with
       | None => r = Exception AttributeError /\ evs = []
       | Some api =>
           match probe with
           | Returned =>
               evs = [GetManager api Returned;
                      PutState api (_worker_id (self p)) DISCONNECTED put]
               /\ r = match put with
                      | Returned => Value tt
                      | Raised e => Exception e
                      end
           | Raised e =>
               evs = [GetManager api (Raised e)]
               /\ r = if is_transport_error e then Value tt else Exception e
           end
       end.
Proof.
  intros probe put p. simpl.
  unfold _disconnect_from_manager, _is_manager_responsive,
    _notify_manager_of_state_change.
  py_unfold. simpl.
  destruct (_manager_api (self p)) as [api|] eqn:Hapi; simpl; [|auto].
  destruct probe as [|e]; simpl.
  - rewrite Hapi. destruct put; simpl; auto.
  - destruct (is_transport_error e); simpl; auto.
Qed.

(** ** The heartbeat re-enters itself *)

(** X3: a heartbeat tick re-enters itself in the scheduler, with the
    configured interval as delay, exactly when it returns normally; a tick
    that called [kill] or let an exception through is the last one, whatever
    answers were still to come; on a worker that never connected the first
    tick raises AttributeError before any heartbeat is posted. *)
Theorem run_heartbeat_reenters_iff_it_returns :
  forall o ticks p,
    let r := fst (fst (_run_heartbeat o p)) in
    (forall delay,
       In (SchedulerEnter delay) (snd (_run_heartbeat o p))
       <-> r = Value tt /\ delay = _heartbeat_interval (self p))
    /\ (r <> Value tt -> heartbeat_loop (o :: ticks) p = _run_heartbeat o p)
    /\ (_manager_api (self p) = None ->
        heartbeat_loop (o :: ticks) p = (Exception AttributeError, p, [])).
Proof.
  intros o ticks p. simpl. split; [|split].
  - intros delay. rewrite run_heartbeat_unfold.
    destruct (_manager_api (self p)) as [api|]; simpl.
    + destruct o as [|e]; simpl.
      * split.
        -- intros [H|[H|[]]]; [discriminate|]. inversion H. auto.
        -- intros [_ ->]. auto.
      * destruct (is_transport_error e); simpl.
        -- destruct (_heartbeat_failure_threshold (self p)
                     <=? _heartbeat_failure_count (self p) + 1); simpl.
           ++ split.
              ** intros [H|[H|[]]]; discriminate.
              ** intros [H _]. discriminate.
           ++ split.
              ** intros [H|[H|[]]]; [discriminate|]. inversion H. auto.
              ** intros [_ ->]. auto.
        -- split.
           ++ intros [H|[]]. discriminate.
           ++ intros [H _]. discriminate.
    + split; [intros []|intros [H _]; discriminate].
  - intros Hr. unfold mbind, Py_bind.
    destruct (_run_heartbeat o p) as [[[[]|e|] p1] ev1]; simpl in *;
      [congruence|reflexivity|reflexivity].
  - intros Hapi. unfold mbind, Py_bind. rewrite run_heartbeat_unfold, Hapi.
    reflexivity.
Qed.

(** ** A build from setup to teardown *)

(** X4: whatever the state before and whether or not [setup_build] went on
    to start its thread, the next [_do_build_teardown_and_reset] kills all
    executors and then calls [teardown_build] once, on the project type
    made from the parameters of that [setup_build] and with the caller's
    timeout.  When that call returns, the worker has no current build:
    build id, project type and base executor index are None, the coin is
    spent, and every [teardown_build] and [start_working_on_subjob] request
    is rejected with BadRequestError until the next [setup_build].  When it
    raises, the exception propagates, the build stays current with its coin
    spent, so that requests for it are still accepted while every later
    [_do_build_teardown_and_reset] only kills: the teardown is never
    retried. *)
Theorem setup_then_teardown_clears_the_build :
  forall b params idx timeout p,
    let p1 := snd (fst (setup_build b params idx p)) in
    let pt := create_project_type params in
    (let r := _do_build_teardown_and_reset timeout Returned p1 in
     r = (Value tt,
          mkProcess (cleared (set_build_teardown_coin (Some (mkCoin true))
                                (self p1))) (threads p1),
          kills (self p) ++ [TeardownBuild pt timeout Returned])
     /\ _current_build_id (self (snd (fst r))) = None
     /\ _project_type (self (snd (fst r))) = None
     /\ _base_executor_index (self (snd (fst r))) = None
     /\ (forall b',
           teardown_build b' (snd (fst r))
           = (Exception BadRequestError, snd (fst r), []))
     /\ (forall b' sj cmds,
           start_working_on_subjob b' sj cmds (snd (fst r))
           = (Exception BadRequestError, snd (fst r), [])))
    /\ forall e,
         let r := _do_build_teardown_and_reset timeout (Raised e) p1 in
         r = (Exception e,
              mkProcess (set_build_teardown_coin (Some (mkCoin true))
                           (self p1)) (threads p1),
              kills (self p) ++ [TeardownBuild pt timeout (Raised e)])
         /\ _current_build_id (self (snd (fst r))) = Some b
         /\ fst (fst (teardown_build (Some b) (snd (fst r)))) = Value tt
         /\ (forall sj cmds,
               fst (fst (start_working_on_subjob b sj cmds (snd (fst r))))
               = Value tt)
         /\ forall timeout' o',
              _do_build_teardown_and_reset timeout' o' (snd (fst r))
              = (Value tt, snd (fst r), kills (self p)).
Proof.
  intros b params idx timeout p. simpl.
  assert (Hp1 : exists ths,
             snd (fst (setup_build b params idx p))
             = mkProcess
                 (set_project_type (Some (create_project_type params))
                    (set_build_teardown_coin (Some SingleUseCoin_new)
                       (set_current_build_id (Some b) (self p)))) ths).
  { rewrite setup_build_unfold. simpl.
    destruct (full (_idle_executors (self p))); eexists; reflexivity. }
  destruct Hp1 as (ths & ->). split.
  - rewrite do_build_teardown_and_reset_unfold. simpl.
    repeat split; try reflexivity.
  - intros e. rewrite do_build_teardown_and_reset_unfold. simpl.
    repeat split; try reflexivity.
    + rewrite teardown_build_unfold. simpl. rewrite Z.eqb_refl. reflexivity.
    + intros sj cmds. unfold start_working_on_subjob. py_unfold. simpl.
      rewrite bool_decide_eq_true_2 by reflexivity. reflexivity.
    + intros timeout' o'. rewrite teardown_again; [reflexivity|].
      right. reflexivity.
Qed.

(** ** What a method emits *)

Lemma emits_ret {A : Type} P (a : A) : emits P (mret a).
Proof. intros p. constructor. Qed.

Lemma emits_bind {A B : Type} P (m : Py A) (k : A -> Py B) :
  emits P m -> (forall a, emits P (k a)) -> emits P (m ≫= k).
Proof.
  intros Hm Hk p. unfold mbind, Py_bind. specialize (Hm p).
  destruct (m p) as [[[a| |] p1] ev1]; simpl in *; try assumption.
  specialize (Hk a p1). destruct (k a p1) as [[r p2] ev2]. simpl in *.
  apply Forall_app. auto.
Qed.

Lemma emits_fmap {A B : Type} P (g : A -> B) (m : Py A) :
  emits P m -> emits P (g <$> m).
Proof.
  intros Hm p. unfold fmap, Py_fmap. specialize (Hm p).
  destruct (m p) as [[[a| |] p1] ev1]; simpl in *; assumption.
Qed.

Lemma emits_get_self P : emits P get_self.
Proof. intros p. constructor. Qed.

Lemma emits_update P g : emits P (update g).
Proof. intros p. constructor. Qed.

Lemma emits_raise {A : Type} P e : emits P (raise (A := A) e).
Proof. intros p. constructor. Qed.

Lemma emits_answer P o : emits P (answer o).
Proof. intros p. destruct o; constructor. Qed.

Lemma emits_emit (P : event -> Prop) ev : P ev -> emits P (emit ev).
Proof. intros Hev p. repeat constructor. exact Hev. Qed.

Lemma emits_thread_start (P : event -> Prop) t :
  (forall c, P (ThreadStart c t)) -> emits P (thread_start t).
Proof. intros Ht p. repeat constructor. apply Ht. Qed.

Lemma emits_park (P : event -> Prop) t :
  (forall c, P (Parked c)) -> emits P (park t).
Proof. intros Ht p. repeat constructor. apply Ht. Qed.

Lemma emits_idle_get (P : event -> Prop) :
  (forall x, P (QueueGet x)) -> emits P idle_get.
Proof.
  intros Hx p. unfold idle_get.
  destruct (Queue_get (_idle_executors (self p))) as [[x q]|]; simpl;
    repeat constructor. apply Hx.
Qed.

Lemma emits_idle_put (P : event -> Prop) x :
  P (QueuePut x) -> emits P (idle_put x).
Proof.
  intros Hx p. unfold idle_put.
  destruct (Queue_put x (_idle_executors (self p))) as [q|]; simpl;
    repeat constructor. exact Hx.
Qed.

Lemma emits_for_each {A : Type} P (l : list A) (g : A -> Py unit) :
  (forall x, emits P (g x)) -> emits P (for_each l g).
Proof.
  intros Hg. induction l as [|x l IH]; simpl.
  - apply emits_ret.
  - apply emits_bind; auto.
Qed.

Lemma emits_try_except {A : Type} P (m : Py A) handler :
  emits P m ->
  (forall e h, handler e = Some h -> emits P h) ->
  emits P (try_except m handler).
Proof.
  intros Hm Hh p. unfold try_except. specialize (Hm p).
  destruct (m p) as [[[a|e|] p1] ev1]; simpl in *; try assumption.
  destruct (handler e) as [h|] eqn:He; simpl; [|assumption].
  specialize (Hh e h He p1). destruct (h p1) as [[r p2] ev2]. simpl in *.
  apply Forall_app. auto.
Qed.

(** The side condition of a rule: [P] at one event. *)
Ltac emits_event :=
  intros; first [exact I | reflexivity | discriminate].

(** One rule at a time, by the shape of the body. *)
Ltac emits_rule :=
  lazymatch goal with
  | |- emits _ (mbind _ _) => apply emits_bind; [|intros ?]
  | |- emits _ (mret _) => apply emits_ret
  | |- emits _ (fmap _ _) => apply emits_fmap
  | |- emits _ get_self => apply emits_get_self
  | |- emits _ (update _) => apply emits_update
  | |- emits _ (raise _) => apply emits_raise
  | |- emits _ (answer _) => apply emits_answer
  | |- emits _ (emit _) => apply emits_emit; emits_event
  | |- emits _ (thread_start _) => apply emits_thread_start; emits_event
  | |- emits _ (park _) => apply emits_park; emits_event
  | |- emits _ idle_get => apply emits_idle_get; emits_event
  | |- emits _ (idle_put _) => apply emits_idle_put; emits_event
  | |- emits _ (for_each _ _) => apply emits_for_each; intros ?
  | |- emits _ (try_except _ _) =>
      apply emits_try_except;
      [|let e := fresh "e" in
        let h := fresh "h" in
        let He := fresh "He" in
        intros e h He; cbv beta in He;
        destruct (is_transport_error e); [injection He as <-|discriminate He]]
  | |- emits _ (match ?x with _ => _ end) => destruct x
  end.

(** The bodies, unfolded down to the primitives of the monad. *)
Ltac emits_bodies :=
  repeat first
    [ emits_rule
    | progress unfold connect_to_manager, setup_build,
        start_working_on_subjob, teardown_build, _run_heartbeat,
        _send_heartbeat_to_manager, kill, _disconnect_from_manager,
        _send_manager_idle_notification, _do_build_teardown_and_reset,
        kill_all, teardown_gate, teardown_finish, spend,
        _is_manager_responsive, _notify_manager_of_state_change,
        async_setup_build_step, after_setup_call, async_teardown_build_step,
        start_working_on_subjob_resume, execute_subjob_step ].

(** What a call appends to the trace. *)
Lemma emits_call (P : event -> Prop) m s :
  emits P m -> (forall e, P (Raise e)) ->
  exists evs, trace (call m s) = trace s ++ tagged None evs /\ Forall P evs.
Proof.
  intros Hm Hraise. unfold call. specialize (Hm (proc s)).
  destruct (m (proc s)) as [[[a|e|] p1] ev1]; simpl in *.
  - exists ev1. auto.
  - exists (ev1 ++ [Raise e]). split; [reflexivity|].
    apply Forall_app. split; [assumption|]. repeat constructor. apply Hraise.
  - exists []. split; [rewrite app_nil_r; reflexivity|constructor].
Qed.

(** What a segment of a thread appends to the trace. *)
Lemma emits_step_thread (P : event -> Prop) tid o s :
  (forall t,
     threads (proc s) !! tid = Some (mkThread t Running) ->
     emits P (task_step t o)) ->
  exists evs,
    trace (step_thread tid o s) = trace s ++ tagged (Some tid) evs
    /\ Forall P evs.
Proof.
  intros Hm. unfold step_thread.
  destruct (threads (proc s) !! tid) as [[t [| |e]]|];
    try (exists []; split; [rewrite app_nil_r; reflexivity|constructor]).
  specialize (Hm t eq_refl (proc s)).
  destruct (task_step t o (proc s)) as [[[a|e|] p1] ev1]; simpl in *;
    try (exists ev1; split; [reflexivity|assumption]).
  exists []. split; [rewrite app_nil_r; reflexivity|constructor].
Qed.

(** ** Which states are notified, and by whom *)

Lemma caller_notifies_call a s :
  (forall tid o, a <> StepThread tid o) ->
  exists evs,
    trace (step a s) = trace s ++ tagged None evs
    /\ Forall caller_notifies evs.
Proof.
  intros Hnot.
  destruct a; simpl; try (exfalso; eapply Hnot; reflexivity);
    (apply emits_call; [|intros; exact I]); emits_bodies.
Qed.

(** An action is a call of a method or a segment of a thread. *)
Lemma call_or_segment a :
  (forall tid o, a <> StepThread tid o) \/ exists tid o, a = StepThread tid o.
Proof. destruct a; [left; discriminate ..|right; eauto]. Qed.

Lemma caller_notifies_run schedule s :
  (forall ev, In (None, ev) (trace s) -> caller_notifies ev) ->
  forall ev, In (None, ev) (trace (run schedule s)) -> caller_notifies ev.
Proof.
  revert s. induction schedule as [|a schedule IH]; intros s Hs;
    [exact Hs|].
  simpl. apply IH. intros ev Hin.
  destruct (call_or_segment a) as [Hcall|(tid & o & ->)].
  - destruct (caller_notifies_call a s Hcall) as (evs & Htr & Hevs).
    rewrite Htr in Hin. apply in_app_iff in Hin.
    destruct Hin as [Hin|Hin]; [apply Hs; exact Hin|].
    apply in_tagged in Hin. destruct Hin as [_ Hin].
    rewrite Forall_forall in Hevs. apply Hevs, list_elem_of_In, Hin.
  - destruct (emits_step_thread (fun _ => True) tid o s) as (evs & Htr & _).
    { intros t _ p. apply Forall_forall. auto. }
    simpl in Hin. rewrite Htr in Hin. apply in_app_iff in Hin.
    destruct Hin as [Hin|Hin]; [apply Hs; exact Hin|].
    apply in_tagged in Hin. destruct Hin as [Hwho _]. discriminate.
Qed.

(** X5: along any schedule, a state notification sent by a caller of the
    worker's methods is the DISCONNECTED of [_disconnect_from_manager]; one
    sent by a thread is either the SETUP_COMPLETED or SETUP_FAILED of a
    setup thread standing at that notification, or the IDLE of a teardown
    thread standing at its last statement; request handlers and subjob
    threads send none, and SHUTDOWN is never sent. *)
Theorem notified_states_and_their_senders :
  forall w schedule who api wid st o,
    In (who, PutState api wid st o) (trace (run schedule (boot w))) ->
    st <> SHUTDOWN
    /\ match who with
       | None => st = DISCONNECTED
       | Some t =>
           exists th,
             threads (proc (run schedule (boot w))) !! t = Some th
             /\ match body th with
                | AsyncSetupBuild _ _ _ pc =>
                    pc = SetupNotify st
                    /\ (st = SETUP_COMPLETED \/ st = SETUP_FAILED)
                | AsyncTeardownBuild pc => pc = TdNotify /\ st = IDLE
                | _ => False
                end
       end.
Proof.
  intros w schedule who api wid st o Hin.
  assert (Hwho : match who with
                 | None => st = DISCONNECTED
                 | Some t =>
                     exists th,
                       threads (proc (run schedule (boot w))) !! t = Some th
                       /\ match body th with
                          | AsyncSetupBuild _ _ _ pc =>
                              pc = SetupNotify st
                              /\ (st = SETUP_COMPLETED \/ st = SETUP_FAILED)
                          | AsyncTeardownBuild pc => pc = TdNotify /\ st = IDLE
                          | _ => False
                          end
                 end).
  { destruct who as [t|].
    - pose proof (invariant_reachable schedule w) as Hinv.
      pose proof (inv_tags _ Hinv _ _ Hin) as Hlt.
      destruct (lookup_lt_is_Some_2 _ _ Hlt) as [th Hth].
      exists th. split; [exact Hth|].
      pose proof (inv_logs _ Hinv _ _ Hth) as Hlog.
      apply in_log_of in Hin. unfold thread_inv in Hlog.
      destruct (body th) as [executors params idx pc|pc|b sj cmds|b sj e cmds pc].
      + destruct (setup_inv_notification _ _ _ _ _ _ _ _ _ Hlog Hin)
          as (l & -> & Hl & _).
        split; [reflexivity|]. destruct st; simpl in Hl; auto; contradiction.
      + destruct (teardown_inv_notification _ _ _ _ _ _ _ Hlog Hin)
          as (-> & -> & _). auto.
      + destruct (state th) as [| |ex]; simpl in Hlog.
        * rewrite Hlog in Hin. destruct Hin.
        * destruct Hlog as (e & c & Hlog). rewrite Hlog in Hin.
          destruct Hin as [?|[?|[?|[]]]]; discriminate.
        * exact Hlog.
      + destruct Hlog as [Hq _].
        exact (not_in_quiet is_put_state _ (PutState api wid st o) Hq
                 eq_refl Hin).
    - exact (caller_notifies_run schedule (boot w) ltac:(intros ev [])
               _ Hin). }
  split; [|exact Hwho].
  intros ->. destruct who as [t|]; [|discriminate].
  destruct Hwho as (th & _ & Hbody).
  destruct (body th); try contradiction.
  - destruct Hbody as [_ [?|?]]; discriminate.
  - destruct Hbody as [_ ?]. discriminate.
Qed.

(** Witness of [notified_states_and_their_senders]: the two-executor worker
    registers, build 42 is set up and its setup thread runs to its end; the
    SETUP_COMPLETED it sent is in the log of thread 0, a setup thread
    standing at that notification. *)
Lemma notified_states_and_their_senders_witness :
  In (Some 0%nat,
      PutState (mkUrlBuilder "localhost:43000") (Some 7) SETUP_COMPLETED
        Returned)
    (trace (run [CallConnectToManager None (PostReturned (Some 7));
                 CallSetupBuild 42 [] 0;
                 StepThread 0 Returned; StepThread 0 Returned;
                 StepThread 0 Returned; StepThread 0 Returned;
                 StepThread 0 Returned]
              (boot new_worker)))
  /\ exists th,
       threads (proc (run [CallConnectToManager None (PostReturned (Some 7));
                           CallSetupBuild 42 [] 0;
                           StepThread 0 Returned; StepThread 0 Returned;
                           StepThread 0 Returned; StepThread 0 Returned;
                           StepThread 0 Returned]
                        (boot new_worker))) !! 0%nat = Some th
       /\ match body th with
          | AsyncSetupBuild _ _ _ pc =>
              pc = SetupNotify SETUP_COMPLETED
              /\ (SETUP_COMPLETED = SETUP_COMPLETED
                  \/ SETUP_COMPLETED = SETUP_FAILED)
          | AsyncTeardownBuild pc => pc = TdNotify /\ SETUP_COMPLETED = IDLE
          | _ => False
          end.
Proof.
  assert (Hin :
    In (Some 0%nat,
        PutState (mkUrlBuilder "localhost:43000") (Some 7) SETUP_COMPLETED
          Returned)
      (trace (run [CallConnectToManager None (PostReturned (Some 7));
                   CallSetupBuild 42 [] 0;
                   StepThread 0 Returned; StepThread 0 Returned;
                   StepThread 0 Returned; StepThread 0 Returned;
                   StepThread 0 Returned]
                (boot new_worker)))).
  { vm_compute. do 30 (try (left; reflexivity); right). }
  split; [exact Hin|].
  exact (proj2 (notified_states_and_their_senders _ _ _ _ _ _ _ Hin)).
Defined.

(** ** Teardown callbacks *)

Lemma registered_callbacks_app tr1 tr2 :
  registered_callbacks (tr1 ++ tr2)
  = registered_callbacks tr1 ++ registered_callbacks tr2.
Proof. unfold registered_callbacks. apply omap_app. Qed.

Lemma registered_nothing who evs :
  Forall (fun ev => forall who', registered (who', ev) = None) evs ->
  registered_callbacks (tagged who evs) = [].
Proof.
  intros Hevs. induction Hevs as [|ev evs Hev _ IH]; [reflexivity|].
  specialize (Hev who). unfold registered_callbacks, tagged in *.
  simpl in *. destruct ev; try discriminate Hev; exact IH.
Qed.

(** What an action adds to the registered callbacks. *)
Lemma registered_callbacks_step a s :
  registered_callbacks (trace (step a s))
  = registered_callbacks (trace s) ++ callbacks_of a.
Proof.
  assert (Hcall : forall m,
             emits (fun ev => forall who', registered (who', ev) = None) m ->
             registered_callbacks (trace (call m s))
             = registered_callbacks (trace s) ++ []).
  { intros m Hm.
    destruct (emits_call _ m s Hm (fun e who' => eq_refl))
      as (evs & -> & Hevs).
    rewrite registered_callbacks_app, (registered_nothing _ _ Hevs).
    reflexivity. }
  destruct a as [url o| | | | | | |tid o0]; simpl step;
    try (apply Hcall; emits_bodies).
  - unfold call. rewrite connect_to_manager_unfold.
    destruct o as [[n|]|e]; simpl; rewrite registered_callbacks_app;
      reflexivity.
  - destruct (emits_step_thread
                (fun ev => forall who', registered (who', ev) = None)
                tid o0 s) as (evs & -> & Hevs).
    { intros t _. destruct t; simpl; emits_bodies. }
    rewrite registered_callbacks_app, (registered_nothing _ _ Hevs).
    reflexivity.
Qed.

(** X6: the teardown callbacks registered along any schedule are, for each
    [connect_to_manager] call whose registration answered with a worker id
    and in the order of these calls, [_do_build_teardown_and_reset] with a
    timeout of 30 seconds and then [_disconnect_from_manager].  A call whose
    POST raised or whose response had no worker id registers nothing, no
    other operation and no thread registers a callback, and a worker that
    reconnects registers the pair again. *)
Theorem teardown_callbacks_registered :
  forall schedule s,
    registered_callbacks (trace (run schedule s))
    = registered_callbacks (trace s) ++ concat (map callbacks_of schedule).
Proof.
  induction schedule as [|a schedule IH]; intros s; simpl.
  - rewrite app_nil_r. reflexivity.
  - rewrite IH, registered_callbacks_step, <- app_assoc. reflexivity.
Qed.

(** ** The pool of executors *)

Lemma all_executors_NoDup n : NoDup (all_executors n).
Proof.
  unfold all_executors, range.
  assert (Hinj : Inj eq eq SubjobExecutor.new).
  { intros x y H. inversion H. reflexivity. }
  apply (NoDup_fmap_2 SubjobExecutor.new). apply NoDup_seq.
Qed.

Lemma init_queue port host n threshold interval w :
  ClusterWorker_init port host n threshold interval = Some w ->
  _idle_executors w = mkQueue n (all_executors n)
  /\ values (executors_by_id w) = all_executors n.
Proof.
  rewrite init_unfold. intros Hw. inversion Hw; subst. simpl.
  split; [reflexivity|]. unfold values. rewrite map_map. reflexivity.
Qed.

Lemma holder_in_held ths c th e :
  ths !! c = Some th -> holds th = Some e -> In e (held ths).
Proof.
  intros Hc Hh. apply list_elem_of_In. unfold held.
  apply list_elem_of_omap. exists th. split; [|exact Hh].
  eapply list_elem_of_lookup_2. exact Hc.
Qed.

(** Two threads of a table whose held executors are all different do not
    hold the same one. *)
Lemma holders_differ ths c c' th th' e :
  NoDup (held ths) ->
  (c < c')%nat ->
  ths !! c = Some th -> ths !! c' = Some th' ->
  holds th = Some e -> holds th' = Some e -> False.
Proof.
  intros Hnd Hlt Hc Hc' Hh Hh'.
  rewrite (held_split _ _ _ Hc'), Hh' in Hnd. simpl in Hnd.
  apply NoDup_app in Hnd. destruct Hnd as (_ & Hdis & _).
  apply (Hdis e).
  - apply list_elem_of_In. apply (holder_in_held _ c th); [|exact Hh].
    rewrite lookup_take_lt by exact Hlt. exact Hc.
  - left.
Qed.

(** X7: the executors of a worker built by the constructor are conserved
    along every schedule: the idle ones followed by those held by subjob
    threads that have not put theirs back are, in some order, the executors
    0..n-1 created at construction, each exactly once.  So the idle and the
    held ones always number [n], an executor that is held is not in the
    idle queue, and no two threads hold the same executor. *)
Theorem executors_are_conserved :
  forall port host n threshold interval w schedule,
    ClusterWorker_init port host n threshold interval = Some w ->
    let p := proc (run schedule (boot w)) in
    Permutation (pool_content p) (all_executors n)
    /\ NoDup (pool_content p)
    /\ (length (queue (_idle_executors (self p))) + length (held (threads p))
        = Z.to_nat n)%nat
    /\ maxsize (_idle_executors (self p)) = n
    /\ forall c th e,
         threads p !! c = Some th -> holds th = Some e ->
         In e (all_executors n)
         /\ ~ In e (queue (_idle_executors (self p)))
         /\ forall c' th',
              c' <> c -> threads p !! c' = Some th' -> holds th' <> Some e.
Proof.
  intros port host n threshold interval w schedule Hw p.
  destruct (init_queue _ _ _ _ _ _ Hw) as [Hq _].
  destruct (pool_inv_run w schedule _ (pool_inv_boot w)) as [Hmax Hperm].
  fold p in Hmax, Hperm. rewrite Hq in Hmax, Hperm. simpl in Hmax, Hperm.
  assert (Hnd : NoDup (pool_content p)).
  { rewrite Hperm. apply all_executors_NoDup. }
  split; [exact Hperm|]. split; [exact Hnd|]. split; [|split; [exact Hmax|]].
  - apply Permutation_length in Hperm. unfold pool_content in Hperm.
    rewrite length_app in Hperm. rewrite Hperm.
    unfold all_executors, range. rewrite length_map, length_seq.
    reflexivity.
  - intros c th e Hc Hh.
    pose proof (holder_in_held _ _ _ _ Hc Hh) as Hheld.
    unfold pool_content in Hnd, Hperm. apply NoDup_app in Hnd.
    destruct Hnd as (_ & Hdis & Hndh). split; [|split].
    + eapply Permutation_in; [exact Hperm|]. apply in_app_iff. auto.
    + intros Hin. apply (Hdis e); apply list_elem_of_In; assumption.
    + intros c' th' Hne Hc' Hh'.
      destruct (Nat.lt_total c c') as [Hlt|[Heq|Hlt]]; [|congruence|].
      * exact (holders_differ _ _ _ _ _ _ Hndh Hlt Hc Hc' Hh Hh').
      * exact (holders_differ _ _ _ _ _ _ Hndh Hlt Hc' Hc Hh' Hh).
Qed.

(** Witness of [executors_are_conserved]: on the two-executor worker, after
    build 42 was set up and a subjob request took executor 0, the subjob
    thread holds executor 0 and executor 1 is idle. *)
Lemma executors_are_conserved_witness :
  ClusterWorker_init 43001 "host" 2 3 5 = Some new_worker
  /\ Permutation
       (pool_content
          (proc (run [CallConnectToManager None (PostReturned (Some 7));
                      CallSetupBuild 42 [] 0;
                      CallStartWorkingOnSubjob 42 3 []; StepThread 1 Returned]
                   (boot new_worker))))
       (all_executors 2).
Proof.
  assert (Hw : ClusterWorker_init 43001 "host" 2 3 5 = Some new_worker)
    by (vm_compute; reflexivity).
  split; [exact Hw|].
  exact (proj1 (executors_are_conserved _ _ _ _ _ _
                  [CallConnectToManager None (PostReturned (Some 7));
                   CallSetupBuild 42 [] 0;
                   CallStartWorkingOnSubjob 42 3 []; StepThread 1 Returned]
                  Hw)).
Defined.

Lemma stuck_of_not_full s :
  full (_idle_executors (self (proc s))) = false -> stuck s.
Proof.
  intros Hfull. split; [exact Hfull|]. intros b params idx.
  rewrite setup_build_unfold. simpl. rewrite Hfull. reflexivity.
Qed.

(** X8: a worker constructed with [num_executors <= 0] has no executor and
    an unbounded idle queue, which is never full.  Along every schedule its
    pool stays empty and not full: every [setup_build] raises RuntimeError
    (after assigning the build attributes), a teardown thread that polls
    the pool goes on polling, and an accepted subjob request stays in
    [get()] for ever. *)
Theorem worker_without_executors_is_stuck :
  forall port host n threshold interval w schedule,
    n <= 0 ->
    ClusterWorker_init port host n threshold interval = Some w ->
    let s := run schedule (boot w) in
    queue (_idle_executors (self (proc s))) = []
    /\ held (threads (proc s)) = []
    /\ stuck s
    /\ (forall t o,
          threads (proc s) !! t
          = Some (mkThread (AsyncTeardownBuild TdWait) Running) ->
          threads (proc (step (StepThread t o) s)) !! t
          = Some (mkThread (AsyncTeardownBuild TdWait) Running))
    /\ (forall h b sj cmds o,
          threads (proc s) !! h
          = Some (mkThread (StartWorkingOnSubjob b sj cmds) Running) ->
          step (StepThread h o) s = s).
Proof.
  intros port host n threshold interval w schedule Hn Hw s.
  destruct (init_queue _ _ _ _ _ _ Hw) as [Hq _].
  destruct (pool_inv_run w schedule _ (pool_inv_boot w)) as [Hmax Hperm].
  fold s in Hmax, Hperm. rewrite Hq in Hmax, Hperm. simpl in Hmax, Hperm.
  assert (Hnil : all_executors n = []).
  { unfold all_executors, range. replace (Z.to_nat n) with 0%nat by lia.
    reflexivity. }
  rewrite Hnil in Hperm. apply Permutation_nil_r in Hperm.
  unfold pool_content in Hperm. apply app_eq_nil in Hperm.
  destruct Hperm as [Hqueue Hheld].
  assert (Hfull : full (_idle_executors (self (proc s))) = false).
  { unfold full. rewrite Hmax. replace (0 <? n) with false by lia.
    reflexivity. }
  split; [exact Hqueue|]. split; [exact Hheld|].
  split; [apply stuck_of_not_full; exact Hfull|]. split.
  - intros t o Ht. pose proof (lookup_lt_Some _ _ _ Ht) as Hlt.
    simpl. unfold step_thread. rewrite Ht. simpl. py_unfold. simpl.
    rewrite Hfull. simpl. apply list_lookup_insert_eq. exact Hlt.
  - intros h b sj cmds o Hh. eapply handler_blocks; eassumption.
Qed.

(** Witness of [worker_without_executors_is_stuck]: a worker constructed
    with no executor, after registering and a [setup_build]. *)
Lemma worker_without_executors_is_stuck_witness :
  0 <= 0
  /\ ClusterWorker_init 43001 "host" 0 3 5
     = Some (mkWorker 43001 "host"%string true None 0 (mkQueue 0 []) []
               None None None None None None 0 3 5)
  /\ stuck (run [CallConnectToManager None (PostReturned (Some 7));
                 CallSetupBuild 42 [] 0]
              (boot (mkWorker 43001 "host"%string true None 0 (mkQueue 0 [])
                       [] None None None None None None 0 3 5))).
Proof.
  assert (Hw : ClusterWorker_init 43001 "host" 0 3 5
               = Some (mkWorker 43001 "host"%string true None 0 (mkQueue 0 [])
                         [] None None None None None None 0 3 5))
    by (vm_compute; reflexivity).
  split; [lia|]. split; [exact Hw|].
  destruct (worker_without_executors_is_stuck _ _ _ _ _ _
              [CallConnectToManager None (PostReturned (Some 7));
               CallSetupBuild 42 [] 0] (Z.le_refl 0) Hw)
    as (_ & _ & Hstuck & _).
  exact Hstuck.
Defined.

(** A thread that is not running stays as it is. *)
Lemma dead_thread_stays a s c th :
  threads (proc s) !! c = Some th -> state th <> Running ->
  threads (proc (step a s)) !! c = Some th.
Proof.
  intros Hc Hst.
  destruct (step_is_call a s) as [(m & Hm & ->)|(tid & o & ->)].
  - unfold call. destruct (Hm (proc s)) as (new & Hth & _).
    destruct (m (proc s)) as [[[x|e|] p'] evs]; simpl in *;
      try (rewrite Hth; apply lookup_app_l_Some; exact Hc).
    exact Hc.
  - simpl. unfold step_thread.
    destruct (threads (proc s) !! tid) as [[tk [| |e]]|] eqn:Htid;
      try exact Hc.
    destruct (spawns_task_step tk o (proc s)) as (new & Hth & _).
    assert (Hne : c <> tid).
    { intros ->. rewrite Htid in Hc. inversion Hc; subst. apply Hst.
      reflexivity. }
    destruct (task_step tk o (proc s)) as [[[[tk'|]|e'|] p'] evs];
      simpl in *; try exact Hc;
      rewrite list_lookup_insert_ne by congruence;
      rewrite Hth; apply lookup_app_l_Some; exact Hc.
Qed.

Lemma dead_thread_stays_run schedule s c th :
  threads (proc s) !! c = Some th -> state th <> Running ->
  threads (proc (run schedule s)) !! c = Some th.
Proof.
  revert s. induction schedule as [|a schedule IH]; intros s Hc Hst;
    [exact Hc|].
  simpl. apply IH; [|exact Hst]. apply dead_thread_stays; assumption.
Qed.

(** X9: [_execute_subjob] has no [finally]: when a subjob thread of a
    worker built by the constructor ends with an exception before its
    [put] (in [execute_subjob], in [open], or for want of a manager), the
    executor it holds never comes back.  From then on and whatever is
    scheduled, that executor is not in the idle queue, the pool is never
    full again, every [setup_build] raises RuntimeError and a teardown
    thread polling the pool never leaves its loop. *)
Theorem crashed_subjob_keeps_its_executor :
  forall port host n threshold interval w schedule c th e ex later,
    ClusterWorker_init port host n threshold interval = Some w ->
    threads (proc (run schedule (boot w))) !! c = Some th ->
    state th = Crashed ex ->
    holds th = Some e ->
    let s := run (schedule ++ later) (boot w) in
    threads (proc s) !! c = Some th
    /\ ~ In e (queue (_idle_executors (self (proc s))))
    /\ stuck s
    /\ forall t o,
         threads (proc s) !! t
         = Some (mkThread (AsyncTeardownBuild TdWait) Running) ->
         threads (proc (step (StepThread t o) s)) !! t
         = Some (mkThread (AsyncTeardownBuild TdWait) Running).
Proof.
  intros port host n threshold interval w schedule c th e ex later
    Hw Hc Hst Hh s.
  assert (Hc' : threads (proc s) !! c = Some th).
  { unfold s. rewrite run_app. apply dead_thread_stays_run; [exact Hc|].
    rewrite Hst. discriminate. }
  assert (Hfull : full (_idle_executors (self (proc s))) = false).
  { eapply holder_has_room; [exact Hw|exact Hc'|exact Hh]. }
  split; [exact Hc'|]. split; [|split].
  - destruct (pool_inv_run w (schedule ++ later) _ (pool_inv_boot w))
      as [_ Hperm].
    fold s in Hperm. destruct (init_queue _ _ _ _ _ _ Hw) as [Hq _].
    rewrite Hq in Hperm. simpl in Hperm.
    assert (Hnd : NoDup (pool_content (proc s))).
    { rewrite Hperm. apply all_executors_NoDup. }
    unfold pool_content in Hnd. apply NoDup_app in Hnd.
    destruct Hnd as (_ & Hdis & _). intros Hin.
    apply (Hdis e); apply list_elem_of_In; [exact Hin|].
    eapply holder_in_held; eassumption.
  - apply stuck_of_not_full. exact Hfull.
  - intros t o Ht. pose proof (lookup_lt_Some _ _ _ Ht) as Hlt.
    simpl. unfold step_thread. rewrite Ht. simpl. py_unfold. simpl.
    rewrite Hfull. simpl. apply list_lookup_insert_eq. exact Hlt.
Qed.

(** Witness of [crashed_subjob_keeps_its_executor]: on the two-executor
    worker a subjob of build 42 takes executor 0 and its [execute_subjob]
    raises; after the other executor has run a subjob to its end, the pool
    is still not full. *)
Lemma crashed_subjob_keeps_its_executor_witness :
  ClusterWorker_init 43001 "host" 2 3 5 = Some new_worker
  /\ threads (proc (run [CallConnectToManager None (PostReturned (Some 7));
                         CallSetupBuild 42 [] 0;
                         CallStartWorkingOnSubjob 42 3 [];
                         StepThread 1 Returned;
                         StepThread 2 (Raised OtherError)]
                      (boot new_worker))) !! 2%nat
     = Some (mkThread (ExecuteSubjob 42 3 (SubjobExecutor.new 0) [] SjExecute)
               (Crashed OtherError))
  /\ stuck (run ([CallConnectToManager None (PostReturned (Some 7));
                  CallSetupBuild 42 [] 0;
                  CallStartWorkingOnSubjob 42 3 [];
                  StepThread 1 Returned;
                  StepThread 2 (Raised OtherError)]
                 ++ [CallStartWorkingOnSubjob 42 4 [];
                     StepThread 3 Returned;
                     StepThread 4 Returned; StepThread 4 Returned;
                     StepThread 4 Returned; StepThread 4 Returned])
              (boot new_worker)).
Proof.
  assert (Hw : ClusterWorker_init 43001 "host" 2 3 5 = Some new_worker)
    by (vm_compute; reflexivity).
  assert (Hc : threads
                 (proc (run [CallConnectToManager None (PostReturned (Some 7));
                             CallSetupBuild 42 [] 0;
                             CallStartWorkingOnSubjob 42 3 [];
                             StepThread 1 Returned;
                             StepThread 2 (Raised OtherError)]
                          (boot new_worker))) !! 2%nat
               = Some (mkThread
                         (ExecuteSubjob 42 3 (SubjobExecutor.new 0) []
                            SjExecute) (Crashed OtherError)))
    by (vm_compute; reflexivity).
  split; [exact Hw|]. split; [exact Hc|].
  destruct (crashed_subjob_keeps_its_executor _ _ _ _ _ _ _ _ _ _ _
              [CallStartWorkingOnSubjob 42 4 [];
               StepThread 3 Returned;
               StepThread 4 Returned; StepThread 4 Returned;
               StepThread 4 Returned; StepThread 4 Returned]
              Hw Hc eq_refl eq_refl)
    as (_ & _ & Hstuck & _).
  exact Hstuck.
Defined.

(** X10: when [setup_build] is accepted on a worker built by the
    constructor, whatever happened before, no subjob thread holds an
    executor and the snapshot handed to the setup thread consists of all
    the executors created at construction, each once: the executors the
    setup thread configures are the executors a teardown kills. *)
Theorem setup_build_snapshots_every_executor :
  forall port host n threshold interval w schedule b params idx,
    ClusterWorker_init port host n threshold interval = Some w ->
    let s := run schedule (boot w) in
    full (_idle_executors (self (proc s))) = true ->
    let s' := step (CallSetupBuild b params idx) s in
    held (threads (proc s)) = []
    /\ exists executors,
         threads (proc s')
         = threads (proc s)
           ++ [mkThread (AsyncSetupBuild executors params idx SetupFetch)
                 Running]
         /\ Permutation executors (all_executors n)
         /\ Permutation executors (values (executors_by_id (self (proc s'))))
         /\ length executors = Z.to_nat n
         /\ kills (self (proc s')) = map ExecutorKill (all_executors n).
Proof.
  intros port host n threshold interval w schedule b params idx Hw s
    Hfull s'.
  pose proof (full_pool_nobody_holds _ _ _ _ _ _ schedule Hw Hfull) as Hheld.
  fold s in Hheld. split; [exact Hheld|].
  destruct (init_queue _ _ _ _ _ _ Hw) as [Hq Hvalues].
  destruct (pool_inv_run w schedule _ (pool_inv_boot w)) as [_ Hperm].
  fold s in Hperm. unfold pool_content in Hperm.
  rewrite Hheld, app_nil_r, Hq in Hperm. simpl in Hperm.
  assert (Hdict : values (executors_by_id (self (proc s')))
                  = all_executors n).
  { unfold s', s. rewrite <- run_snoc.
    rewrite (keeps_run executors_by_id frame_executors_by_id);
      [exact Hvalues|reflexivity]. }
  exists (queue (_idle_executors (self (proc s)))).
  split; [|split; [exact Hperm|split; [|split]]].
  - unfold s'. simpl. unfold call. rewrite setup_build_unfold. simpl.
    rewrite Hfull. reflexivity.
  - rewrite Hdict. exact Hperm.
  - apply Permutation_length in Hperm. rewrite Hperm.
    unfold all_executors, range. rewrite length_map, length_seq.
    reflexivity.
  - unfold kills. rewrite Hdict. reflexivity.
Qed.

(** Witness of [setup_build_snapshots_every_executor]: a second build is
    set up on the two-executor worker after a subjob of the first one took
    executor 0 and put it back: the snapshot holds both executors. *)
Lemma setup_build_snapshots_every_executor_witness :
  ClusterWorker_init 43001 "host" 2 3 5 = Some new_worker
  /\ full (_idle_executors
             (self (proc (run [CallConnectToManager None
                                 (PostReturned (Some 7));
                               CallSetupBuild 42 [] 0;
                               CallStartWorkingOnSubjob 42 3 [];
                               StepThread 1 Returned;
                               StepThread 2 Returned; StepThread 2 Returned;
                               StepThread 2 Returned; StepThread 2 Returned]
                            (boot new_worker))))) = true
  /\ held (threads (proc (run [CallConnectToManager None
                                 (PostReturned (Some 7));
                               CallSetupBuild 42 [] 0;
                               CallStartWorkingOnSubjob 42 3 [];
                               StepThread 1 Returned;
                               StepThread 2 Returned; StepThread 2 Returned;
                               StepThread 2 Returned; StepThread 2 Returned]
                            (boot new_worker)))) = [].
Proof.
  assert (Hw : ClusterWorker_init 43001 "host" 2 3 5 = Some new_worker)
    by (vm_compute; reflexivity).
  assert (Hfull :
    full (_idle_executors
            (self (proc (run [CallConnectToManager None
                                (PostReturned (Some 7));
                              CallSetupBuild 42 [] 0;
                              CallStartWorkingOnSubjob 42 3 [];
                              StepThread 1 Returned;
                              StepThread 2 Returned; StepThread 2 Returned;
                              StepThread 2 Returned; StepThread 2 Returned]
                           (boot new_worker))))) = true)
    by (vm_compute; reflexivity).
  split; [exact Hw|]. split; [exact Hfull|].
  exact (proj1 (setup_build_snapshots_every_executor _ _ _ _ _ _ _ 43 [] 2
                  Hw Hfull)).
Defined.

(** ** One teardown per coin *)

Lemma keeps_idle_get_field {X : Type} (f : ClusterWorker -> X) :
  (forall q w, f (set_idle_executors q w) = f w) -> keeps f idle_get.
Proof.
  intros Hf p. unfold idle_get.
  destruct (Queue_get (_idle_executors (self p))) as [[x q]|]; simpl;
    [apply Hf|reflexivity].
Qed.

Lemma keeps_idle_put_field {X : Type} (f : ClusterWorker -> X) x :
  (forall q w, f (set_idle_executors q w) = f w) -> keeps f (idle_put x).
Proof.
  intros Hf p. unfold idle_put.
  destruct (Queue_put x (_idle_executors (self p))) as [q|]; simpl;
    [apply Hf|reflexivity].
Qed.

(** One frame rule at a time, for an attribute that the updates of the
    body visibly leave alone. *)
Ltac field_rule :=
  lazymatch goal with
  | |- keeps _ (mbind _ _) => apply keeps_bind; [|intros ?]
  | |- keeps _ (mret _) => apply keeps_ret
  | |- keeps _ (fmap _ _) => apply keeps_fmap
  | |- keeps _ get_self => apply keeps_get_self
  | |- keeps _ (emit _) => apply keeps_emit
  | |- keeps _ (raise _) => apply keeps_raise
  | |- keeps _ (answer _) => apply keeps_answer
  | |- keeps _ (thread_start _) => apply keeps_thread_start
  | |- keeps _ (park _) => apply keeps_park
  | |- keeps _ idle_get =>
      apply keeps_idle_get_field; intros; reflexivity
  | |- keeps _ (idle_put _) =>
      apply keeps_idle_put_field; intros; reflexivity
  | |- keeps _ (for_each _ _) => apply keeps_for_each; intros ?
  | |- keeps _ (update _) => apply keeps_update; intros ?; reflexivity
  | |- keeps _ (try_except _ _) =>
      apply keeps_try_except;
      [|let e := fresh "e" in
        let h := fresh "h" in
        let He := fresh "He" in
        intros e h He; cbv beta in He;
        destruct (is_transport_error e); [injection He as <-|discriminate He]]
  | |- keeps _ (match ?x with _ => _ end) => destruct x
  end.

Ltac field_bodies :=
  repeat first
    [ field_rule
    | progress unfold connect_to_manager, setup_build,
        start_working_on_subjob, teardown_build, _run_heartbeat,
        _send_heartbeat_to_manager, kill, _disconnect_from_manager,
        _send_manager_idle_notification, _do_build_teardown_and_reset,
        kill_all, teardown_gate, teardown_finish, spend,
        _is_manager_responsive, _notify_manager_of_state_change,
        async_setup_build_step, after_setup_call, async_teardown_build_step,
        start_working_on_subjob_resume, execute_subjob_step ].

Ltac calm_bodies := (split; [field_bodies|emits_bodies]).

Lemma teardown_builds_app tr1 tr2 :
  teardown_builds (tr1 ++ tr2)
  = (teardown_builds tr1 + teardown_builds tr2)%nat.
Proof. unfold teardown_builds. rewrite filter_app, length_app. reflexivity. Qed.

Lemma teardown_builds_tagged who evs :
  teardown_builds (tagged who evs)
  = length (filter (fun ev => is_teardown_build ev = true) evs).
Proof.
  unfold teardown_builds, tagged.
  induction evs as [|ev evs IH]; [reflexivity|]. simpl.
  destruct (is_teardown_build ev) eqn:Hev.
  - rewrite !filter_cons_True by exact Hev. simpl. rewrite IH. reflexivity.
  - rewrite !filter_cons_False by (simpl; congruence). exact IH.
Qed.

Lemma teardown_builds_quiet who evs :
  Forall (fun ev => is_teardown_build ev = false) evs ->
  teardown_builds (tagged who evs) = 0%nat.
Proof.
  intros Hevs. rewrite teardown_builds_tagged.
  induction Hevs as [|ev evs Hev _ IH]; [reflexivity|].
  rewrite filter_cons_False by congruence. exact IH.
Qed.

Lemma tearing_down_app ths1 ths2 :
  tearing_down (ths1 ++ ths2)
  = (tearing_down ths1 + tearing_down ths2)%nat.
Proof. unfold tearing_down. rewrite filter_app, length_app. reflexivity. Qed.

Lemma tearing_down_cons th ths :
  tearing_down (th :: ths)
  = ((if in_teardown_build th then 1 else 0) + tearing_down ths)%nat.
Proof.
  unfold tearing_down. destruct (in_teardown_build th) eqn:Hth.
  - rewrite filter_cons_True by exact Hth. reflexivity.
  - rewrite filter_cons_False by congruence. reflexivity.
Qed.

Lemma initial_not_in_teardown_build th :
  initial th -> in_teardown_build th = false.
Proof.
  destruct th as [t st]. intros [_ Hor]. simpl in Hor.
  unfold in_teardown_build. simpl.
  destruct t as [| [] | |]; try reflexivity. discriminate.
Qed.

Lemma tearing_down_initial new :
  Forall initial new -> tearing_down new = 0%nat.
Proof.
  intros Hnew. induction Hnew as [|th new Hth _ IH]; [reflexivity|].
  rewrite tearing_down_cons, (initial_not_in_teardown_build _ Hth). exact IH.
Qed.

Lemma tearing_down_insert ths i th th' :
  ths !! i = Some th ->
  (tearing_down (<[i := th']> ths) + (if in_teardown_build th then 1 else 0)
   = tearing_down ths + (if in_teardown_build th' then 1 else 0))%nat.
Proof.
  intros Hi. rewrite insert_take_drop by (eapply lookup_lt_Some; exact Hi).
  rewrite <- (take_drop_middle ths i th Hi) at 3.
  rewrite !tearing_down_app, !tearing_down_cons. lia.
Qed.

(** A calm method called from outside leaves the budget as it is. *)
Lemma calm_call (m : Py unit) s :
  calm m -> spawns m -> teardown_budget (call m s) = teardown_budget s.
Proof.
  intros [Hk He] Hs. unfold call, teardown_budget.
  specialize (Hk (proc s)). specialize (He (proc s)).
  destruct (Hs (proc s)) as (new & Hth & Hnew & _).
  destruct (m (proc s)) as [[[x|e|] p'] evs]; simpl in *;
    [| |reflexivity].
  - rewrite teardown_builds_app, (teardown_builds_quiet _ _ He).
    rewrite Hth, tearing_down_app, (tearing_down_initial _ Hnew).
    unfold unspent. rewrite Hk. lia.
  - rewrite teardown_builds_app, teardown_builds_quiet.
    + rewrite Hth, tearing_down_app, (tearing_down_initial _ Hnew).
      unfold unspent. rewrite Hk. lia.
    + apply Forall_app. split; [exact He|]. repeat constructor.
Qed.

(** A calm segment that does not send its thread into
    [project_type.teardown_build] leaves the budget as it is. *)
Lemma calm_segment tid tk o s :
  threads (proc s) !! tid = Some (mkThread tk Running) ->
  calm (task_step tk o) ->
  in_teardown_build (mkThread tk Running) = false ->
  in_teardown_build (after tk (fst (fst (task_step tk o (proc s))))) = false ->
  teardown_budget (step_thread tid o s) = teardown_budget s.
Proof.
  intros Htid [Hk He] Hbefore Hafter. unfold step_thread, teardown_budget.
  rewrite Htid. specialize (Hk (proc s)). specialize (He (proc s)).
  destruct (spawns_task_step tk o (proc s)) as (new & Hth & Hnew & _).
  destruct (task_step tk o (proc s)) as [[r p'] evs]. simpl in *.
  assert (Hlook : threads p' !! tid = Some (mkThread tk Running)).
  { rewrite Hth. apply lookup_app_l_Some. exact Htid. }
  assert (Hgoal :
    (teardown_builds (trace s ++ tagged (Some tid) evs)
     + tearing_down (<[tid := after tk r]> (threads p')) + unspent (self p')
     = teardown_builds (trace s) + tearing_down (threads (proc s))
       + unspent (self (proc s)))%nat).
  { pose proof (tearing_down_insert _ _ _ (after tk r) Hlook) as Hins.
    rewrite Hbefore, Hafter in Hins.
    rewrite Hth, tearing_down_app, (tearing_down_initial _ Hnew) in Hins.
    rewrite teardown_builds_app, (teardown_builds_quiet _ _ He).
    unfold unspent. rewrite Hk, Hth. lia. }
  destruct r as [[tk'|]|e|]; simpl in *; try exact Hgoal. reflexivity.
Qed.

(** What a segment of any task but a teardown thread does to the budget. *)
Lemma after_keeps_kind tk o p :
  (forall pc, tk <> AsyncTeardownBuild pc) ->
  in_teardown_build (after tk (fst (fst (task_step tk o p)))) = false.
Proof.
  intros Hkind. pose proof (origin_after tk o p) as Hor.
  destruct (after tk (fst (fst (task_step tk o p)))) as [t' st'].
  simpl in Hor. unfold in_teardown_build. simpl.
  destruct t' as [| pc' | |]; try reflexivity.
  destruct tk as [| pc | |]; try discriminate.
  exfalso. eapply Hkind. reflexivity.
Qed.

(** The budget after a segment that starts no thread. *)
Lemma segment_budget tid tk o s r p' evs :
  threads (proc s) !! tid = Some (mkThread tk Running) ->
  task_step tk o (proc s) = (r, p', evs) ->
  r <> Blocks ->
  threads p' = threads (proc s) ->
  (teardown_budget (step_thread tid o s)
   + (if in_teardown_build (mkThread tk Running) then 1 else 0)
   = teardown_builds (trace s)
     + length (filter (fun ev => is_teardown_build ev = true) evs)
     + tearing_down (threads (proc s))
     + (if in_teardown_build (after tk r) then 1 else 0)
     + unspent (self p'))%nat.
Proof.
  intros Htid Hstep Hr Hth.
  change (step_thread tid o s) with (step (StepThread tid o) s).
  rewrite (step_thread_running _ _ _ _ _ _ _ Htid Hstep Hr).
  unfold teardown_budget. simpl.
  pose proof (tearing_down_insert _ _ _ (after tk r) Htid) as Hins.
  rewrite teardown_builds_app, teardown_builds_tagged, Hth. lia.
Qed.

(** The first segment of a teardown thread: the kills and the gate. *)
Lemma teardown_enter_unfold o p :
  task_step (AsyncTeardownBuild TdEnter) o p =
  match _build_teardown_coin (self p) with
  | None => (Value (Some (AsyncTeardownBuild TdWait)), p, kills (self p))
  | Some coin =>
      (Value (Some (AsyncTeardownBuild
                      match (if is_spent coin then None
                             else _project_type (self p)) with
                      | None => TdWait
                      | Some pt => TdInTeardownBuild pt None
                      end)),
       mkProcess (set_build_teardown_coin (Some (mkCoin true)) (self p))
         (threads p),
       kills (self p))
  end.
Proof.
  simpl. unfold fmap, Py_fmap, mbind, Py_bind.
  rewrite kill_all_unfold, teardown_gate_unfold.
  destruct (_build_teardown_coin (self p)) as [coin|]; simpl.
  - destruct (if is_spent coin then None else _project_type (self p));
      simpl; rewrite app_nil_r; reflexivity.
  - rewrite app_nil_r. reflexivity.
Qed.

(** The second segment of a teardown thread that went through the gate:
    [project_type.teardown_build] answers. *)
Lemma teardown_finish_segment pt timeout o p :
  task_step (AsyncTeardownBuild (TdInTeardownBuild pt timeout)) o p =
  match o with
  | Returned =>
      (Value (Some (AsyncTeardownBuild TdWait)),
       mkProcess (cleared (self p)) (threads p),
       [TeardownBuild pt timeout Returned])
  | Raised e => (Exception e, p, [TeardownBuild pt timeout (Raised e)])
  end.
Proof.
  simpl. unfold fmap, Py_fmap, mbind, Py_bind.
  rewrite teardown_finish_unfold. destruct o; reflexivity.
Qed.

Lemma teardown_budget_step a s :
  (teardown_budget (step a s) <= teardown_budget s + new_coins a)%nat.
Proof.
  destruct a as [url o0|b params idx|b sj cmds|b|o0|probe put|timeout o0|tid o0];
    simpl step; unfold new_coins; simpl is_setup_build_call.
  - rewrite calm_call; [lia|calm_bodies|apply spawns_connect_to_manager].
  - unfold call, teardown_budget. rewrite setup_build_unfold. simpl.
    destruct (full (_idle_executors (self (proc s)))); simpl.
    + rewrite teardown_builds_app, tearing_down_app.
      change (teardown_builds [(None, ThreadStart _ _)]) with 0%nat.
      change (tearing_down [mkThread (AsyncSetupBuild _ _ _ _) Running])
        with 0%nat.
      change (unspent (set_project_type _ _)) with 1%nat. lia.
    + rewrite teardown_builds_app.
      change (teardown_builds [(None, Raise _)]) with 0%nat.
      change (unspent (set_project_type _ _)) with 1%nat. lia.
  - rewrite calm_call; [lia|calm_bodies|apply spawns_start_working_on_subjob].
  - rewrite calm_call; [lia|calm_bodies|apply spawns_teardown_build].
  - rewrite calm_call; [lia|calm_bodies|apply spawns_run_heartbeat].
  - rewrite calm_call;
      [lia|calm_bodies|apply spawns_disconnect_from_manager].
  - unfold call, teardown_budget.
    rewrite do_build_teardown_and_reset_unfold. unfold unspent.
    destruct (_build_teardown_coin (self (proc s))) as [[[]]|] eqn:Hcoin;
      simpl.
    + rewrite teardown_builds_app, teardown_builds_tagged,
        no_teardown_build_in_kills. simpl. lia.
    + destruct (_project_type (self (proc s))) as [pt|]; [destruct o0|];
        simpl; rewrite teardown_builds_app, teardown_builds_tagged;
        rewrite ?filter_app, ?no_teardown_build_in_kills; simpl;
        rewrite ?filter_cons_True by reflexivity;
        rewrite ?filter_cons_False by (simpl; discriminate); simpl; lia.
    + rewrite Hcoin.
      rewrite teardown_builds_app, teardown_builds_tagged,
        no_teardown_build_in_kills. simpl. lia.
  - destruct (threads (proc s) !! tid) as [[tk st]|] eqn:Htid;
      [|unfold step_thread; rewrite Htid; lia].
    destruct st; [|unfold step_thread; rewrite Htid; lia ..].
    destruct tk as [executors params idx pc|pc|b sj cmds|b sj e cmds pc].
    + rewrite (calm_segment _ _ _ _ Htid);
        [lia|destruct pc; simpl; calm_bodies
        |reflexivity|apply after_keeps_kind; discriminate].
    + destruct pc as [|pt timeout| | |];
        try (rewrite (calm_segment _ _ _ _ Htid);
             [lia|simpl; calm_bodies|reflexivity|];
             simpl; unfold _is_manager_responsive,
               _notify_manager_of_state_change; py_unfold; simpl;
             try destruct (full (_idle_executors (self (proc s))));
             try destruct (_manager_api (self (proc s)));
             try destruct o0 as [|ex0];
             try destruct (is_transport_error ex0);
             reflexivity).
      * pose proof (teardown_enter_unfold o0 (proc s)) as Hstep.
        unfold teardown_budget at 2. unfold unspent.
        destruct (_build_teardown_coin (self (proc s))) as [[[]]|] eqn:Hcoin;
          simpl in Hstep;
          [| destruct (_project_type (self (proc s))) |];
          pose proof (segment_budget _ _ o0 _ _ _ _ Htid Hstep
                        ltac:(discriminate) eq_refl) as Hb;
          simpl in Hb; rewrite no_teardown_build_in_kills in Hb;
          unfold unspent in Hb; simpl in Hb; rewrite ?Hcoin in Hb;
          simpl in Hb |- *; lia.
      * pose proof (teardown_finish_segment pt timeout o0 (proc s)) as Hstep.
        destruct o0 as [|ex].
        -- pose proof (segment_budget _ _ _ _ _ _ _ Htid Hstep
                         ltac:(discriminate) eq_refl) as Hb.
           rewrite filter_cons_True in Hb by reflexivity.
           change (unspent (self (mkProcess (cleared (self (proc s))) _)))
             with (unspent (self (proc s))) in Hb.
           simpl in Hb. unfold teardown_budget at 2. lia.
        -- pose proof (segment_budget _ _ _ _ _ _ _ Htid Hstep
                         ltac:(discriminate) eq_refl) as Hb.
           rewrite filter_cons_True in Hb by reflexivity.
           simpl in Hb. unfold teardown_budget at 2. lia.
    + rewrite (calm_segment _ _ _ _ Htid);
        [lia|simpl; calm_bodies
        |reflexivity|apply after_keeps_kind; discriminate].
    + rewrite (calm_segment _ _ _ _ Htid);
        [lia|destruct pc; simpl; calm_bodies
        |reflexivity|apply after_keeps_kind; discriminate].
Qed.

Lemma setup_build_calls_cons a schedule :
  setup_build_calls (a :: schedule)
  = (new_coins a + setup_build_calls schedule)%nat.
Proof.
  unfold setup_build_calls, new_coins.
  destruct (is_setup_build_call a) eqn:Ha.
  - rewrite filter_cons_True by exact Ha. reflexivity.
  - rewrite filter_cons_False by congruence. reflexivity.
Qed.

Lemma teardown_budget_run schedule s :
  (teardown_budget (run schedule s)
   <= teardown_budget s + setup_build_calls schedule)%nat.
Proof.
  revert s. induction schedule as [|a schedule IH]; intros s; simpl.
  - unfold setup_build_calls. simpl. lia.
  - rewrite setup_build_calls_cons.
    pose proof (IH (step a s)). pose proof (teardown_budget_step a s). lia.
Qed.

(** X11: however calls and threads are interleaved,
    [project_type.teardown_build] is called at most once for every coin:
    along any schedule the number of its calls is at most the number of
    [setup_build] calls of the schedule, plus one if the worker started
    with an unspent coin.  On a worker built by the constructor, which has
    no coin, teardowns never outnumber setups, whether they come from
    teardown threads, from the shutdown hook or from both at once.  The
    count includes the teardowns still under way and the coin still
    unspent. *)
Theorem teardown_build_at_most_once_per_setup :
  (forall schedule s,
     (teardown_builds (trace (run schedule s))
      + tearing_down (threads (proc (run schedule s)))
      + unspent (self (proc (run schedule s)))
      <= teardown_builds (trace s) + tearing_down (threads (proc s))
         + unspent (self (proc s)) + setup_build_calls schedule)%nat)
  /\ (forall w schedule,
        (teardown_builds (trace (run schedule (boot w)))
         <= unspent w + setup_build_calls schedule)%nat)
  /\ (forall port host n threshold interval w schedule,
        ClusterWorker_init port host n threshold interval = Some w ->
        (teardown_builds (trace (run schedule (boot w)))
         <= setup_build_calls schedule)%nat).
Proof.
  split; [exact teardown_budget_run|].
  assert (Hboot : forall w schedule,
            (teardown_builds (trace (run schedule (boot w)))
             <= unspent w + setup_build_calls schedule)%nat).
  { intros w schedule. pose proof (teardown_budget_run schedule (boot w)) as H.
    unfold teardown_budget in H. simpl in H.
    change (teardown_builds []) with 0%nat in H.
    change (tearing_down []) with 0%nat in H. lia. }
  split; [exact Hboot|].
  intros port host n threshold interval w schedule Hw.
  specialize (Hboot w schedule). rewrite init_unfold in Hw.
  inversion Hw; subst. exact Hboot.
Qed.

(** ** The snapshot of a setup thread *)

Lemma starts_ret {A : Type} Q (a : A) : starts Q (mret a).
Proof. intros p. exists []. simpl. rewrite app_nil_r. auto. Qed.

Lemma starts_nothing {A : Type} Q (m : Py A) :
  (forall p, threads (snd (fst (m p))) = threads p) -> starts Q m.
Proof. intros Hm p. exists []. rewrite Hm, app_nil_r. auto. Qed.

Lemma starts_bind {A B : Type} Q (m : Py A) (k : A -> Py B) :
  starts Q m -> (forall a, starts Q (k a)) -> starts Q (m ≫= k).
Proof.
  intros Hm Hk p. unfold mbind, Py_bind.
  destruct (Hm p) as (new1 & Hth1 & Hnew1).
  destruct (m p) as [[[a| |] p1] ev1]; simpl in *; eauto.
  destruct (Hk a p1) as (new2 & Hth2 & Hnew2).
  destruct (k a p1) as [[r p2] ev2]. simpl in *.
  exists (new1 ++ new2). split.
  - rewrite Hth2, Hth1, app_assoc. reflexivity.
  - apply Forall_app. auto.
Qed.

Lemma starts_fmap {A B : Type} Q (g : A -> B) (m : Py A) :
  starts Q m -> starts Q (g <$> m).
Proof.
  intros Hm p. unfold fmap, Py_fmap. specialize (Hm p).
  destruct (m p) as [[[a| |] p1] ev1]; exact Hm.
Qed.

Lemma starts_thread_start (Q : task -> Prop) t :
  Q t -> starts Q (thread_start t).
Proof. intros Ht p. exists [mkThread t Running]. split; [reflexivity|]. auto. Qed.

Lemma starts_park (Q : task -> Prop) t : Q t -> starts Q (park t).
Proof. intros Ht p. exists [mkThread t Running]. split; [reflexivity|]. auto. Qed.

Lemma starts_idle_get Q : starts Q idle_get.
Proof.
  apply starts_nothing. intros p. unfold idle_get.
  destruct (Queue_get (_idle_executors (self p))) as [[x q]|]; reflexivity.
Qed.

Lemma starts_idle_put Q x : starts Q (idle_put x).
Proof.
  apply starts_nothing. intros p. unfold idle_put.
  destruct (Queue_put x (_idle_executors (self p))) as [q|]; reflexivity.
Qed.

Lemma starts_answer Q o : starts Q (answer o).
Proof. apply starts_nothing. intros p. destruct o; reflexivity. Qed.

Lemma starts_for_each {A : Type} Q (l : list A) (g : A -> Py unit) :
  (forall x, starts Q (g x)) -> starts Q (for_each l g).
Proof.
  intros Hg. induction l as [|x l IH]; simpl.
  - apply starts_ret.
  - apply starts_bind; auto.
Qed.

Lemma starts_try_except {A : Type} Q (m : Py A) handler :
  starts Q m ->
  (forall e h, handler e = Some h -> starts Q h) ->
  starts Q (try_except m handler).
Proof.
  intros Hm Hh p. unfold try_except.
  destruct (Hm p) as (new1 & Hth1 & Hnew1).
  destruct (m p) as [[[a|e|] p1] ev1]; simpl in *; eauto.
  destruct (handler e) as [h|] eqn:He; simpl; eauto.
  destruct (Hh e h He p1) as (new2 & Hth2 & Hnew2).
  destruct (h p1) as [[r p2] ev2]. simpl in *.
  exists (new1 ++ new2). split.
  - rewrite Hth2, Hth1, app_assoc. reflexivity.
  - apply Forall_app. auto.
Qed.

(** One rule at a time, by the shape of the body. *)
Ltac starts_rule :=
  lazymatch goal with
  | |- starts _ (mbind _ _) => apply starts_bind; [|intros ?]
  | |- starts _ (mret _) => apply starts_ret
  | |- starts _ (fmap _ _) => apply starts_fmap
  | |- starts _ get_self => apply starts_nothing; reflexivity
  | |- starts _ (update _) => apply starts_nothing; reflexivity
  | |- starts _ (raise _) => apply starts_nothing; reflexivity
  | |- starts _ (emit _) => apply starts_nothing; reflexivity
  | |- starts _ (answer _) => apply starts_answer
  | |- starts _ (thread_start _) => apply starts_thread_start; reflexivity
  | |- starts _ (park _) => apply starts_park; reflexivity
  | |- starts _ idle_get => apply starts_idle_get
  | |- starts _ (idle_put _) => apply starts_idle_put
  | |- starts _ (for_each _ _) => apply starts_for_each; intros ?
  | |- starts _ (try_except _ _) =>
      apply starts_try_except;
      [|let e := fresh "e" in
        let h := fresh "h" in
        let He := fresh "He" in
        intros e h He; cbv beta in He;
        destruct (is_transport_error e); [injection He as <-|discriminate He]]
  | |- starts _ (match ?x with _ => _ end) => destruct x
  end.

Ltac starts_bodies :=
  repeat first
    [ starts_rule
    | progress unfold connect_to_manager, setup_build,
        start_working_on_subjob, teardown_build, _run_heartbeat,
        _send_heartbeat_to_manager, kill, _disconnect_from_manager,
        _send_manager_idle_notification, _do_build_teardown_and_reset,
        kill_all, teardown_gate, teardown_finish, spend,
        _is_manager_responsive, _notify_manager_of_state_change,
        async_setup_build_step, after_setup_call, async_teardown_build_step,
        start_working_on_subjob_resume, execute_subjob_step ].

(** Only [setup_build] starts a setup thread. *)
Lemma starts_no_setup_call a s :
  (forall b params idx, a <> CallSetupBuild b params idx) ->
  (forall tid o, a <> StepThread tid o) ->
  exists m,
    starts (fun t => is_setup_task t = false) m /\ step a s = call m s.
Proof.
  intros Hsetup Hthread.
  destruct a; simpl;
    try (exfalso;
         first [eapply Hsetup; reflexivity|eapply Hthread; reflexivity]);
    eexists; (split; [|reflexivity]); starts_bodies.
Qed.

Lemma starts_no_setup_task_step t o :
  starts (fun t => is_setup_task t = false) (task_step t o).
Proof. destruct t; simpl; starts_bodies. Qed.

Lemma lookup_old_or_new {A : Type} (Q : A -> Prop) (l new : list A) i x :
  (l ++ new) !! i = Some x -> Forall Q new -> l !! i = Some x \/ Q x.
Proof.
  intros Hl Hnew. apply lookup_app_Some in Hl.
  destruct Hl as [Hl|[_ Hl]]; [left; exact Hl|right].
  rewrite Forall_forall in Hnew. apply Hnew.
  eapply list_elem_of_lookup_2. exact Hl.
Qed.

(** The snapshot of every setup thread of a worker built by the
    constructor is complete. *)
Lemma snapshots_complete_reachable port host n threshold interval w schedule :
  ClusterWorker_init port host n threshold interval = Some w ->
  snapshots_complete n (run schedule (boot w)).
Proof.
  intros Hw. induction schedule as [|a schedule IH] using rev_ind.
  - intros t executors params idx pc st Hl. simpl in Hl.
    rewrite lookup_nil in Hl. discriminate.
  - rewrite run_snoc. set (s := run schedule (boot w)) in *.
    intros t executors params idx pc st Hl.
    assert (Hnew : forall new,
               Forall (fun th => is_setup_task (body th) = false) new ->
               (threads (proc s) ++ new) !! t
               = Some (mkThread (AsyncSetupBuild executors params idx pc) st)
               -> Permutation executors (all_executors n)).
    { intros new Hnew Hlook.
      destruct (lookup_old_or_new _ _ _ _ _ Hlook Hnew) as [Hold|Hq];
        [exact (IH _ _ _ _ _ _ Hold)|discriminate Hq]. }
    destruct a as [url o0|b params' idx'|b sj cmds|b|o0|probe put|timeout o0
                  |tid o0].
    2: { (* setup_build: the snapshot is the full idle queue *)
      simpl in Hl. unfold call in Hl. rewrite setup_build_unfold in Hl.
      simpl in Hl.
      destruct (full (_idle_executors (self (proc s)))) eqn:Hfull;
        simpl in Hl; [|exact (IH _ _ _ _ _ _ Hl)].
      apply lookup_app_Some in Hl.
      destruct Hl as [Hl|[_ Hl]]; [exact (IH _ _ _ _ _ _ Hl)|].
      apply list_lookup_singleton_Some in Hl. destruct Hl as [_ Hl].
      inversion Hl; subst executors.
      pose proof (full_pool_nobody_holds _ _ _ _ _ _ schedule Hw Hfull)
        as Hheld.
      destruct (pool_inv_run w schedule _ (pool_inv_boot w)) as [_ Hperm].
      fold s in Hheld, Hperm. unfold pool_content in Hperm.
      destruct (init_queue _ _ _ _ _ _ Hw) as [Hq _].
      rewrite Hheld, app_nil_r, Hq in Hperm. exact Hperm. }
    7: { (* a segment keeps the snapshot of its thread *)
      simpl in Hl. unfold step_thread in Hl.
      destruct (threads (proc s) !! tid) as [[tk [| |e]]|] eqn:Htid;
        try exact (IH _ _ _ _ _ _ Hl).
      destruct (starts_no_setup_task_step tk o0 (proc s))
        as (new & Hth & Hnew').
      pose proof (origin_after tk o0 (proc s)) as Hor.
      destruct (task_step tk o0 (proc s)) as [[r p'] evs]. simpl in *.
      assert (Hcase :
        (<[tid := after tk r]> (threads p')) !! t
        = Some (mkThread (AsyncSetupBuild executors params idx pc) st) ->
        Permutation executors (all_executors n)).
      { intros Hlook. destruct (Nat.eq_dec t tid) as [->|Hne].
        - rewrite list_lookup_insert_eq in Hlook
            by (rewrite Hth, length_app;
                pose proof (lookup_lt_Some _ _ _ Htid); lia).
          inversion Hlook as [Hafter]. rewrite Hafter in Hor. simpl in Hor.
          destruct tk as [executors0 params0 idx0 pc0| | |];
            try discriminate.
          inversion Hor; subst. exact (IH _ _ _ _ _ _ Htid).
        - rewrite list_lookup_insert_ne in Hlook by congruence.
          rewrite Hth in Hlook. exact (Hnew _ Hnew' Hlook). }
      destruct r as [[tk'|]|e'|]; simpl in Hl;
        [exact (Hcase Hl) ..|exact (IH _ _ _ _ _ _ Hl)]. }
    all: match type of Hl with
         | threads (proc (step ?a ?s0)) !! _ = _ =>
             destruct (starts_no_setup_call a s0 ltac:(discriminate)
                         ltac:(discriminate)) as (m & Hm & Heq)
         end;
      rewrite Heq in Hl; unfold call in Hl;
      destruct (Hm (proc s)) as (new & Hth & Hnew');
      destruct (m (proc s)) as [[[x|e|] p'] evs]; simpl in *;
      [rewrite Hth in Hl; exact (Hnew _ Hnew' Hl)
      |rewrite Hth in Hl; exact (Hnew _ Hnew' Hl)
      |exact (IH _ _ _ _ _ _ Hl)].
Qed.

(** X12: on a worker built by the constructor and along any schedule, a
    SETUP_COMPLETED notification is sent only after the project was
    fetched, [configure_project_type] returned for every executor the
    worker has -- not just for those of some snapshot: the snapshot of a
    setup thread holds all of them -- and [run_job_config_setup]
    returned; these calls and the notification are the whole log of the
    thread that sent it. *)
Theorem setup_completed_after_every_executor_is_configured :
  forall port host n threshold interval w schedule t api wid o,
    ClusterWorker_init port host n threshold interval = Some w ->
    In (Some t, PutState api wid SETUP_COMPLETED o)
      (trace (run schedule (boot w))) ->
    exists executors params idx st pt pt',
      threads (proc (run schedule (boot w))) !! t
      = Some (mkThread
                (AsyncSetupBuild executors params idx
                   (SetupNotify SETUP_COMPLETED)) st)
      /\ Permutation executors (all_executors n)
      /\ log_of (Some t) (trace (run schedule (boot w)))
         = FetchProject pt Returned :: configured params executors
           ++ [RunJobConfigSetup pt' Returned;
               PutState api wid SETUP_COMPLETED o]
      /\ forall e,
           In e (all_executors n) ->
           In (ConfigureProjectType e params Returned)
             (log_of (Some t) (trace (run schedule (boot w)))).
Proof.
  intros port host n threshold interval w schedule t api wid o Hw Hin.
  pose proof (invariant_reachable schedule w) as Hinv.
  pose proof (inv_tags _ Hinv _ _ Hin) as Hlt.
  destruct (lookup_lt_is_Some_2 _ _ Hlt) as [[tk st] Hth].
  pose proof (inv_logs _ Hinv _ _ Hth) as Hlog.
  apply in_log_of in Hin. unfold thread_inv in Hlog. simpl in Hlog.
  destruct tk as [executors params idx pc|pc|b sj cmds|b sj e cmds pc].
  - destruct (setup_inv_notification _ _ _ _ _ _ _ _ _ Hlog Hin)
      as (l & -> & Hl & Heq).
    simpl in Hl. destruct Hl as (pt & pt' & ->).
    pose proof (snapshots_complete_reachable _ _ _ _ _ _ schedule Hw
                  _ _ _ _ _ _ Hth) as Hperm.
    exists executors, params, idx, st, pt, pt'.
    split; [exact Hth|]. split; [exact Hperm|]. split.
    + rewrite Heq. simpl. rewrite <- app_assoc. reflexivity.
    + intros e He. rewrite Heq. right. apply in_app_iff. left.
      apply in_app_iff. left. unfold configured. apply in_map_iff.
      exists e. split; [reflexivity|].
      eapply Permutation_in; [symmetry; exact Hperm|exact He].
  - destruct (teardown_inv_notification _ _ _ _ _ _ _ Hlog Hin)
      as (Hst & _). discriminate.
  - exfalso. destruct st as [| |ex]; simpl in Hlog.
    + rewrite Hlog in Hin. destruct Hin.
    + destruct Hlog as (e & c & Hlog). rewrite Hlog in Hin.
      destruct Hin as [?|[?|[?|[]]]]; discriminate.
    + exact Hlog.
  - exfalso. destruct Hlog as [Hq _].
    exact (not_in_quiet is_put_state _
             (PutState api wid SETUP_COMPLETED o) Hq eq_refl Hin).
Qed.

(** Witness of [setup_completed_after_every_executor_is_configured]: the
    two-executor worker registers, build 42 is set up and its setup thread
    runs to its end; both executors were configured before the
    notification. *)
Lemma setup_completed_after_every_executor_is_configured_witness :
  ClusterWorker_init 43001 "host" 2 3 5 = Some new_worker
  /\ In (Some 0%nat,
         PutState (mkUrlBuilder "localhost:43000") (Some 7) SETUP_COMPLETED
           Returned)
       (trace (run [CallConnectToManager None (PostReturned (Some 7));
                    CallSetupBuild 42 [] 0;
                    StepThread 0 Returned; StepThread 0 Returned;
                    StepThread 0 Returned; StepThread 0 Returned;
                    StepThread 0 Returned]
                 (boot new_worker)))
  /\ exists executors params idx st pt pt',
       threads (proc (run [CallConnectToManager None (PostReturned (Some 7));
                           CallSetupBuild 42 [] 0;
                           StepThread 0 Returned; StepThread 0 Returned;
                           StepThread 0 Returned; StepThread 0 Returned;
                           StepThread 0 Returned]
                        (boot new_worker))) !! 0%nat
       = Some (mkThread
                 (AsyncSetupBuild executors params idx
                    (SetupNotify SETUP_COMPLETED)) st)
       /\ Permutation executors (all_executors 2)
       /\ log_of (Some 0%nat)
            (trace (run [CallConnectToManager None (PostReturned (Some 7));
                         CallSetupBuild 42 [] 0;
                         StepThread 0 Returned; StepThread 0 Returned;
                         StepThread 0 Returned; StepThread 0 Returned;
                         StepThread 0 Returned]
                      (boot new_worker)))
          = FetchProject pt Returned :: configured params executors
            ++ [RunJobConfigSetup pt' Returned;
                PutState (mkUrlBuilder "localhost:43000") (Some 7)
                  SETUP_COMPLETED Returned].
Proof.
  assert (Hw : ClusterWorker_init 43001 "host" 2 3 5 = Some new_worker)
    by (vm_compute; reflexivity).
  assert (Hin :
    In (Some 0%nat,
        PutState (mkUrlBuilder "localhost:43000") (Some 7) SETUP_COMPLETED
          Returned)
      (trace (run [CallConnectToManager None (PostReturned (Some 7));
                   CallSetupBuild 42 [] 0;
                   StepThread 0 Returned; StepThread 0 Returned;
                   StepThread 0 Returned; StepThread 0 Returned;
                   StepThread 0 Returned]
                (boot new_worker)))).
  { vm_compute. do 30 (try (left; reflexivity); right). }
  split; [exact Hw|]. split; [exact Hin|].
  destruct (setup_completed_after_every_executor_is_configured
              _ _ _ _ _ _ _ _ _ _ _ Hw Hin)
    as (executors & params & idx & st & pt & pt' & Hth & Hperm & Hlog & _).
  exists executors, params, idx, st, pt, pt'. auto.
Defined.

(** ** The idle notification *)

(** X13: [_send_manager_idle_notification] probes the manager once and
    sends IDLE, under the current worker id, only when the probe returned;
    when the probe raises a connection or timeout error it returns
    normally without notifying, any other exception of the probe
    propagates, and so does an exception of the notification.  It changes
    nothing in the worker and starts no thread. *)
Theorem send_manager_idle_notification_needs_a_responsive_manager :
  forall probe put p,
    let r := fst (fst (_send_manager_idle_notification probe put p)) in
    let evs := snd (_send_manager_idle_notification probe put p) in
    snd (fst (_send_manager_idle_notification probe put p)) = p
    /\ (forall api wid st o,
          In (PutState api wid st o) evs -> probe = Returned /\ st = IDLE)
    /\ match _manager_api (self p) with
       | None => r = Exception AttributeError /\ evs = []
       | Some api =>
           match probe with
           | Returned =>
               evs = [GetManager api Returned;
                      PutState api (_worker_id (self p)) IDLE put]
               /\ r = match put with
                      | Returned => Value tt
                      | Raised e => Exception e
                      end
           | Raised e =>
               evs = [GetManager api (Raised e)]
               /\ r = if is_transport_error e then Value tt else Exception e
           end
       end.
Proof.
  intros probe put p. simpl.
  unfold _send_manager_idle_notification, _is_manager_responsive,
    _notify_manager_of_state_change.
  py_unfold. simpl.
  destruct (_manager_api (self p)) as [api|] eqn:Hapi; simpl;
    [|repeat split; auto; contradiction].
  destruct probe as [|e]; simpl.
  - rewrite Hapi.
    destruct put; simpl; destruct p; repeat split; auto;
      destruct H as [H|[H|[]]]; try discriminate; inversion H; reflexivity.
  - destruct (is_transport_error e); simpl; repeat split; auto;
      destruct H as [H|[]]; discriminate.
Qed.

(** ** Attributes and who writes them *)

(** A segment of a thread keeps an attribute that every task keeps. *)
Lemma field_step_thread {X : Type} (f : ClusterWorker -> X) tid o s :
  (forall t, keeps f (task_step t o)) ->
  f (self (proc (step_thread tid o s))) = f (self (proc s)).
Proof.
  intros Hk. unfold step_thread.
  destruct (threads (proc s) !! tid) as [[t [| |e]]|]; try reflexivity.
  specialize (Hk t (proc s)).
  destruct (task_step t o (proc s)) as [[[a|e|] p1] ev1]; simpl in *; auto.
Qed.

(** An attribute kept by the bodies of all the methods an action may run
    is kept by the action. *)
Ltac field_of_step :=
  first
    [ apply keeps_call; field_bodies
    | apply field_step_thread;
      let t := fresh "t" in
      intros t; destruct t; simpl; field_bodies ].

Lemma disconnect_marks probe put p :
  is_alive (self (snd (fst (_disconnect_from_manager probe put p)))) = false.
Proof.
  unfold _disconnect_from_manager, _is_manager_responsive,
    _notify_manager_of_state_change.
  py_unfold. simpl.
  destruct (_manager_api (self p)) as [api|] eqn:Hapi; simpl;
    [|reflexivity].
  destruct probe as [|e]; simpl.
  - rewrite Hapi. destruct put; reflexivity.
  - destruct (is_transport_error e); reflexivity.
Qed.

Lemma is_alive_step a s :
  is_alive (self (proc (step a s))) = liveness a (is_alive (self (proc s))).
Proof.
  destruct a as [url o| | | | |probe put| |]; simpl step; simpl liveness;
    try field_of_step.
  - unfold call. rewrite connect_to_manager_unfold.
    destruct o as [[n|]|e]; reflexivity.
  - unfold call. pose proof (disconnect_marks probe put (proc s)) as Hd.
    destruct (_disconnect_from_manager probe put (proc s))
      as [[[x|e|] p'] evs] eqn:Hcall; simpl in *; try exact Hd.
    exfalso. revert Hcall.
    unfold _disconnect_from_manager, _is_manager_responsive,
      _notify_manager_of_state_change.
    py_unfold. simpl.
    destruct (_manager_api (self (proc s))) as [api|] eqn:Hapi; simpl;
      [|discriminate].
    destruct probe as [|e]; simpl.
    + rewrite Hapi. destruct put; discriminate.
    + destruct (is_transport_error e); discriminate.
Qed.

(** X14: [is_alive] is true after construction and is written by two
    methods only: [connect_to_manager] sets it to true and
    [_disconnect_from_manager] to false, each before anything else and
    whatever the manager answers.  No other operation and no thread
    writes it -- not even the heartbeat that gives up and calls [kill] --
    so that after any schedule it tells which of the two was called last. *)
Theorem is_alive_follows_connect_and_disconnect :
  (forall port host n threshold interval w,
     ClusterWorker_init port host n threshold interval = Some w ->
     is_alive w = true)
  /\ (forall a s,
        is_alive (self (proc (step a s)))
        = liveness a (is_alive (self (proc s))))
  /\ (forall schedule s,
        is_alive (self (proc (run schedule s)))
        = fold_left (fun alive a => liveness a alive) schedule
            (is_alive (self (proc s))))
  /\ (forall o s,
        is_alive (self (proc (step (CallRunHeartbeat o) s)))
        = is_alive (self (proc s))).
Proof.
  split; [|split; [exact is_alive_step|split]].
  - intros port host n threshold interval w Hw. rewrite init_unfold in Hw.
    inversion Hw. reflexivity.
  - induction schedule as [|a schedule IH]; intros s; [reflexivity|].
    simpl. rewrite IH, is_alive_step. reflexivity.
  - intros o s. exact (is_alive_step (CallRunHeartbeat o) s).
Qed.

Lemma settings_step a s :
  settings (self (proc (step a s))) = settings (self (proc s)).
Proof. destruct a; simpl step; field_of_step. Qed.

Lemma heartbeat_failure_count_step a s :
  (forall o, a <> CallRunHeartbeat o) ->
  _heartbeat_failure_count (self (proc (step a s)))
  = _heartbeat_failure_count (self (proc s)).
Proof.
  intros Hnot. destruct a; simpl step;
    try (exfalso; eapply Hnot; reflexivity); field_of_step.
Qed.

(** X15: the port, the host, the number of executors, the heartbeat
    failure threshold and the heartbeat interval are fixed at
    construction: no operation and no thread changes them.  The heartbeat
    failure counter is written by the heartbeat tick only: registering,
    setup, subjobs, teardown, disconnect and the threads leave it as it
    is, so interleaving them with the ticks does not disturb the count of
    failures in a row. *)
Theorem settings_are_fixed_and_only_the_heartbeat_counts :
  (forall schedule s,
     settings (self (proc (run schedule s))) = settings (self (proc s)))
  /\ (forall port host n threshold interval w schedule,
        ClusterWorker_init port host n threshold interval = Some w ->
        settings (self (proc (run schedule (boot w))))
        = (port, host, n, threshold, interval))
  /\ (forall schedule s,
        Forall (fun a => forall o, a <> CallRunHeartbeat o) schedule ->
        _heartbeat_failure_count (self (proc (run schedule s)))
        = _heartbeat_failure_count (self (proc s))).
Proof.
  assert (Hrun : forall schedule s,
            settings (self (proc (run schedule s)))
            = settings (self (proc s))).
  { induction schedule as [|a schedule IH]; intros s; [reflexivity|].
    simpl. rewrite IH. apply settings_step. }
  split; [exact Hrun|split].
  - intros port host n threshold interval w schedule Hw. rewrite Hrun.
    rewrite init_unfold in Hw. inversion Hw. reflexivity.
  - induction schedule as [|a schedule IH]; intros s Hall; [reflexivity|].
    apply Forall_cons in Hall. destruct Hall as [Ha Hall].
    simpl. rewrite (IH _ Hall). apply heartbeat_failure_count_step, Ha.
Qed.

(** ** A teardown that overlaps the next setup *)

(** X16: [setup_build] does not wait for a teardown under way.  When it is
    called while a teardown thread is inside
    [project_type.teardown_build] for the previous build, the thread, once
    that call returns, clears the build id and the project type that
    [setup_build] has just assigned: the old project type is the one torn
    down, the worker has no current build although the new coin is
    unspent, subjob and teardown requests for the new build are rejected
    with BadRequestError, and the next [_do_build_teardown_and_reset]
    spends the new coin without calling [teardown_build]: the project type
    of the new build is never torn down. *)
Theorem teardown_overlapping_setup_clears_the_new_build :
  forall s tid pt timeout b params idx,
    threads (proc s) !! tid
    = Some (mkThread (AsyncTeardownBuild (TdInTeardownBuild pt timeout))
              Running) ->
    let s' := run [CallSetupBuild b params idx; StepThread tid Returned] s in
    _current_build_id (self (proc s')) = None
    /\ _project_type (self (proc s')) = None
    /\ _build_teardown_coin (self (proc s')) = Some SingleUseCoin_new
    /\ log_of (Some tid) (trace s')
       = log_of (Some tid) (trace s) ++ [TeardownBuild pt timeout Returned]
    /\ (forall sj cmds,
          start_working_on_subjob b sj cmds (proc s')
          = (Exception BadRequestError, proc s', []))
    /\ (forall b',
          teardown_build b' (proc s')
          = (Exception BadRequestError, proc s', []))
    /\ (forall timeout' o,
          _do_build_teardown_and_reset timeout' o (proc s')
          = (Value tt,
             mkProcess (set_build_teardown_coin (Some (mkCoin true))
                          (self (proc s'))) (threads (proc s')),
             kills (self (proc s)))).
Proof.
  intros s tid pt timeout b params idx Htid s'.
  set (s1 := step (CallSetupBuild b params idx) s).
  assert (H1 : threads (proc s1) !! tid
               = Some (mkThread
                         (AsyncTeardownBuild (TdInTeardownBuild pt timeout))
                         Running)
               /\ self (proc s1)
                  = set_project_type (Some (create_project_type params))
                      (set_build_teardown_coin (Some SingleUseCoin_new)
                         (set_current_build_id (Some b) (self (proc s))))
               /\ log_of (Some tid) (trace s1) = log_of (Some tid) (trace s)).
  { unfold s1. simpl. unfold call. rewrite setup_build_unfold. simpl.
    destruct (full (_idle_executors (self (proc s)))); simpl.
    - split; [apply lookup_app_l_Some; exact Htid|]. split; [reflexivity|].
      rewrite log_of_app. apply app_nil_r.
    - split; [exact Htid|]. split; [reflexivity|].
      rewrite log_of_app. apply app_nil_r. }
  destruct H1 as (Hth1 & Hself1 & Hlog1).
  assert (Hs' : s'
                = mkSystem
                    (mkProcess (cleared (self (proc s1)))
                       (<[tid := mkThread (AsyncTeardownBuild TdWait) Running]>
                          (threads (proc s1))))
                    (trace s1
                     ++ tagged (Some tid) [TeardownBuild pt timeout Returned])).
  { unfold s'. simpl. fold s1.
    apply (step_thread_running s1 tid _ Returned _ _ _ Hth1
             (teardown_finish_segment pt timeout Returned (proc s1))).
    discriminate. }
  rewrite Hs'. simpl. rewrite Hself1. simpl.
  split; [reflexivity|]. split; [reflexivity|]. split; [reflexivity|].
  split; [|split; [|split]].
  - rewrite (log_of_snoc (Some tid)), Hlog1. reflexivity.
  - intros sj cmds. unfold start_working_on_subjob. py_unfold. reflexivity.
  - intros b'. rewrite teardown_build_unfold. reflexivity.
  - intros timeout' o. rewrite do_build_teardown_and_reset_unfold.
    reflexivity.
Qed.

(** Witness of [teardown_overlapping_setup_clears_the_new_build]: build 42
    is being torn down by thread 1 of the two-executor worker when build 43
    is set up; once the teardown returns the worker has no current build. *)
Lemma teardown_overlapping_setup_clears_the_new_build_witness :
  threads (proc (run [CallConnectToManager None (PostReturned (Some 7));
                      CallSetupBuild 42 [] 0; CallTeardownBuild (Some 42);
                      StepThread 1 Returned]
                   (boot new_worker))) !! 1%nat
  = Some (mkThread
            (AsyncTeardownBuild (TdInTeardownBuild (create_project_type [])
                                   None)) Running)
  /\ _current_build_id
       (self (proc (run [CallSetupBuild 43 [] 0; StepThread 1 Returned]
                      (run [CallConnectToManager None (PostReturned (Some 7));
                            CallSetupBuild 42 [] 0;
                            CallTeardownBuild (Some 42);
                            StepThread 1 Returned]
                         (boot new_worker))))) = None.
Proof.
  assert (Hth : threads
                  (proc (run [CallConnectToManager None
                                (PostReturned (Some 7));
                              CallSetupBuild 42 [] 0;
                              CallTeardownBuild (Some 42);
                              StepThread 1 Returned]
                           (boot new_worker))) !! 1%nat
                = Some (mkThread
                          (AsyncTeardownBuild
                             (TdInTeardownBuild (create_project_type []) None))
                          Running))
    by (vm_compute; reflexivity).
  split; [exact Hth|].
  exact (proj1 (teardown_overlapping_setup_clears_the_new_build
                  _ _ _ _ 43 [] 0 Hth)).
Defined.

(** ** Subjobs do not wait for the setup *)

Lemma base_executor_index_call a s :
  (forall tid o, a <> StepThread tid o) ->
  (forall timeout o, a <> CallDoBuildTeardownAndReset timeout o) ->
  _base_executor_index (self (proc (step a s)))
  = _base_executor_index (self (proc s)).
Proof.
  intros Hthread Hteardown. destruct a; simpl step;
    try (exfalso;
         first [eapply Hthread; reflexivity|eapply Hteardown; reflexivity]);
    field_of_step.
Qed.

(** X17: [setup_build] itself does not assign the base executor index --
    no method called from outside does, and only a teardown clears it --:
    the setup thread assigns it in its first statement, before
    [fetch_project].  Nothing makes a subjob wait for that thread: the
    first segment of a subjob thread calls [execute_subjob] in whatever
    state the setup thread is, with the base executor index the worker
    holds at that moment, which is the previous build's index, or None,
    when the setup thread has not run yet. *)
Theorem subjob_reads_the_base_executor_index_it_finds :
  (forall a s,
     (forall tid o, a <> StepThread tid o) ->
     (forall timeout o, a <> CallDoBuildTeardownAndReset timeout o) ->
     _base_executor_index (self (proc (step a s)))
     = _base_executor_index (self (proc s)))
  /\ (forall s t executors params idx o,
        threads (proc s) !! t
        = Some (mkThread (AsyncSetupBuild executors params idx SetupFetch)
                  Running) ->
        _base_executor_index (self (proc (step (StepThread t o) s)))
        = Some idx)
  /\ (forall s c b sj e cmds o,
        threads (proc s) !! c
        = Some (mkThread (ExecuteSubjob b sj e cmds SjExecute) Running) ->
        log_of (Some c) (trace (step (StepThread c o) s))
        = log_of (Some c) (trace s)
          ++ [AnalyticsRecord SUBJOB_EXECUTION_START b sj (SubjobExecutor.id e);
              ExecutorExecuteSubjob e b sj cmds
                (_base_executor_index (self (proc s))) o]
        /\ threads (proc (step (StepThread c o) s)) !! c
           = Some (match o with
                   | Returned =>
                       mkThread (ExecuteSubjob b sj e cmds SjOpen) Running
                   | Raised ex =>
                       mkThread (ExecuteSubjob b sj e cmds SjExecute)
                         (Crashed ex)
                   end)).
Proof.
  split; [exact base_executor_index_call|split].
  - intros s t executors params idx o Ht. simpl. unfold step_thread.
    rewrite Ht. simpl. py_unfold. simpl.
    destruct (_project_type (self (proc s))) as [pt|]; simpl;
      [|reflexivity].
    destruct o as [|[]]; reflexivity.
  - intros s c b sj e cmds o Hc.
    pose proof (lookup_lt_Some _ _ _ Hc) as Hlt.
    simpl. unfold step_thread. rewrite Hc. simpl. py_unfold. simpl.
    destruct o as [|ex]; simpl;
      (split; [exact (log_of_app_tagged (Some c) _ [_; _])
              |apply list_lookup_insert_eq; exact Hlt]).
Qed.

(** ** A teardown thread from start to end *)

(** A segment that starts no thread. *)
Lemma quiet_segment s c tk o r p' evs :
  threads (proc s) !! c = Some (mkThread tk Running) ->
  task_step tk o (proc s) = (r, p', evs) ->
  r <> Blocks ->
  threads p' = threads (proc s) ->
  self (proc (step (StepThread c o) s)) = self p'
  /\ threads (proc (step (StepThread c o) s)) !! c = Some (after tk r)
  /\ log_of (Some c) (trace (step (StepThread c o) s))
     = log_of (Some c) (trace s) ++ evs.
Proof.
  intros Hc Hstep Hr Hth. pose proof (lookup_lt_Some _ _ _ Hc) as Hlt.
  rewrite (step_thread_running _ _ _ _ _ _ _ Hc Hstep Hr). simpl.
  split; [reflexivity|]. split.
  - apply list_lookup_insert_eq. rewrite Hth. exact Hlt.
  - apply log_of_app_tagged.
Qed.

(** A thread that is not running ignores its turns. *)
Lemma idle_turns s c th o n :
  threads (proc s) !! c = Some th -> state th <> Running ->
  run (repeat (StepThread c o) n) s = s.
Proof.
  intros Hc Hst. induction n as [|n IH]; [reflexivity|].
  simpl. unfold step_thread. rewrite Hc.
  destruct th as [tk [| |e]]; simpl in *; [congruence|exact IH ..].
Qed.

(** From the polling loop to the notification, on a full pool and with a
    responsive manager. *)
Lemma teardown_wait_to_idle s t api :
  threads (proc s) !! t = Some (mkThread (AsyncTeardownBuild TdWait) Running) ->
  _manager_api (self (proc s)) = Some api ->
  full (_idle_executors (self (proc s))) = true ->
  let s' := run (repeat (StepThread t Returned) 3) s in
  self (proc s') = self (proc s)
  /\ threads (proc s') !! t
     = Some (mkThread (AsyncTeardownBuild TdNotify) Finished)
  /\ log_of (Some t) (trace s')
     = log_of (Some t) (trace s)
       ++ [QueueFull true; GetManager api Returned;
           PutState api (_worker_id (self (proc s))) IDLE Returned].
Proof.
  intros Ht Hapi Hfull. simpl.
  set (s1 := step_thread t Returned s).
  destruct (quiet_segment s t _ Returned
              (Value (Some (AsyncTeardownBuild TdProbe)))
              (proc s) [QueueFull true] Ht)
    as (Hw1 & Ht1 & Hlog1).
  { simpl. py_unfold. simpl. rewrite Hfull. reflexivity. }
  { discriminate. }
  { reflexivity. }
  simpl in Hw1, Ht1, Hlog1. fold s1 in Hw1, Ht1, Hlog1.
  set (s2 := step_thread t Returned s1).
  destruct (quiet_segment s1 t _ Returned
              (Value (Some (AsyncTeardownBuild TdNotify)))
              (proc s1) [GetManager api Returned] Ht1)
    as (Hw2 & Ht2 & Hlog2).
  { simpl. unfold _is_manager_responsive. py_unfold. simpl.
    rewrite Hw1, Hapi. reflexivity. }
  { discriminate. }
  { reflexivity. }
  simpl in Hw2, Ht2, Hlog2. fold s2 in Hw2, Ht2, Hlog2.
  destruct (quiet_segment s2 t _ Returned (Value None) (proc s2)
              [PutState api (_worker_id (self (proc s))) IDLE Returned] Ht2)
    as (Hw3 & Ht3 & Hlog3).
  { simpl. unfold _notify_manager_of_state_change. py_unfold. simpl.
    rewrite Hw2, Hw1, Hapi. reflexivity. }
  { discriminate. }
  { reflexivity. }
  simpl in Hw3, Ht3, Hlog3.
  split; [congruence|]. split; [exact Ht3|].
  rewrite Hlog3, Hlog2, Hlog1, <- !app_assoc. reflexivity.
Qed.

Lemma teardown_wait_to_idle_and_on s t api n :
  threads (proc s) !! t = Some (mkThread (AsyncTeardownBuild TdWait) Running) ->
  _manager_api (self (proc s)) = Some api ->
  full (_idle_executors (self (proc s))) = true ->
  let s' := run (repeat (StepThread t Returned) (3 + n)) s in
  self (proc s') = self (proc s)
  /\ threads (proc s') !! t
     = Some (mkThread (AsyncTeardownBuild TdNotify) Finished)
  /\ log_of (Some t) (trace s')
     = log_of (Some t) (trace s)
       ++ [QueueFull true; GetManager api Returned;
           PutState api (_worker_id (self (proc s))) IDLE Returned].
Proof.
  intros Ht Hapi Hfull.
  destruct (teardown_wait_to_idle s t api Ht Hapi Hfull) as (Hw & Ht' & Hlog).
  rewrite repeat_app, run_app.
  rewrite (idle_turns _ t _ Returned n Ht') by discriminate.
  auto.
Qed.

(** X18: a teardown thread of a connected worker whose pool is full and
    whose calls return runs to its end in at most five segments, whatever
    the other threads are: it kills every executor, calls
    [project_type.teardown_build] (without a timeout) if the coin was
    unspent and a project type is set, finds the pool full on its first
    poll, probes the manager and sends IDLE under the current worker id as
    its last event.  Afterwards the coin cannot be spent again; if the
    thread made the teardown call, build id, project type and base executor
    index are None, and otherwise the worker's attributes other than the
    coin are as they were. *)
Theorem teardown_thread_runs_to_idle :
  forall s t api,
    threads (proc s) !! t
    = Some (mkThread (AsyncTeardownBuild TdEnter) Running) ->
    _manager_api (self (proc s)) = Some api ->
    full (_idle_executors (self (proc s))) = true ->
    let w := self (proc s) in
    let s' := run (repeat (StepThread t Returned) 5) s in
    threads (proc s') !! t
    = Some (mkThread (AsyncTeardownBuild TdNotify) Finished)
    /\ log_of (Some t) (trace s')
       = log_of (Some t) (trace s) ++ kills w ++ teardown_of w
         ++ [QueueFull true; GetManager api Returned;
             PutState api (_worker_id w) IDLE Returned]
    /\ coin_used (proc s')
    /\ self (proc s')
       = match _build_teardown_coin w with
         | None => w
         | Some _ =>
             let w1 := set_build_teardown_coin (Some (mkCoin true)) w in
             match torn_down w with
             | Some _ => cleared w1
             | None => w1
             end
         end.
Proof.
  intros s t api Ht Hapi Hfull w s'.
  pose proof (teardown_enter_unfold Returned (proc s)) as E0.
  fold w in E0. unfold teardown_of, torn_down, coin_used.
  assert (Hwait : forall s1 n,
            threads (proc s1) !! t
            = Some (mkThread (AsyncTeardownBuild TdWait) Running) ->
            _manager_api (self (proc s1)) = _manager_api w ->
            _idle_executors (self (proc s1)) = _idle_executors w ->
            let s2 := run (repeat (StepThread t Returned) (3 + n)) s1 in
            self (proc s2) = self (proc s1)
            /\ threads (proc s2) !! t
               = Some (mkThread (AsyncTeardownBuild TdNotify) Finished)
            /\ log_of (Some t) (trace s2)
               = log_of (Some t) (trace s1)
                 ++ [QueueFull true; GetManager api Returned;
                     PutState api (_worker_id (self (proc s1))) IDLE
                       Returned]).
  { intros s1 n Ht1 Hapi1 Hq1.
    apply teardown_wait_to_idle_and_on;
      [exact Ht1|rewrite Hapi1; exact Hapi|rewrite Hq1; exact Hfull]. }
  destruct (_build_teardown_coin w) as [coin|] eqn:Hcoin.
  - destruct (if is_spent coin then None else _project_type w)
      as [pt|] eqn:Hgate.
    + (* through the gate: five segments *)
      destruct (quiet_segment s t _ Returned _ _ _ Ht E0
                  ltac:(discriminate) eq_refl) as (Hw1 & Ht1 & Hlog1).
      simpl in Hw1, Ht1, Hlog1.
      set (s1 := step_thread t Returned s) in *.
      destruct (quiet_segment s1 t _ Returned _ _ _ Ht1
                  (teardown_finish_segment pt None Returned (proc s1))
                  ltac:(discriminate) eq_refl) as (Hw2 & Ht2 & Hlog2).
      simpl in Hw2, Ht2, Hlog2.
      set (s2 := step_thread t Returned s1) in *.
      destruct (Hwait s2 0%nat Ht2) as (Hw3 & Ht3 & Hlog3).
      { rewrite Hw2, Hw1. reflexivity. }
      { rewrite Hw2, Hw1. reflexivity. }
      change (run (repeat (StepThread t Returned) (3 + 0)) s2) with s'
        in Hw3, Ht3, Hlog3.
      split; [exact Ht3|]. split; [|split].
      * rewrite Hlog3, Hlog2, Hlog1, Hw2, Hw1, <- !app_assoc. reflexivity.
      * right. rewrite Hw3, Hw2, Hw1. reflexivity.
      * rewrite Hw3, Hw2, Hw1. reflexivity.
    + (* stopped at the gate: four segments *)
      destruct (quiet_segment s t _ Returned _ _ _ Ht E0
                  ltac:(discriminate) eq_refl) as (Hw1 & Ht1 & Hlog1).
      simpl in Hw1, Ht1, Hlog1.
      set (s1 := step_thread t Returned s) in *.
      destruct (Hwait s1 1%nat Ht1) as (Hw3 & Ht3 & Hlog3).
      { rewrite Hw1. reflexivity. }
      { rewrite Hw1. reflexivity. }
      change (run (repeat (StepThread t Returned) (3 + 1)) s1) with s'
        in Hw3, Ht3, Hlog3.
      split; [exact Ht3|]. split; [|split].
      * rewrite Hlog3, Hlog1, Hw1, <- !app_assoc. reflexivity.
      * right. rewrite Hw3, Hw1. reflexivity.
      * rewrite Hw3, Hw1. reflexivity.
  - (* no coin: four segments *)
    destruct (quiet_segment s t _ Returned _ _ _ Ht E0
                ltac:(discriminate) eq_refl) as (Hw1 & Ht1 & Hlog1).
    simpl in Hw1, Ht1, Hlog1.
    set (s1 := step_thread t Returned s) in *.
    destruct (Hwait s1 1%nat Ht1) as (Hw3 & Ht3 & Hlog3).
    { rewrite Hw1. reflexivity. }
    { rewrite Hw1. reflexivity. }
    change (run (repeat (StepThread t Returned) (3 + 1)) s1) with s'
      in Hw3, Ht3, Hlog3.
    split; [exact Ht3|]. split; [|split].
    * rewrite Hlog3, Hlog1, Hw1, <- !app_assoc. reflexivity.
    * left. rewrite Hw3, Hw1. exact Hcoin.
    * rewrite Hw3, Hw1. reflexivity.
Qed.

(** Witness of [teardown_thread_runs_to_idle]: the two-executor worker
    registers, build 42 is set up and torn down; the teardown thread runs
    to its end. *)
Lemma teardown_thread_runs_to_idle_witness :
  threads (proc (run [CallConnectToManager None (PostReturned (Some 7));
                      CallSetupBuild 42 [] 0; CallTeardownBuild (Some 42)]
                   (boot new_worker))) !! 1%nat
  = Some (mkThread (AsyncTeardownBuild TdEnter) Running)
  /\ _manager_api
       (self (proc (run [CallConnectToManager None (PostReturned (Some 7));
                         CallSetupBuild 42 [] 0; CallTeardownBuild (Some 42)]
                      (boot new_worker))))
     = Some (mkUrlBuilder "localhost:43000")
  /\ full (_idle_executors
             (self (proc (run [CallConnectToManager None
                                 (PostReturned (Some 7));
                               CallSetupBuild 42 [] 0;
                               CallTeardownBuild (Some 42)]
                            (boot new_worker))))) = true
  /\ threads
       (proc (run (repeat (StepThread 1 Returned) 5)
                (run [CallConnectToManager None (PostReturned (Some 7));
                      CallSetupBuild 42 [] 0; CallTeardownBuild (Some 42)]
                   (boot new_worker)))) !! 1%nat
     = Some (mkThread (AsyncTeardownBuild TdNotify) Finished).
Proof.
  assert (Ht : threads
                 (proc (run [CallConnectToManager None (PostReturned (Some 7));
                             CallSetupBuild 42 [] 0;
                             CallTeardownBuild (Some 42)]
                          (boot new_worker))) !! 1%nat
               = Some (mkThread (AsyncTeardownBuild TdEnter) Running))
    by (vm_compute; reflexivity).
  assert (Hapi : _manager_api
                   (self (proc (run [CallConnectToManager None
                                       (PostReturned (Some 7));
                                     CallSetupBuild 42 [] 0;
                                     CallTeardownBuild (Some 42)]
                                  (boot new_worker))))
                 = Some (mkUrlBuilder "localhost:43000"))
    by (vm_compute; reflexivity).
  assert (Hfull : full (_idle_executors
                          (self (proc (run [CallConnectToManager None
                                              (PostReturned (Some 7));
                                            CallSetupBuild 42 [] 0;
                                            CallTeardownBuild (Some 42)]
                                         (boot new_worker))))) = true)
    by (vm_compute; reflexivity).
  split; [exact Ht|]. split; [exact Hapi|]. split; [exact Hfull|].
  exact (proj1 (teardown_thread_runs_to_idle _ _ _ Ht Hapi Hfull)).
Defined.

(** ** A setup thread from start to end *)

(** The loop over the snapshot, when every [configure_project_type]
    returns. *)
Lemma setup_configure_loop t executors params idx rest :
  forall s,
    threads (proc s) !! t
    = Some (mkThread (AsyncSetupBuild executors params idx
                        (SetupConfigure rest)) Running) ->
    let s' := run (repeat (StepThread t Returned) (length rest)) s in
    self (proc s') = self (proc s)
    /\ threads (proc s') !! t
       = Some (mkThread (AsyncSetupBuild executors params idx
                           (SetupConfigure [])) Running)
    /\ log_of (Some t) (trace s')
       = log_of (Some t) (trace s) ++ configured params rest.
Proof.
  induction rest as [|e rest IH]; intros s Ht.
  - simpl. rewrite app_nil_r. auto.
  - destruct (quiet_segment s t _ Returned
                (Value (Some (AsyncSetupBuild executors params idx
                                (SetupConfigure rest))))
                (proc s) [ConfigureProjectType e params Returned] Ht
                eq_refl ltac:(discriminate) eq_refl) as (Hw1 & Ht1 & Hlog1).
    simpl in Hw1, Ht1, Hlog1. destruct (IH _ Ht1) as (Hw2 & Ht2 & Hlog2).
    change (run (repeat (StepThread t Returned) (length (e :: rest))) s)
      with (run (repeat (StepThread t Returned) (length rest))
              (step_thread t Returned s)).
    split; [rewrite Hw2; exact Hw1|]. split; [exact Ht2|].
    rewrite Hlog2, Hlog1, <- app_assoc. reflexivity.
Qed.

(** X19: a setup thread of a connected worker whose project type is set and
    whose calls return runs to its end in [3 + k] segments for a snapshot
    of [k] executors, whatever the other threads are: it assigns the base
    executor index, fetches the project, configures the executors of its
    snapshot in order, runs the job config setup and sends SETUP_COMPLETED
    under the current worker id as its last event; it changes no attribute
    but the base executor index. *)
Theorem setup_thread_runs_to_setup_completed :
  forall s t executors params idx api pt,
    threads (proc s) !! t
    = Some (mkThread (AsyncSetupBuild executors params idx SetupFetch)
              Running) ->
    _manager_api (self (proc s)) = Some api ->
    _project_type (self (proc s)) = Some pt ->
    let s' := run (repeat (StepThread t Returned) (1 + (length executors + 2)))
                s in
    threads (proc s') !! t
    = Some (mkThread
              (AsyncSetupBuild executors params idx
                 (SetupNotify SETUP_COMPLETED)) Finished)
    /\ log_of (Some t) (trace s')
       = log_of (Some t) (trace s)
         ++ FetchProject pt Returned :: configured params executors
         ++ [RunJobConfigSetup pt Returned;
             PutState api (_worker_id (self (proc s))) SETUP_COMPLETED
               Returned]
    /\ self (proc s') = set_base_executor_index (Some idx) (self (proc s)).
Proof.
  intros s t executors params idx api pt Ht Hapi Hpt s'.
  unfold s'. rewrite !repeat_app, !run_app.
  change (run (repeat (StepThread t Returned) 1) s)
    with (step_thread t Returned s).
  destruct (quiet_segment s t _ Returned
              (Value (Some (AsyncSetupBuild executors params idx
                              (SetupConfigure executors))))
              (mkProcess (set_base_executor_index (Some idx) (self (proc s)))
                 (threads (proc s)))
              [FetchProject pt Returned] Ht) as (Hw1 & Ht1 & Hlog1).
  { simpl. py_unfold. simpl. rewrite Hpt. reflexivity. }
  { discriminate. }
  { reflexivity. }
  simpl in Hw1, Ht1, Hlog1. set (s1 := step_thread t Returned s) in *.
  destruct (setup_configure_loop _ _ _ _ _ _ Ht1) as (Hw2 & Ht2 & Hlog2).
  set (s2 := run (repeat (StepThread t Returned) (length executors)) s1) in *.
  change (run (repeat (StepThread t Returned) 2) s2)
    with (step_thread t Returned (step_thread t Returned s2)).
  destruct (quiet_segment s2 t _ Returned
              (Value (Some (AsyncSetupBuild executors params idx
                              (SetupNotify SETUP_COMPLETED))))
              (proc s2) [RunJobConfigSetup pt Returned] Ht2)
    as (Hw3 & Ht3 & Hlog3).
  { simpl. py_unfold. simpl. rewrite Hw2, Hw1. simpl. rewrite Hpt.
    reflexivity. }
  { discriminate. }
  { reflexivity. }
  simpl in Hw3, Ht3, Hlog3. set (s3 := step_thread t Returned s2) in *.
  destruct (quiet_segment s3 t _ Returned (Value None) (proc s3)
              [PutState api (_worker_id (self (proc s))) SETUP_COMPLETED
                 Returned] Ht3)
    as (Hw4 & Ht4 & Hlog4).
  { simpl. unfold _notify_manager_of_state_change. py_unfold. simpl.
    rewrite Hw3, Hw2, Hw1. simpl. rewrite Hapi. reflexivity. }
  { discriminate. }
  { reflexivity. }
  simpl in Hw4, Ht4, Hlog4. split; [exact Ht4|]. split.
  - rewrite Hlog4, Hlog3, Hlog2, Hlog1. simpl. rewrite <- !app_assoc.
    reflexivity.
  - rewrite Hw4, Hw3, Hw2, Hw1. reflexivity.
Qed.

(** Witness of [setup_thread_runs_to_setup_completed]: the two-executor
    worker registers and build 42 is set up; its setup thread runs to its
    end in five segments. *)
Lemma setup_thread_runs_to_setup_completed_witness :
  threads (proc (run [CallConnectToManager None (PostReturned (Some 7));
                      CallSetupBuild 42 [] 0]
                   (boot new_worker))) !! 0%nat
  = Some (mkThread
            (AsyncSetupBuild [SubjobExecutor.new 0; SubjobExecutor.new 1] [] 0
               SetupFetch) Running)
  /\ _manager_api
       (self (proc (run [CallConnectToManager None (PostReturned (Some 7));
                         CallSetupBuild 42 [] 0]
                      (boot new_worker))))
     = Some (mkUrlBuilder "localhost:43000")
  /\ _project_type
       (self (proc (run [CallConnectToManager None (PostReturned (Some 7));
                         CallSetupBuild 42 [] 0]
                      (boot new_worker))))
     = Some (create_project_type [])
  /\ threads
       (proc (run (repeat (StepThread 0 Returned) 5)
                (run [CallConnectToManager None (PostReturned (Some 7));
                      CallSetupBuild 42 [] 0]
                   (boot new_worker)))) !! 0%nat
     = Some (mkThread
               (AsyncSetupBuild [SubjobExecutor.new 0; SubjobExecutor.new 1]
                  [] 0 (SetupNotify SETUP_COMPLETED)) Finished).
Proof.
  assert (Ht : threads
                 (proc (run [CallConnectToManager None (PostReturned (Some 7));
                             CallSetupBuild 42 [] 0]
                          (boot new_worker))) !! 0%nat
               = Some (mkThread
                         (AsyncSetupBuild
                            [SubjobExecutor.new 0; SubjobExecutor.new 1] [] 0
                            SetupFetch) Running))
    by (vm_compute; reflexivity).
  assert (Hapi : _manager_api
                   (self (proc (run [CallConnectToManager None
                                       (PostReturned (Some 7));
                                     CallSetupBuild 42 [] 0]
                                  (boot new_worker))))
                 = Some (mkUrlBuilder "localhost:43000"))
    by (vm_compute; reflexivity).
  assert (Hpt : _project_type
                  (self (proc (run [CallConnectToManager None
                                      (PostReturned (Some 7));
                                    CallSetupBuild 42 [] 0]
                                 (boot new_worker))))
                = Some (create_project_type []))
    by (vm_compute; reflexivity).
  split; [exact Ht|]. split; [exact Hapi|]. split; [exact Hpt|].
  exact (proj1 (setup_thread_runs_to_setup_completed _ _ _ _ _ _ _
                  Ht Hapi Hpt)).
Defined.

(** ** The reply of [start_working_on_subjob] *)

Lemma all_executors_id n e :
  In e (all_executors n) -> (SubjobExecutor.id e < Z.to_nat n)%nat.
Proof.
  unfold all_executors, range. intros Hin. apply in_map_iff in Hin.
  destruct Hin as (i & <- & Hi). apply in_seq in Hi. simpl. lia.
Qed.

(** What an action appends to the trace of a worker built by the
    constructor: no reply, or the acquisition of one of its executors by a
    request handler. *)
Lemma reply_step port host n threshold interval w schedule a :
  ClusterWorker_init port host n threshold interval = Some w ->
  exists who evs,
    trace (step a (run schedule (boot w)))
    = trace (run schedule (boot w)) ++ tagged who evs
    /\ (Forall no_reply evs
        \/ exists h b sj cmds e c,
             who = Some h /\ In e (all_executors n)
             /\ evs = acquisition b sj cmds e c).
Proof.
  intros Hw. set (s := run schedule (boot w)).
  destruct (call_or_segment a) as [Hcall|(tid & o & ->)].
  - exists None.
    assert (Hm : exists m, emits no_reply m /\ step a s = call m s).
    { destruct a; simpl; try (exfalso; eapply Hcall; reflexivity);
        eexists; (split; [|reflexivity]); emits_bodies. }
    destruct Hm as (m & Hm & ->).
    destruct (emits_call no_reply m s Hm (fun _ => I)) as (evs & Htr & Hevs).
    exists evs. auto.
  - exists (Some tid). simpl. unfold step_thread.
    destruct (threads (proc s) !! tid) as [[tk st]|] eqn:Htid;
      [|exists []; split; [rewrite app_nil_r; reflexivity|left; constructor]].
    destruct st;
      try (exists []; split;
           [rewrite app_nil_r; reflexivity|left; constructor]).
    destruct tk as [executors params idx pc|pc|b sj cmds|b sj e cmds pc].
    3: { (* the request handler replies with the id of the head of the pool *)
      simpl. unfold mbind, Py_bind. rewrite resume_unfold. unfold Queue_get.
      destruct (queue (_idle_executors (self (proc s)))) as [|e rest] eqn:Hq;
        [exists []; split;
         [rewrite app_nil_r; reflexivity|left; constructor]|].
      simpl.
      exists (acquisition b sj cmds e (length (threads (proc s)))).
      split; [reflexivity|]. right.
      exists tid, b, sj, cmds, e, (length (threads (proc s))).
      split; [reflexivity|]. split; [|reflexivity].
      destruct (pool_inv_run w schedule _ (pool_inv_boot w)) as [_ Hperm].
      fold s in Hperm. destruct (init_queue _ _ _ _ _ _ Hw) as [Hqw _].
      rewrite Hqw in Hperm. simpl in Hperm.
      eapply Permutation_in; [exact Hperm|].
      unfold pool_content. rewrite Hq. left. reflexivity. }
    all: match goal with
         | |- context [task_step ?t ?o ?p] =>
             assert (He : emits no_reply (task_step t o))
               by (simpl; try destruct pc; emits_bodies);
             specialize (He p);
             destruct (task_step t o p) as [[[x|ex|] p'] evs]; simpl in *;
             [exists evs; split; [reflexivity|left; exact He]
             |exists evs; split; [reflexivity|left; exact He]
             |exists []; split;
              [rewrite app_nil_r; reflexivity|left; constructor]]
         end.
Qed.

(** X20: along any schedule of a worker built by the constructor, every
    reply [{executor_id: k}] of [start_working_on_subjob] names one of the
    worker's executors, [0 <= k < n], and is made by an accepted request
    right after it took that executor from the pool and started the subjob
    thread with it: no other method and no other thread replies with an
    executor id. *)
Theorem reply_names_an_executor_of_the_worker :
  forall port host n threshold interval w schedule who k,
    ClusterWorker_init port host n threshold interval = Some w ->
    In (who, Reply k) (trace (run schedule (boot w))) ->
    (k < Z.to_nat n)%nat
    /\ exists h b sj cmds c before later,
         who = Some h
         /\ trace (run schedule (boot w))
            = before
              ++ tagged (Some h)
                   (acquisition b sj cmds (SubjobExecutor.new k) c)
              ++ later.
Proof.
  intros port host n threshold interval w schedule who k Hw.
  induction schedule as [|a schedule IH] using rev_ind; [intros []|].
  rewrite run_snoc.
  destruct (reply_step _ _ _ _ _ _ schedule a Hw)
    as (who' & evs & -> & Hevs).
  intros Hin. apply in_app_iff in Hin. destruct Hin as [Hin|Hin].
  - destruct (IH Hin)
      as (Hk & h & b & sj & cmds & c & before & later & -> & Htr).
    split; [exact Hk|].
    exists h, b, sj, cmds, c, before, (later ++ tagged who' evs).
    split; [reflexivity|]. rewrite Htr at 1. rewrite <- !app_assoc.
    reflexivity.
  - apply in_tagged in Hin. destruct Hin as [-> Hin].
    destruct Hevs as [Hevs|(h & b & sj & cmds & e & c & -> & He & ->)].
    + exfalso. rewrite Forall_forall in Hevs.
      exact (Hevs _ (proj2 (list_elem_of_In _ _) Hin)).
    + destruct Hin as [?|[?|[Heq|[]]]]; try discriminate.
      inversion Heq; subst k. split; [apply all_executors_id; exact He|].
      destruct e as [i]. simpl.
      exists h, b, sj, cmds, c, (trace (run schedule (boot w))), [].
      split; [reflexivity|]. unfold acquisition, tagged. simpl.
      reflexivity.
Qed.

(** Witness of [reply_names_an_executor_of_the_worker]: on the two-executor
    worker a subjob request of build 42 is accepted and replies with
    executor 0. *)
Lemma reply_names_an_executor_of_the_worker_witness :
  ClusterWorker_init 43001 "host" 2 3 5 = Some new_worker
  /\ In (Some 1%nat, Reply 0)
       (trace (run [CallConnectToManager None (PostReturned (Some 7));
                    CallSetupBuild 42 [] 0;
                    CallStartWorkingOnSubjob 42 3 []; StepThread 1 Returned]
                 (boot new_worker)))
  /\ (0 < Z.to_nat 2)%nat.
Proof.
  assert (Hw : ClusterWorker_init 43001 "host" 2 3 5 = Some new_worker)
    by (vm_compute; reflexivity).
  assert (Hin :
    In (Some 1%nat, Reply 0)
      (trace (run [CallConnectToManager None (PostReturned (Some 7));
                   CallSetupBuild 42 [] 0;
                   CallStartWorkingOnSubjob 42 3 []; StepThread 1 Returned]
                (boot new_worker)))).
  { vm_compute. do 30 (try (left; reflexivity); right). }
  split; [exact Hw|]. split; [exact Hin|].
  exact (proj1 (reply_names_an_executor_of_the_worker
                  _ _ _ _ _ _ _ _ _ Hw Hin)).
Defined.

(** ** Threads of a worker that has no manager *)

(** X21: on a worker whose [_manager_api] is None -- it never connected --
    a thread ends with AttributeError where it first uses the manager api
    and the call it was about to make is not made: a setup thread after
    the whole setup, before its notification; a teardown thread after the
    teardown and the polling, at the responsiveness probe; a subjob thread
    after [execute_subjob], when it computes the results url, that is
    before [open] and before its [put], so that it keeps its executor.  The
    worker's attributes are left as they were. *)
Theorem threads_need_a_manager :
  forall s t tk o evs,
    _manager_api (self (proc s)) = None ->
    threads (proc s) !! t = Some (mkThread tk Running) ->
    needs_manager tk = Some evs ->
    let s' := step (StepThread t o) s in
    self (proc s') = self (proc s)
    /\ threads (proc s') !! t = Some (mkThread tk (Crashed AttributeError))
    /\ log_of (Some t) (trace s') = log_of (Some t) (trace s) ++ evs
    /\ holds (mkThread tk (Crashed AttributeError))
       = match tk with
         | ExecuteSubjob _ _ e _ _ => Some e
         | _ => None
         end.
Proof.
  intros s t tk o evs Hapi Ht Hneeds s'.
  assert (Hstep : task_step tk o (proc s)
                  = (Exception AttributeError, proc s, evs)).
  { destruct tk as [executors params idx [| |sta]|[| | | |]|b sj cmds
                   |b sj e cmds [| | |]];
      try discriminate; inversion Hneeds; subst evs; simpl;
      unfold _is_manager_responsive, _notify_manager_of_state_change;
      py_unfold; simpl; rewrite Hapi; reflexivity. }
  destruct (quiet_segment s t tk o _ _ _ Ht Hstep ltac:(discriminate) eq_refl)
    as (Hw & Ht' & Hlog).
  split; [exact Hw|]. split; [exact Ht'|]. split; [exact Hlog|].
  destruct tk as [executors params idx [| |sta]|[| | | |]|b sj cmds
                 |b sj e cmds [| | |]];
    try discriminate; reflexivity.
Qed.

(** Witness of [threads_need_a_manager]: build 42 is set up on the
    two-executor worker before it has connected; a subjob request takes
    executor 0, [execute_subjob] returns and the subjob thread ends with
    AttributeError, keeping the executor. *)
Lemma threads_need_a_manager_witness :
  _manager_api
    (self (proc (run [CallSetupBuild 42 [] 0;
                      CallStartWorkingOnSubjob 42 3 []; StepThread 1 Returned;
                      StepThread 2 Returned]
                   (boot new_worker)))) = None
  /\ threads (proc (run [CallSetupBuild 42 [] 0;
                         CallStartWorkingOnSubjob 42 3 [];
                         StepThread 1 Returned; StepThread 2 Returned]
                      (boot new_worker))) !! 2%nat
     = Some (mkThread (ExecuteSubjob 42 3 (SubjobExecutor.new 0) [] SjOpen)
               Running)
  /\ threads (proc (step (StepThread 2 Returned)
                      (run [CallSetupBuild 42 [] 0;
                            CallStartWorkingOnSubjob 42 3 [];
                            StepThread 1 Returned; StepThread 2 Returned]
                         (boot new_worker)))) !! 2%nat
     = Some (mkThread (ExecuteSubjob 42 3 (SubjobExecutor.new 0) [] SjOpen)
               (Crashed AttributeError)).
Proof.
  assert (Hapi : _manager_api
                   (self (proc (run [CallSetupBuild 42 [] 0;
                                     CallStartWorkingOnSubjob 42 3 [];
                                     StepThread 1 Returned;
                                     StepThread 2 Returned]
                                  (boot new_worker)))) = None)
    by (vm_compute; reflexivity).
  assert (Ht : threads (proc (run [CallSetupBuild 42 [] 0;
                                   CallStartWorkingOnSubjob 42 3 [];
                                   StepThread 1 Returned;
                                   StepThread 2 Returned]
                                (boot new_worker))) !! 2%nat
               = Some (mkThread
                         (ExecuteSubjob 42 3 (SubjobExecutor.new 0) [] SjOpen)
                         Running))
    by (vm_compute; reflexivity).
  split; [exact Hapi|]. split; [exact Ht|].
  destruct (threads_need_a_manager _ _ _ Returned _ Hapi Ht eq_refl)
    as (_ & Ht' & _).
  exact Ht'.
Defined.
